(* ===== verification/_CoqProject ===== *)
-Q . S2P
Prelude.v
JsString.v
JsDate.v
DateFns.v
BigCalendar.v
Base64.v
Ics.v
SlotTime.v
EmailService.v
SlotCalendar.v
PrincipalCalendar.v
Enquiries.v
EnquiriesProps.v
