(* ===== verification/Prelude.v ===== *)
(** * School Enquiry & Admission Management System: a verification development

    The repository is a Next.js admin console and an API whose only
    logic of its own is the counselling-invite email service.  Its parts
    and how they interact:

    - [src/apps/api/src/services/email.ts]: [sendParentCalendarInvite] and
      [sendPrincipalCalendarInvite] read the school identity from
      [process.env] (with [||] fallbacks), turn the slot's ["HH:MM"]
      strings into two [Date]s ([split], [map(Number)], [new Date],
      [setHours]), build a [CalendarEventData], encode it with the [ics]
      library ([generateICSContent], which degrades to [''] on error),
      compose a trimmed template body, and then either log everything
      ([NODE_ENV === 'development']) or call [resend.emails.send] inside a
      [try]/[catch], returning [{success, message}].
    - [src/apps/web/app/admin/slots/CalendarView.tsx]: maps slots to
      calendar events, colours them by booking state and hands them to
      react-big-calendar with a date-fns localizer.
    - [src/apps/web/app/principal/calendar/page.tsx]: keeps the booked
      slots, flattens their bookings into events, filters them by
      today / ISO week / all, counts them, shows them in the same kind of
      calendar and details the selected session.
    - [src/apps/web/app/admin/enquiries/page.tsx]: React state of the
      enquiry table: debounced search, server filters, client-side
      date/class filters, pagination, the two effects that fetch, and the
      table it renders.
    - [src/apps/web/app/principal/layout.tsx]: a layout shell (no logic).

    ** Library layout (each file under the logical root of the project)

    - [Prelude] (this file): the [js_scope] notations, the [JsM] monad
      (explicit world passing with JavaScript's normal/throw completions
      and [try]/[catch]), the [jsmodel] hint database, the shared string
      lemmas and tactics.
    - [JsString]: the JavaScript builtins on strings that the code calls:
      [String.prototype.split] with a one-character separator,
      [String.prototype.trim], the relational [<] on strings, and
      [Number(string)] (StringToNumber) with [ToIntegerOrInfinity].
    - [JsDate]: [Date] time values (milliseconds, [None] for an invalid
      date), the local-time conversion with a fixed offset, [MakeTime],
      [MakeDay], [MakeDate], [TimeClip], [setHours], [setDate], the
      getters and the relational comparisons of Dates, over a proleptic
      Gregorian day count whose two conversions are proved inverse.
    - [DateFns]: the date-fns functions the pages call ([startOfDay],
      [endOfDay], [startOfWeek], [startOfISOWeek], [endOfISOWeek],
      [startOfMonth], [format]), written as date-fns writes them on
      JsDate's operations, with their values on a valid date.
    - [BigCalendar]: the [locales] map, the [dateFnsLocalizer] both
      calendars build, the props record of [<Calendar>], and the two
      things of react-big-calendar the theorems read: the localizer's
      [firstOfWeek] and the range of the week view.
    - [Base64]: [Buffer.from(text).toString('base64')] of the attachment:
      UTF-8 of each code unit, then base64 by groups of three bytes with
      [Z.shiftr], [Z.land], [Z.shiftl] and [Z.lor], padded with [=]; a
      reference decoder states the round trip.
    - [Ics]: [CalendarEventData], the interface of the [ics] library as a
      class [IcsLib], and [generateICSContent].
    - [SlotTime]: the slot-time parsing shared by both senders
      ([split(':').map(Number)], [setHours]) and its properties.
    - [EmailService]: the configuration lookups, the two senders as [JsM]
      programs over a world of console lines and outgoing Resend
      requests, with the Resend client as a class [ResendClient]; the
      abstract dispatch contract [DispatchSpec] and the refinement
      theorems.
    - [SlotCalendar]: the slot and booking records, CalendarView's events,
      its event component, its selection callback, its colour rule, its
      legend and its [<Calendar>] props, with [new Date(string)] as a
      class [DateStringParser].
    - [PrincipalCalendar]: the principal page's state, the settlement of
      [fetchSlots], the booked-slot filter, the flattening of bookings into
      events, the today / week / all filter and the Today card (with one
      [new Date()] reading per event, a clock [nat -> timeval]), the page
      as a step relation [principal_step], its render ([principal_view]:
      spinner, cards, calendar props, session modal), and the layout
      shell of principal/layout.tsx.
    - [Enquiries] and [EnquiriesProps]: the enquiries page with React's
      part written out.  [PageState] holds the ten [useState] cells;
      setters queue [Update]s, an event's updates are applied together and
      [commit] runs the effects whose dependencies changed (the debounce,
      the filter effect, the page effect) until none runs;
      [fetchEnquiries] is split at its [await] into a [Request] that keeps
      the render's closure and a [Settle] event, so responses arrive in
      any order.  [step] is one event (typing, a select, a pagination
      button, the timer, a response) and [reachable] its closure from
      [mount].  [render_enquiries] is the page's JSX as a value, with
      [format]'s exception as a completion.

    ** What the theorems show

    - Slot times ([SlotTime]): a zero-padded ["HH:MM"] string parses back
      to its hours and minutes; for two such strings with minutes below
      60, lexicographic [<] implies the derived start instant precedes the
      end instant, on any valid slot date away from the [TimeClip]
      bounds; without zero-padding it fails for a whole family: a time
      from 10:00 to 23:59 is before an unpadded ["H:MM"] whose digit
      exceeds its first digit as strings, and after it as instants; the
      ICS date array carries the slot's local calendar day and the hours
      and minutes of the string.
    - Dispatch ([EmailService]): in development mode no Resend request is
      made, the result is a success and the console gets the mock e-mail
      (the parent's with the ICS content, the principal's without); in any other [NODE_ENV] exactly
      one request is made, with the recipient, subject and the
      [counselling-session.ics] attachment of the code; a provider error
      gives ["Failed to send email: " ++ message]; a thrown fault is
      caught, so the async function never rejects; an ICS encoding
      failure leaves an empty attachment; both senders refine
      [DispatchSpec].
    - Attachment ([Base64]): decoding the attachment as base64 and then
      UTF-8 gives back the ICS text; its length is
      [4 * ceil(b / 3)] for [b] UTF-8 bytes, between [n] and [2n] for a
      text of [n] characters.
    - Calendars ([SlotCalendar], [PrincipalCalendar]): the colour rule is
      the class of a slot state in priority order, carries the colours of
      that state's legend swatch, and never moves down from full or
      partially booked as [bookedCount] grows;
      the principal calendar shows one event per booking, hides the
      bookings of slots whose count is stale, and keeps in every
      reachable state only slots with a positive count and a booking;
      selecting one of its events keeps the cards and the calendar and
      opens the Session Details, with the date as
      ['MMMM d, yyyy'] of the local day, or throws on an Invalid Date; its Today filter keeps the events of the
      current local day, its week filter those of the current ISO week
      ([(d + 3) / 7] for day number [d]), Today is This Week narrowed to
      the day, and the Today card agrees with the Today filter when the
      clock readings fall on one day; the calendar's week view, Sunday to
      Saturday since neither page passes a culture, shows of This Week
      only the sessions that agree with the current date on being a
      Sunday; opening a session whose date does not parse throws.
    - Enquiries ([EnquiriesProps]): the invariant of every reachable
      runtime (page from 1, debounce in step with the search box, requests
      of 10 rows); the render loop settles in three rounds; the requests a
      status change, the debounce, typing and the pagination buttons
      issue; the race in which the old page's response, arriving last,
      is shown under "page 1"; the double fetch at the mount; a rejected
      request leaving the spinner on; the date filters as lower bounds on
      the local day (from midnight, from the last Sunday, from the first
      of the month), and a successful response settling into the server's
      rows kept by those bounds and by the grade, read from the request's
      own closure, with the server's unfiltered counts; the Created
      column as ['dd MMM yyyy'] of the local day;
      from every reachable runtime the responses to the requests in
      flight lead to a runtime with the spinner off (liveness, as the
      existence of the trace); rendering throws [RangeError] exactly when
      the table is not loading and a listed [createdAt] does not parse.

    ** Bounds and modelling choices

    - Strings are [Stdlib.Strings.String.string]: JavaScript strings whose
      code units are below 256.  [Number] is computed exactly on the
      StringToNumber grammar (decimal with fraction and exponent, hex,
      octal, binary, [Infinity], surrounding white space); the rounding
      of decimal literals to binary64 is not modelled, it changes no
      value below 2^53 and the slot hours and minutes are far below.
    - Time values are integers in milliseconds; [TimeClip]'s bound
      8.64e15 is written out.  The local time zone is a fixed offset (a
      class [LocalTZA]); daylight-saving transitions are not modelled
      (the code's locale is en-IN, whose zone has none).
    - External services are interfaces, not models: the [ics] encoder
      ([IcsLib.createEvent]), Resend ([ResendClient.emails_send]) and
      [toLocaleDateString] ([LocaleDates]).  Every theorem about the
      senders holds for every behaviour of these services, Resend's
      rejections being thrown objects: a rejection with [null] or
      [undefined], on which the [catch] itself throws, is not
      represented.
    - The date-fns lemmas hold for a current date at least 32 days inside
      the range of time values ([in_range]): the functions move a date
      by less than a month, so no intermediate value is clipped; real
      dates are 10^15 ms inside the bound.
    - React is modelled only as far as the enquiries page depends on it:
      batched updates, effects re-run on changed dependencies in
      declaration order, cleanups before the new effect.  [commit] is
      given 3 rounds of fuel; [commit_terminates] shows any fuel from 3
      gives the same result and its witness that 2 do not always suffice.
    - Rendering is modelled as the values the JSX shows (texts, classes,
      props, which branch of each conditional), not as a DOM.  [format]
      is modelled for the tokens the pages use; a pattern with another
      token gives [None], which no page produces.
    - Not modelled: react-big-calendar's layout beyond the week range
      (an event is placed by its start, as the sessions start and end on
      one day), the lucide icons, the [Resend] constructor at module
      load, the server behind [getEnquiries] and [/api/slots] (only the
      shapes of their responses), and the scheduling between two
      concurrent sender calls (they share no state but the console).

    ** Plan for the next sittings

    ECMAScript's [YearFromTime] and [MonthFromTime] written from the
    specification and proved equal to [civil_from_days]; the month view
    of react-big-calendar against the filters; the admin slot page that
    CalendarView's records come from, when its source is available. *)

From Stdlib Require Import String Ascii ZArith List Lia Bool.
Import ListNotations.

Declare Scope js_scope.
Delimit Scope js_scope with js.
Local Open Scope string_scope.

Create HintDb jsmodel.
Create Rewrite HintDb jsrw.

(** ** Strings: the append lemmas the templates need *)

Lemma str_app_assoc (a b c : string) : (a ++ b) ++ c = a ++ (b ++ c).
Proof. induction a as [|x a IH]; simpl; [reflexivity | now rewrite IH]. Qed.

Lemma str_app_nil_r (a : string) : a ++ "" = a.
Proof. induction a as [|x a IH]; simpl; [reflexivity | now rewrite IH]. Qed.

Lemma str_app_length (a b : string) :
  String.length (a ++ b) = String.length a + String.length b.
Proof. induction a as [|x a IH]; simpl; [reflexivity | now rewrite IH]. Qed.

Lemma str_app_cons (c : ascii) (a b : string) : String c a ++ b = String c (a ++ b).
Proof. reflexivity. Qed.

Lemma str_app_inv_l (a b c : string) : a ++ b = a ++ c -> b = c.
Proof. induction a as [|x a IH]; simpl; [auto | intros H; injection H; auto]. Qed.

#[export] Hint Rewrite str_app_assoc str_app_nil_r : jsrw.
#[export] Hint Rewrite str_app_length : jsrw.

Lemma str_eqb_refl (s : string) : String.eqb s s = true.
Proof. apply String.eqb_refl. Qed.

#[export] Hint Rewrite str_eqb_refl : jsrw.
#[export] Hint Resolve str_app_inv_l : jsmodel.

(** ** Options *)

(** [x || d] on a value that is [undefined] or a string: JavaScript's [||]
    falls back on every falsy value, and the only falsy string is [""]. *)
Definition or_default (o : option string) (d : string) : string :=
  match o with
  | Some s => if String.eqb s "" then d else s
  | None => d
  end.

Lemma or_default_nonempty o d : d <> "" -> or_default o d <> "".
Proof.
  intros Hd. destruct o as [s|]; simpl; [|exact Hd].
  destruct (String.eqb_spec s ""); [exact Hd | exact n].
Qed.

(** ** Lists *)

(** [f] on every element, failing when it fails on one. *)
Fixpoint map_option {A B} (f : A -> option B) (l : list A) : option (list B) :=
  match l with
  | [] => Some []
  | x :: l => match f x, map_option f l with
              | Some y, Some ys => Some (y :: ys)
              | _, _ => None
              end
  end.

Lemma map_option_none {A B} (f : A -> option B) l :
  map_option f l = None <-> exists x, In x l /\ f x = None.
Proof.
  induction l as [|x l IH]; simpl; [split; [discriminate | intros (y & [] & _)] |].
  destruct (f x) eqn:Hx; [destruct (map_option f l) eqn:Hl |].
  - split; [discriminate |]. intros (y & [<-|Hy] & Hn); [congruence |].
    assert (Hc : Some l0 = None) by (apply IH; eauto). discriminate.
  - split; [intros _ | reflexivity]. destruct (proj1 IH eq_refl) as (y & Hy & Hn). eauto.
  - split; [intros _; eauto | reflexivity].
Qed.

(** A boolean check of [f] on the [n] integers from [z]: a property of
    a finite range proved by evaluation. *)
Fixpoint all_range (f : Z -> bool) (n : nat) (z : Z) : bool :=
  match n with
  | O => true
  | S k => f z && all_range f k (z + 1)
  end.

Lemma all_range_spec f n z :
  all_range f n z = true -> forall x, (z <= x < z + Z.of_nat n)%Z -> f x = true.
Proof.
  revert z; induction n as [|n IH]; intros z Hall x Hx; simpl in *; [lia |].
  apply andb_true_iff in Hall as [Hz Hrest].
  destruct (Z.eq_dec x z) as [->|Hne]; [exact Hz | apply (IH (z + 1)%Z Hrest); lia].
Qed.

(** Filtering twice is filtering once by the conjunction. *)
Lemma filter_filter_andb {A} (f g : A -> bool) (l : list A) :
  filter g (filter f l) = filter (fun x => f x && g x) l.
Proof.
  induction l as [|x l IH]; simpl; [reflexivity |].
  destruct (f x); simpl; [destruct (g x); simpl; now rewrite IH | exact IH].
Qed.

#[export] Hint Resolve or_default_nonempty : jsmodel.

(** ** Completions and the [JsM] monad

    A JavaScript statement completes normally with a value or abruptly
    with a thrown value; the development only needs the thrown value's
    [message] property, [None] when it is [undefined]. *)

Inductive completion (A : Type) : Type :=
| Normal (a : A)
| Throw (message : option string).
Arguments Normal {A} a.
Arguments Throw {A} message.

(** A computation threads the world [W] (the observable effects: console
    lines, outgoing requests) and completes normally or by a throw. *)
Definition JsM (W A : Type) : Type := W -> completion A * W.

Section Monad.
Context {W : Type}.

Definition ret {A} (a : A) : JsM W A := fun w => (Normal a, w).

Definition bind {A B} (m : JsM W A) (k : A -> JsM W B) : JsM W B :=
  fun w => match m w with
           | (Normal a, w') => k a w'
           | (Throw e, w') => (Throw e, w')
           end.

Definition throw {A} (e : option string) : JsM W A := fun w => (Throw e, w).

(** [try { m } catch (error) { h(error.message) }] *)
Definition try_catch {A} (m : JsM W A) (h : option string -> JsM W A) : JsM W A :=
  fun w => match m w with
           | (Normal a, w') => (Normal a, w')
           | (Throw e, w') => h e w'
           end.

Definition modify (f : W -> W) : JsM W unit := fun w => (Normal tt, f w).

Lemma bind_ret_l {A B} (a : A) (k : A -> JsM W B) w : bind (ret a) k w = k a w.
Proof. reflexivity. Qed.

Lemma bind_assoc {A B C} (m : JsM W A) (k : A -> JsM W B) (k' : B -> JsM W C) w :
  bind (bind m k) k' w = bind m (fun a => bind (k a) k') w.
Proof. unfold bind. destruct (m w) as [[a|e] w']; reflexivity. Qed.

Lemma try_catch_normal {A} (m : JsM W A) h w a w' :
  m w = (Normal a, w') -> try_catch m h w = (Normal a, w').
Proof. unfold try_catch. now intros ->. Qed.

Lemma try_catch_throw {A} (m : JsM W A) h w e w' :
  m w = (Throw e, w') -> try_catch m h w = h e w'.
Proof. unfold try_catch. now intros ->. Qed.
End Monad.

Notation "x <- m ;; k" := (bind m (fun x => k))
  (at level 61, m at next level, right associativity) : js_scope.
Notation "m ;; k" := (bind m (fun _ => k))
  (at level 61, right associativity) : js_scope.

#[export] Hint Rewrite @bind_ret_l @bind_assoc : jsrw.

(** A computation that never completes abruptly, from every world. *)
Definition never_throws {W A} (m : JsM W A) : Prop :=
  forall w, exists a w', m w = (Normal a, w').

Lemma try_catch_never_throws {W A} (m : JsM W A) h :
  (forall e, never_throws (h e)) -> never_throws (try_catch m h).
Proof.
  intros Hh w. unfold try_catch. destruct (m w) as [[a|e] w'].
  - eauto.
  - apply Hh.
Qed.

Lemma bind_never_throws {W A B} (m : JsM W A) (k : A -> JsM W B) :
  never_throws m -> (forall a, never_throws (k a)) -> never_throws (bind m k).
Proof.
  intros Hm Hk w. unfold bind. destruct (Hm w) as (a & w' & ->). apply Hk.
Qed.

Lemma ret_never_throws {W A} (a : A) : never_throws (W := W) (ret a).
Proof. intros w. now exists a, w. Qed.

Lemma modify_never_throws {W} (f : W -> W) : never_throws (modify f).
Proof. intros w. now exists tt, (f w). Qed.

#[export] Hint Resolve try_catch_never_throws bind_never_throws
  ret_never_throws modify_never_throws : jsmodel.

(** Unfold the monad on a concrete program and compute. *)
Ltac run_js := cbv [bind ret throw try_catch modify] in *; simpl in *.

(** ** Integer division by constants

    [zdiv_facts] names every [x / c] and [x mod c] of the goal and of the
    hypotheses and adds
    the Euclidean equation and the remainder's bounds, so that [lia]
    closes goals about floor division by the constants of the model. *)
Ltac zdiv_name x c :=
  pose proof (Z.div_mod x c ltac:(lia)); pose proof (Z.mod_pos_bound x c ltac:(lia));
  set (x / c)%Z in *; set (x mod c)%Z in *.

Ltac zdiv_facts :=
  repeat match goal with
  | |- context [(?x / ?c)%Z] => zdiv_name x c
  | |- context [(?x mod ?c)%Z] => zdiv_name x c
  | _ : context [(?x / ?c)%Z] |- _ => zdiv_name x c
  | _ : context [(?x mod ?c)%Z] |- _ => zdiv_name x c
  end.

Ltac zdiv_lia := zdiv_facts; lia.

(** ** The console

    [console.log(a, b, ...)] and [console.error(a, b, ...)] write one
    line of arguments; a world that has a console says how a line is
    appended to it. *)
Inductive console_line : Type :=
| ConsoleLog (args : list string)
| ConsoleError (args : list string).

Class Console (W : Type) : Type := console_write : console_line -> W -> W.

Definition console_log {W} `{Console W} (args : list string) : JsM W unit :=
  modify (console_write (ConsoleLog args)).
Definition console_error {W} `{Console W} (args : list string) : JsM W unit :=
  modify (console_write (ConsoleError args)).

(** A template substitution [${v}] of a value that may be [undefined]. *)
Definition show_opt (o : option string) : string :=
  match o with
  | Some s => s
  | None => "undefined"
  end.
