(* ===== verification/JsString.v ===== *)
(** * JsString: the JavaScript string builtins the code calls

    [String.prototype.split] with a one-character separator (email.ts,
    lines 79-80 and 188-189), [String.prototype.trim] (lines 114 and 217),
    the relational [<] on strings (the order the slot times are compared
    in), and [Number] applied to a string (the [map(Number)] of the same
    lines): ECMAScript's StringToNumber and ToIntegerOrInfinity; and the
    other way, [Number.prototype.toString] on integers as template
    literals print them.  Strings are code-unit sequences below 256. *)

From Stdlib Require Import String Ascii ZArith List Lia Bool DecimalString.
From S2P Require Import Prelude.
Import ListNotations.
Local Open Scope string_scope.
Local Open Scope Z_scope.

(** ** [split] on a one-character separator

    For a non-empty separator ECMAScript returns [[""]] on the empty
    string and otherwise the pieces between occurrences, empty pieces
    included. *)
Fixpoint split_char (sep : ascii) (s : string) : list string :=
  match s with
  | EmptyString => [EmptyString]
  | String c rest =>
      if Ascii.eqb c sep then EmptyString :: split_char sep rest
      else match split_char sep rest with
           | p :: ps => String c p :: ps
           | [] => [String c EmptyString]
           end
  end.

(** ** White space and [trim]

    The WhiteSpace and LineTerminator code points below 256: TAB, LF, VT,
    FF, CR, SPACE and NO-BREAK SPACE. *)
Definition is_js_space (c : ascii) : bool :=
  match nat_of_ascii c with
  | 9%nat | 10%nat | 11%nat | 12%nat | 13%nat | 32%nat | 160%nat => true
  | _ => false
  end.

Fixpoint trim_start (s : string) : string :=
  match s with
  | EmptyString => EmptyString
  | String c rest => if is_js_space c then trim_start rest else s
  end.

Fixpoint trim_end (s : string) : string :=
  match s with
  | EmptyString => EmptyString
  | String c rest =>
      match trim_end rest with
      | EmptyString => if is_js_space c then EmptyString else String c EmptyString
      | r => String c r
      end
  end.

Definition trim (s : string) : string := trim_end (trim_start s).

(** ** The relational [<] on strings: code units compared left to right,
    a proper prefix being smaller (IsLessThan on two Strings). *)
Fixpoint js_lt (a b : string) : bool :=
  match a, b with
  | EmptyString, String _ _ => true
  | EmptyString, EmptyString => false
  | String _ _, EmptyString => false
  | String x a', String y b' =>
      if Nat.ltb (nat_of_ascii x) (nat_of_ascii y) then true
      else if Nat.eqb (nat_of_ascii x) (nat_of_ascii y) then js_lt a' b'
      else false
  end.

(** ** Numbers

    A Number value: NaN, an infinity, or a finite value [mant * 10^exp10]
    kept exact. *)
Inductive jsnum : Type :=
| JNaN
| JInf (negative : bool)
| JFin (mant exp10 : Z).

(** ToIntegerOrInfinity of a finite value: truncation toward zero. *)
Definition fin_trunc (m e : Z) : Z :=
  if Z.leb 0 e then m * 10 ^ e else Z.quot m (10 ^ (- e)).

(** [None] for NaN and the infinities: the callers of the code turn
    every non-finite argument into an invalid date. *)
Definition to_integer_finite (n : jsnum) : option Z :=
  match n with
  | JFin m e => Some (fin_trunc m e)
  | _ => None
  end.

Definition digit_value (c : ascii) : option Z :=
  let n := nat_of_ascii c in
  if Nat.leb 48 n && Nat.leb n 57 then Some (Z.of_nat n - 48) else None.

Definition hex_value (c : ascii) : option Z :=
  let n := nat_of_ascii c in
  if Nat.leb 48 n && Nat.leb n 57 then Some (Z.of_nat n - 48)
  else if Nat.leb 97 n && Nat.leb n 102 then Some (Z.of_nat n - 87)
  else if Nat.leb 65 n && Nat.leb n 70 then Some (Z.of_nat n - 55)
  else None.

(** The longest run of digits of a radix: its value folded into [acc],
    its length, and the rest of the input. *)
Fixpoint take_digits (val : ascii -> option Z) (radix acc : Z) (n : nat) (s : string)
  : Z * nat * string :=
  match s with
  | String c rest =>
      match val c with
      | Some d => take_digits val radix (acc * radix + d) (S n) rest
      | None => (acc, n, s)
      end
  | EmptyString => (acc, n, s)
  end.

Definition radix_digit (radix : Z) (c : ascii) : option Z :=
  match hex_value c with
  | Some d => if Z.ltb d radix then Some d else None
  | None => None
  end.

(** NonDecimalIntegerLiteral: at least one digit and nothing after. *)
Definition non_decimal (radix : Z) (s : string) : jsnum :=
  match take_digits (radix_digit radix) radix 0 0 s with
  | (v, S _, EmptyString) => JFin v 0
  | _ => JNaN
  end.

(** The exponent part [e] or [E], an optional sign, at least one digit,
    and the end of the input. *)
Definition exponent_part (s : string) : option Z :=
  let signed sgn rest :=
    match take_digits digit_value 10 0 0 rest with
    | (v, S _, EmptyString) => Some (sgn * v)
    | _ => None
    end in
  match s with
  | EmptyString => Some 0
  | String e rest =>
      if (Ascii.eqb e "e"%char || Ascii.eqb e "E"%char) then
        match rest with
        | String "+"%char r => signed 1 r
        | String "-"%char r => signed (-1) r
        | _ => signed 1 rest
        end
      else None
  end.

(** StrUnsignedDecimalLiteral: [Infinity], or digits with an optional
    fraction (at least one digit in all) and an optional exponent. *)
Definition unsigned_decimal (s : string) : jsnum :=
  if String.eqb s "Infinity" then JInf false else
  let '(ip, ni, r1) := take_digits digit_value 10 0 0 s in
  let '(v, nf, r2) :=
    match r1 with
    | String "."%char r => take_digits digit_value 10 ip 0 r
    | _ => (ip, 0%nat, r1)
    end in
  if Nat.eqb (ni + nf)%nat 0 then JNaN else
  match exponent_part r2 with
  | Some e => JFin v (e - Z.of_nat nf)
  | None => JNaN
  end.

Definition negate (n : jsnum) : jsnum :=
  match n with
  | JNaN => JNaN
  | JInf b => JInf (negb b)
  | JFin m e => JFin (- m) e
  end.

(** StringToNumber on the trimmed text. *)
Definition numeric_literal (s : string) : jsnum :=
  match s with
  | EmptyString => JFin 0 0
  | String "0"%char (String x rest) =>
      if Ascii.eqb x "x"%char || Ascii.eqb x "X"%char then non_decimal 16 rest
      else if Ascii.eqb x "o"%char || Ascii.eqb x "O"%char then non_decimal 8 rest
      else if Ascii.eqb x "b"%char || Ascii.eqb x "B"%char then non_decimal 2 rest
      else unsigned_decimal s
  | String "+"%char rest => unsigned_decimal rest
  | String "-"%char rest => negate (unsigned_decimal rest)
  | _ => unsigned_decimal s
  end.

(** [Number(s)] for a string [s]. *)
Definition Number (s : string) : jsnum := numeric_literal (trim s).

(** ToNumber of a destructured array element: [undefined] is NaN. *)
Definition to_number_opt (v : option jsnum) : jsnum :=
  match v with
  | Some n => n
  | None => JNaN
  end.

(** [`${n}`] and [String(n)] for an integral Number: its decimal digits,
    with a minus sign when negative. *)
Definition number_to_string (n : Z) : string := NilZero.string_of_int (Z.to_int n).

(** [s.padStart(n, '0')]. *)
Definition pad_start_zero (n : nat) (s : string) : string :=
  (string_of_list_ascii (List.repeat "0"%char (n - String.length s)) ++ s)%string.

Lemma to_integer_finite_int (m : Z) : to_integer_finite (JFin m 0) = Some m.
Proof. unfold to_integer_finite, fin_trunc. simpl. f_equal. ring. Qed.

#[export] Hint Rewrite to_integer_finite_int : jsrw.

(** ** [trim] on concatenations *)

Lemma str_app_nonempty_r (a b : string) : b <> EmptyString -> (a ++ b)%string <> EmptyString.
Proof. destruct a; simpl; [auto | discriminate]. Qed.

Lemma trim_start_app (a b : string) :
  trim_start a <> EmptyString -> trim_start (a ++ b) = (trim_start a ++ b)%string.
Proof.
  induction a as [|c a IH]; simpl; [congruence |].
  destruct (is_js_space c); auto.
Qed.

Lemma trim_end_app (a b : string) :
  trim_end b <> EmptyString -> trim_end (a ++ b) = (a ++ trim_end b)%string.
Proof.
  intros Hb. induction a as [|c a IH]; simpl; [reflexivity |].
  rewrite IH. destruct (a ++ trim_end b)%string eqn:E; [|reflexivity].
  exfalso. apply (str_app_nonempty_r a _ Hb E).
Qed.

Lemma trim_end_app_nonempty (a b : string) :
  trim_end b <> EmptyString -> trim_end (a ++ b) <> EmptyString.
Proof. intros Hb. rewrite trim_end_app by exact Hb. now apply str_app_nonempty_r. Qed.

(** Close [trim_end s <> ""] for a template [s] that ends in a literal
    with a non-space character. *)
Ltac trim_end_nonempty :=
  repeat apply trim_end_app_nonempty; vm_compute; discriminate.
