(* ===== verification/JsDate.v ===== *)
(** * JsDate: [Date] time values and the operations the code applies

    A [Date] holds a time value: milliseconds since 1970-01-01T00:00Z, or
    NaN for an invalid date ([None]).  The code copies a date
    ([new Date(data.slotDate)], email.ts lines 82, 85, 191, 194), resets
    its local time of day ([setHours(h, m, 0, 0)], lines 83, 86, 192, 195)
    and reads its local fields ([getFullYear], [getMonth], [getDate],
    [getHours], [getMinutes], lines 33-44); the pages compare Dates with
    [>=] and [<=], and date-fns moves them with [getDay], [getDate] and
    [setDate].  The operations follow the ECMAScript abstract operations
    Day, WeekDay, LocalTime, UTC, MakeTime, MakeDay, MakeDate and
    TimeClip; the local time zone is a fixed offset.  The calendar
    conversions [civil_from_days] and [days_from_civil] are inverse on
    every day number ([civil_from_days_spec], from a check of the 146097
    days of a 400-year era), so [setDate(getDate() + k)] moves a date by
    exactly [k] days ([setDate_shift]). *)

From Stdlib Require Import ZArith Lia Bool.
From S2P Require Import Prelude JsString.
Local Open Scope string_scope.
Local Open Scope Z_scope.

Definition timeval : Type := option Z.

(** LocalTZA: the local time zone's offset from UTC in milliseconds. *)
Class LocalTZA : Type := local_tza : Z.

Definition msPerSecond : Z := 1000.
Definition msPerMinute : Z := 60000.
Definition msPerHour : Z := 3600000.
Definition msPerDay : Z := 86400000.
(** The largest magnitude of a time value (TimeClip). *)
Definition maxTime : Z := 8640000000000000.

Definition Day (t : Z) : Z := t / msPerDay.
Definition TimeWithinDay (t : Z) : Z := t mod msPerDay.
Definition HourFromTime (t : Z) : Z := (t / msPerHour) mod 24.
Definition MinFromTime (t : Z) : Z := (t / msPerMinute) mod 60.

Section WithZone.
Context `{LocalTZA}.

Definition LocalTime (t : Z) : Z := t + local_tza.
Definition UTC (t : Z) : Z := t - local_tza.

(** MakeTime: NaN when an argument is not finite; otherwise the
    integer parts combined. *)
Definition MakeTime (hour min sec ms : jsnum) : option Z :=
  match to_integer_finite hour, to_integer_finite min,
        to_integer_finite sec, to_integer_finite ms with
  | Some h, Some m, Some s, Some milli =>
      Some (h * msPerHour + m * msPerMinute + s * msPerSecond + milli)
  | _, _, _, _ => None
  end.

Definition MakeDate (day : Z) (time : option Z) : option Z :=
  option_map (fun tm => day * msPerDay + tm) time.

Definition TimeClip (t : option Z) : timeval :=
  match t with
  | Some z => if Z.abs z <=? maxTime then Some z else None
  | None => None
  end.

(** [new Date(d)] for a [Date] [d]: a copy of its time value. *)
Definition date_copy (d : timeval) : timeval := d.

(** [Date.prototype.setHours(hour, min, sec, ms)] with all four
    arguments present: the new time value. *)
Definition setHours (d : timeval) (hour min sec ms : jsnum) : timeval :=
  match d with
  | None => None
  | Some t =>
      let lt := LocalTime t in
      TimeClip (option_map UTC (MakeDate (Day lt) (MakeTime hour min sec ms)))
  end.

(** The proleptic Gregorian date of a day number (days since
    1970-01-01): year, month 1..12, day of month 1..31.  It computes
    ECMAScript's YearFromTime, MonthFromTime + 1 and DateFromTime by
    counting in 400-year eras of 146097 days from 0000-03-01. *)
Definition civil_from_days (days : Z) : Z * Z * Z :=
  let z := days + 719468 in
  let era := z / 146097 in
  let doe := z - era * 146097 in
  let yoe := (doe - doe / 1460 + doe / 36524 - doe / 146096) / 365 in
  let y := yoe + era * 400 in
  let doy := doe - (365 * yoe + yoe / 4 - yoe / 100) in
  let mp := (5 * doy + 2) / 153 in
  let dd := doy - (153 * mp + 2) / 5 + 1 in
  let mm := if mp <? 10 then mp + 3 else mp - 9 in
  (if mm <=? 2 then y + 1 else y, mm, dd).

Definition local_civil (t : Z) : Z * Z * Z := civil_from_days (Day (LocalTime t)).

(** The getters: NaN on an invalid date. *)
Definition getFullYear (d : timeval) : option Z :=
  option_map (fun t => let '(y, _, _) := local_civil t in y) d.
Definition getMonth (d : timeval) : option Z :=
  option_map (fun t => let '(_, m, _) := local_civil t in m - 1) d.
Definition getDate (d : timeval) : option Z :=
  option_map (fun t => let '(_, _, dd) := local_civil t in dd) d.
Definition getHours (d : timeval) : option Z :=
  option_map (fun t => HourFromTime (LocalTime t)) d.
Definition getMinutes (d : timeval) : option Z :=
  option_map (fun t => MinFromTime (LocalTime t)) d.
End WithZone.

(** ** Days from a civil date, week days, [setDate] *)

(** The day number of a proleptic Gregorian date (month 1..12): the
    inverse of [civil_from_days], counting in eras from 0000-03-01. *)
Definition days_from_civil (y m d : Z) : Z :=
  let y := if m <=? 2 then y - 1 else y in
  let era := y / 400 in
  let yoe := y - era * 400 in
  let mp := if 2 <? m then m - 3 else m + 9 in
  let doy := (153 * mp + 2) / 5 + d - 1 in
  let doe := yoe * 365 + yoe / 4 - yoe / 100 + doy in
  era * 146097 + doe - 719468.

(** MakeDay(year, month, date) on finite integers, month from 0. *)
Definition MakeDay (year month date : Z) : Z :=
  days_from_civil (year + month / 12) (month mod 12 + 1) 1 + date - 1.

(** WeekDay: 0 for Sunday; 1970-01-01 was a Thursday. *)
Definition WeekDay (t : Z) : Z := (Day t + 4) mod 7.

(** [a >= b] and [a <= b] on two Dates: their time values compared, and
    a comparison with NaN false. *)
Definition js_ge (a b : timeval) : bool :=
  match a, b with
  | Some x, Some y => y <=? x
  | _, _ => false
  end.

Definition js_le (a b : timeval) : bool :=
  match a, b with
  | Some x, Some y => x <=? y
  | _, _ => false
  end.

(** [a - b] and [a + b] on two Numbers that are integers or NaN. *)
Definition num_sub (a b : option Z) : option Z :=
  match a, b with Some x, Some y => Some (x - y) | _, _ => None end.
Definition num_add (a b : option Z) : option Z :=
  match a, b with Some x, Some y => Some (x + y) | _, _ => None end.

Section DateSetters.
Context `{LocalTZA}.

Definition getDay (d : timeval) : option Z :=
  option_map (fun t => WeekDay (LocalTime t)) d.

(** [Date.prototype.setDate(date)]: the local year and month kept, the
    day of the month replaced (and overflowing into the next or previous
    months), the local time of day kept. *)
Definition setDate (d : timeval) (date : option Z) : timeval :=
  match d, date with
  | Some t, Some dt =>
      let lt := LocalTime t in
      let '(y, m, _) := civil_from_days (Day lt) in
      TimeClip (option_map UTC (MakeDate (MakeDay y (m - 1) dt) (Some (TimeWithinDay lt))))
  | _, _ => None
  end.
End DateSetters.

(** ** Lemmas on [setHours] and the local fields *)

Section SetHoursFacts.
Context `{LocalTZA}.

Lemma MakeTime_finite hour min h m :
  to_integer_finite hour = Some h -> to_integer_finite min = Some m ->
  MakeTime hour min (JFin 0 0) (JFin 0 0) = Some (h * msPerHour + m * msPerMinute).
Proof.
  intros Hh Hm. unfold MakeTime. rewrite Hh, Hm, !to_integer_finite_int. f_equal. ring.
Qed.

Lemma MakeTime_nonfinite_hour hour min sec ms :
  to_integer_finite hour = None -> MakeTime hour min sec ms = None.
Proof. intros Hh. unfold MakeTime. now rewrite Hh. Qed.

Lemma MakeTime_nonfinite_min hour min sec ms :
  to_integer_finite min = None -> MakeTime hour min sec ms = None.
Proof.
  intros Hm. unfold MakeTime. rewrite Hm. now destruct (to_integer_finite hour).
Qed.

(** The instant [setHours] computes on a valid date, before clipping. *)
Definition set_local_time (t tod : Z) : Z := UTC (Day (LocalTime t) * msPerDay + tod).

Lemma setHours_finite t hour min h m :
  to_integer_finite hour = Some h -> to_integer_finite min = Some m ->
  setHours (Some t) hour min (JFin 0 0) (JFin 0 0)
  = TimeClip (Some (set_local_time t (h * msPerHour + m * msPerMinute))).
Proof.
  intros Hh Hm. unfold setHours. rewrite (MakeTime_finite _ _ h m Hh Hm). reflexivity.
Qed.

(** The local day start lies in the day before the instant. *)
Lemma set_local_time_bounds t tod :
  t + tod - msPerDay < set_local_time t tod <= t + tod.
Proof. unfold set_local_time, UTC, Day, LocalTime, msPerDay. zdiv_lia. Qed.

Lemma TimeClip_in_range z : Z.abs z <= maxTime -> TimeClip (Some z) = Some z.
Proof. intros Hz. unfold TimeClip. now rewrite (proj2 (Z.leb_le _ _) Hz). Qed.

Lemma set_local_time_clip t tod :
  0 <= tod -> - maxTime + msPerDay <= t -> t + tod <= maxTime ->
  TimeClip (Some (set_local_time t tod)) = Some (set_local_time t tod).
Proof.
  intros H0 Hlo Hhi. apply TimeClip_in_range.
  pose proof (set_local_time_bounds t tod). unfold maxTime, msPerDay in *. lia.
Qed.

Lemma set_local_time_mono t tod1 tod2 :
  tod1 < tod2 -> set_local_time t tod1 < set_local_time t tod2.
Proof. unfold set_local_time, UTC. lia. Qed.

(** Reading the local fields back: a time of day within one day keeps
    the local calendar day and yields its hours and minutes. *)
Lemma local_of_set_local_time t tod :
  LocalTime (set_local_time t tod) = Day (LocalTime t) * msPerDay + tod.
Proof. unfold set_local_time, UTC; unfold LocalTime; ring. Qed.

Lemma Day_set_local_time t tod :
  0 <= tod < msPerDay -> Day (LocalTime (set_local_time t tod)) = Day (LocalTime t).
Proof.
  intros Htod. rewrite local_of_set_local_time. unfold Day, msPerDay in *. zdiv_lia.
Qed.

Lemma Hour_set_local_time t h m :
  0 <= h < 24 -> 0 <= m < 60 ->
  HourFromTime (LocalTime (set_local_time t (h * msPerHour + m * msPerMinute))) = h.
Proof.
  intros Hh Hm. rewrite local_of_set_local_time.
  unfold HourFromTime, msPerDay, msPerHour, msPerMinute. zdiv_lia.
Qed.

Lemma Min_set_local_time t h m :
  0 <= h < 24 -> 0 <= m < 60 ->
  MinFromTime (LocalTime (set_local_time t (h * msPerHour + m * msPerMinute))) = m.
Proof.
  intros Hh Hm. rewrite local_of_set_local_time.
  unfold MinFromTime, msPerDay, msPerHour, msPerMinute. zdiv_lia.
Qed.
End SetHoursFacts.

#[export] Hint Resolve set_local_time_mono : jsmodel.

(** ** The calendar round trip *)

(** Within an era, the year of era is in 0..399 and the day of year in
    0..365: checked on the 146097 days of an era. *)
Definition era_ok (doe : Z) : bool :=
  let yoe := (doe - doe / 1460 + doe / 36524 - doe / 146096) / 365 in
  let doy := doe - (365 * yoe + yoe / 4 - yoe / 100) in
  (0 <=? yoe) && (yoe <=? 399) && (0 <=? doy) && (doy <=? 365).

Lemma era_check : all_range era_ok (Z.to_nat 146097) 0 = true.
Proof. vm_compute. reflexivity. Qed.

Lemma era_bounds doe : 0 <= doe < 146097 ->
  let yoe := (doe - doe / 1460 + doe / 36524 - doe / 146096) / 365 in
  let doy := doe - (365 * yoe + yoe / 4 - yoe / 100) in
  0 <= yoe <= 399 /\ 0 <= doy <= 365.
Proof.
  intros Hd. pose proof (all_range_spec era_ok _ 0 era_check doe ltac:(lia)) as Hc.
  unfold era_ok in Hc. cbv zeta in *. rewrite !andb_true_iff, !Z.leb_le in Hc. lia.
Qed.

(** [days_from_civil] inverts [civil_from_days] on every day number, and
    the month is in 1..12. *)
Lemma civil_from_days_spec D :
  let '(y, m, d) := civil_from_days D in days_from_civil y m d = D /\ 1 <= m <= 12.
Proof.
  unfold civil_from_days, days_from_civil. cbv zeta.
  remember (D + 719468) as z eqn:Hz.
  assert (He : 0 <= z - z / 146097 * 146097 < 146097) by zdiv_lia.
  destruct (era_bounds _ He) as [Hy Hdoy]. cbv zeta in Hy, Hdoy.
  remember (z - z / 146097 * 146097) as doe eqn:Hdoe.
  remember ((doe - doe / 1460 + doe / 36524 - doe / 146096) / 365) as yoe eqn:Hyoe.
  remember (doe - (365 * yoe + yoe / 4 - yoe / 100)) as doy eqn:Hdy.
  remember (z / 146097) as era eqn:Hera.
  assert (Hmp : 0 <= (5 * doy + 2) / 153 <= 11) by zdiv_lia.
  remember ((5 * doy + 2) / 153) as mp eqn:Hm.
  assert (Hyd : (yoe + era * 400) / 400 = era) by zdiv_lia.
  destruct (Z.ltb_spec mp 10) as [Hlt|Hge].
  - replace (mp + 3 <=? 2) with false by (symmetry; apply Z.leb_gt; lia).
    replace (2 <? mp + 3) with true by (symmetry; apply Z.ltb_lt; lia).
    replace (mp + 3 - 3) with mp by lia.
    rewrite Hyd. replace (yoe + era * 400 - era * 400) with yoe by lia. lia.
  - replace (mp - 9 <=? 2) with true by (symmetry; apply Z.leb_le; lia).
    replace (2 <? mp - 9) with false by (symmetry; apply Z.ltb_ge; lia).
    replace (mp - 9 + 9) with mp by lia.
    replace (yoe + era * 400 + 1 - 1) with (yoe + era * 400) by lia.
    rewrite Hyd. replace (yoe + era * 400 - era * 400) with yoe by lia. lia.
Qed.

Lemma days_from_civil_date y m d : days_from_civil y m d = days_from_civil y m 1 + d - 1.
Proof. unfold days_from_civil. lia. Qed.

Section SetDateFacts.
Context `{LocalTZA}.

(** [d.setDate(d.getDate() + k)] moves a valid date by [k] whole days. *)
Lemma setDate_shift t k :
  setDate (Some t) (num_add (getDate (Some t)) (Some k)) = TimeClip (Some (t + k * msPerDay)).
Proof.
  unfold setDate, getDate, local_civil, num_add. cbn [option_map].
  pose proof (civil_from_days_spec (Day (LocalTime t))) as Hc.
  destruct (civil_from_days (Day (LocalTime t))) as [[y m] d]. destruct Hc as [Hrt Hm].
  unfold MakeDay. replace ((m - 1) / 12) with 0 by zdiv_lia.
  replace ((m - 1) mod 12 + 1) with m by zdiv_lia. rewrite ?Z.add_0_r.
  rewrite (days_from_civil_date y m d) in Hrt. cbn [option_map MakeDate]. f_equal. f_equal.
  replace (days_from_civil y m 1 + (d + k) - 1) with (Day (LocalTime t) + k) by lia.
  unfold UTC, TimeWithinDay, Day, msPerDay. unfold LocalTime. zdiv_lia.
Qed.
End SetDateFacts.
