(* ===== verification/DateFns.v ===== *)
(** * DateFns: the date-fns functions the pages call

    principal/calendar/page.tsx compares event dates with [startOfDay],
    [endOfDay], [startOfISOWeek] and [endOfISOWeek] of the current date
    (lines 112, 114, 222); admin/enquiries/page.tsx with [startOfDay],
    [startOfWeek] and [startOfMonth] (lines 86-90).  date-fns is a library,
    not code of the repository: each function is written as date-fns
    writes it, on the [Date] operations of JsDate.v ([toDate] copies the
    date, then [setDate] and [setHours] mutate the copy).  The lemmas give
    their values on a valid date away from the [TimeClip] bounds, and the
    week between [startOfWeek] and [endOfWeek] as a block of seven local
    days.  [format] (enquiries line 265, principal line 283) is written
    for the token letters the pages use ([d], [y], [M] to [MMMMM]): it
    splits the pattern into runs of one letter, formats each on the local
    calendar date and throws [RangeError('Invalid time value')] on an
    Invalid Date. *)

From Stdlib Require Import String Ascii List ZArith Lia Bool.
From S2P Require Import Prelude JsString JsDate.
Import ListNotations.
Local Open Scope Z_scope.

(** An integral Number argument. *)
Definition js_int (n : Z) : jsnum := JFin n 0.

(** [diff] of [startOfWeek] and of [endOfWeek] for a week day [day]. *)
Definition startOfWeek_diff (weekStartsOn day : Z) : Z :=
  (if day <? weekStartsOn then 7 else 0) + day - weekStartsOn.

Definition endOfWeek_diff (weekStartsOn day : Z) : Z :=
  (if day <? weekStartsOn then -7 else 0) + 6 - (day - weekStartsOn).

Section Functions.
Context `{LocalTZA}.

Definition startOfDay (d : timeval) : timeval :=
  setHours (date_copy d) (js_int 0) (js_int 0) (js_int 0) (js_int 0).

Definition endOfDay (d : timeval) : timeval :=
  setHours (date_copy d) (js_int 23) (js_int 59) (js_int 59) (js_int 999).

Definition startOfWeek_on (weekStartsOn : Z) (d : timeval) : timeval :=
  let date := date_copy d in
  let diff := option_map (startOfWeek_diff weekStartsOn) (getDay date) in
  let date := setDate date (num_sub (getDate date) diff) in
  setHours date (js_int 0) (js_int 0) (js_int 0) (js_int 0).

Definition endOfWeek_on (weekStartsOn : Z) (d : timeval) : timeval :=
  let date := date_copy d in
  let diff := option_map (endOfWeek_diff weekStartsOn) (getDay date) in
  let date := setDate date (num_add (getDate date) diff) in
  setHours date (js_int 23) (js_int 59) (js_int 59) (js_int 999).

(** [startOfWeek(d)] without options: weeks start on Sunday. *)
Definition startOfWeek (d : timeval) : timeval := startOfWeek_on 0 d.
Definition startOfISOWeek (d : timeval) : timeval := startOfWeek_on 1 d.
Definition endOfISOWeek (d : timeval) : timeval := endOfWeek_on 1 d.

Definition startOfMonth (d : timeval) : timeval :=
  setHours (setDate (date_copy d) (Some 1)) (js_int 0) (js_int 0) (js_int 0) (js_int 0).
End Functions.

(** ** [format] *)

(** The pattern's tokens: a run of one repeated latin letter, or any
    other single character (a literal).  Quoted text ['...'] does not
    occur in the patterns of the pages and is not modelled. *)
Definition is_latin (c : ascii) : bool :=
  let n := nat_of_ascii c in (Nat.leb 65 n && Nat.leb n 90) || (Nat.leb 97 n && Nat.leb n 122).

Fixpoint pattern_tokens (s : string) : list (ascii * nat) :=
  match s with
  | EmptyString => []
  | String c rest =>
      match pattern_tokens rest with
      | (d, n) :: toks =>
          if is_latin c && Ascii.eqb c d then (c, S n) :: toks else (c, 1%nat) :: (d, n) :: toks
      | [] => [(c, 1%nat)]
      end
  end.

(** [addLeadingZeros(number, targetLength)]. *)
Definition add_leading_zeros (z : Z) (len : nat) : string :=
  ((if Z.ltb z 0 then "-" else "") ++ pad_start_zero len (number_to_string (Z.abs z)))%string.

(** The en-US month names, wide and abbreviated. *)
Definition month_wide : list string :=
  ["January"; "February"; "March"; "April"; "May"; "June"; "July"; "August"; "September";
   "October"; "November"; "December"]%string.

Definition month_abbreviated : list string :=
  ["Jan"; "Feb"; "Mar"; "Apr"; "May"; "Jun"; "Jul"; "Aug"; "Sep"; "Oct"; "Nov"; "Dec"]%string.

Definition month_narrow : list string :=
  ["J"; "F"; "M"; "A"; "M"; "J"; "J"; "A"; "S"; "O"; "N"; "D"]%string.

(** The name of month [m] (1..12) in a list of twelve. *)
Definition month_of (names : list string) (m : Z) : option string := nth_error names (Z.to_nat (m - 1)).

Section Format.
Context `{LocalTZA}.

(** The formatters of the tokens the pages use, on a valid date: [d],
    [y] and [M] (date-fns' [lightFormatters.d], [lightFormatters.y] and
    [formatters.M] with the en-US locale); a literal is copied; [None]
    for a token outside this set. *)
Definition format_token (t : Z) (tok : ascii * nat) : option string :=
  let '(c, n) := tok in
  let '(y, m, dd) := local_civil t in
  if negb (is_latin c) then Some (String c EmptyString)
  else if Ascii.eqb c "d" then Some (add_leading_zeros dd n)
  else if Ascii.eqb c "y" then
    let year := if 0 <? y then y else 1 - y in
    Some (add_leading_zeros (if Nat.eqb n 2 then year mod 100 else year) n)
  else if Ascii.eqb c "M" then
    match n with
    | 1%nat => Some (number_to_string m)
    | 2%nat => Some (add_leading_zeros m 2)
    | 3%nat => month_of month_abbreviated m
    | 4%nat => month_of month_wide m
    | 5%nat => month_of month_narrow m
    | _ => None
    end
  else None.

(** [format(date, pattern)]: a [RangeError] on an invalid date, else the
    formatted tokens; [None] when the pattern uses a token outside the
    modelled set. *)
Definition format (d : timeval) (pattern : string) : option (completion string) :=
  match d with
  | None => Some (Throw (Some "Invalid time value"%string))
  | Some t => option_map (fun parts => Normal (String.concat ""%string parts))
                (map_option (format_token t) (pattern_tokens pattern))
  end.
End Format.

(** ** Values on a valid date *)

Lemma num_sub_add a k : num_sub a (Some k) = num_add a (Some (- k)).
Proof. destruct a; reflexivity. Qed.

Lemma startOfWeek_diff_mod ws day :
  0 <= ws <= 6 -> 0 <= day <= 6 -> startOfWeek_diff ws day = (day - ws) mod 7.
Proof. intros Hw Hd. unfold startOfWeek_diff. destruct (Z.ltb_spec day ws); zdiv_lia. Qed.

Lemma endOfWeek_diff_mod ws day :
  0 <= ws <= 6 -> 0 <= day <= 6 -> endOfWeek_diff ws day = 6 - (day - ws) mod 7.
Proof. intros Hw Hd. unfold endOfWeek_diff. destruct (Z.ltb_spec day ws); zdiv_lia. Qed.

Section Values.
Context `{LocalTZA}.

Lemma setHours_int t h m s ms :
  setHours (Some t) (js_int h) (js_int m) (js_int s) (js_int ms)
  = TimeClip (Some (set_local_time t (h * msPerHour + m * msPerMinute + s * msPerSecond + ms))).
Proof. unfold setHours, MakeTime, js_int. rewrite !to_integer_finite_int. reflexivity. Qed.

Lemma set_local_time_shift t k tod :
  set_local_time (t + k * msPerDay) tod = set_local_time t tod + k * msPerDay.
Proof. unfold set_local_time, UTC, Day, msPerDay. unfold LocalTime. zdiv_lia. Qed.

Lemma WeekDay_range t : 0 <= WeekDay t <= 6.
Proof. unfold WeekDay. zdiv_lia. Qed.

(** A date at least 32 days inside the range of time values: the
    functions move it by less than a month. *)
Definition in_range (t : Z) : Prop := - maxTime + 32 * msPerDay <= t <= maxTime - 32 * msPerDay.

Lemma clip_near t x : in_range t -> t - 32 * msPerDay <= x <= t + 32 * msPerDay ->
  TimeClip (Some x) = Some x.
Proof. unfold in_range. intros Ht Hx. apply TimeClip_in_range. unfold maxTime, msPerDay in *. lia. Qed.

Lemma civil_day_bounds D : let '(_, _, d) := civil_from_days D in 1 <= d <= 31.
Proof.
  unfold civil_from_days. cbv zeta.
  remember (D + 719468 - (D + 719468) / 146097 * 146097) as doe eqn:Hdoe.
  assert (He : 0 <= doe < 146097) by (subst doe; zdiv_lia).
  destruct (era_bounds doe He) as [_ Hdoy]. cbv zeta in Hdoy.
  remember (doe - (365 * ((doe - doe / 1460 + doe / 36524 - doe / 146096) / 365)
    + (doe - doe / 1460 + doe / 36524 - doe / 146096) / 365 / 4
    - (doe - doe / 1460 + doe / 36524 - doe / 146096) / 365 / 100)) as doy eqn:Hdy.
  clear Hdy Hdoe. zdiv_lia.
Qed.

Lemma startOfDay_value t : in_range t -> startOfDay (Some t) = Some (set_local_time t 0).
Proof.
  intros Ht. unfold startOfDay, date_copy. rewrite setHours_int.
  apply (clip_near t). exact Ht. pose proof (set_local_time_bounds t 0). unfold msPerDay in *. lia.
Qed.

Lemma endOfDay_value t : in_range t -> endOfDay (Some t) = Some (set_local_time t (msPerDay - 1)).
Proof.
  intros Ht. unfold endOfDay, date_copy. rewrite setHours_int.
  replace (23 * msPerHour + 59 * msPerMinute + 59 * msPerSecond + 999) with (msPerDay - 1) by reflexivity.
  apply (clip_near t). exact Ht. pose proof (set_local_time_bounds t (msPerDay - 1)).
  unfold msPerDay in *. lia.
Qed.

(** [startOfWeek] goes back to the local midnight of the last week start. *)
Lemma startOfWeek_on_value ws t : 0 <= ws <= 6 -> in_range t ->
  startOfWeek_on ws (Some t)
  = Some (set_local_time t 0 - ((WeekDay (LocalTime t) - ws) mod 7) * msPerDay).
Proof.
  intros Hw Ht. unfold startOfWeek_on, date_copy. cbn [getDay option_map].
  rewrite startOfWeek_diff_mod by (auto using WeekDay_range).
  rewrite num_sub_add, setDate_shift.
  assert (Hk : 0 <= (WeekDay (LocalTime t) - ws) mod 7 <= 6) by zdiv_lia.
  rewrite (clip_near t) by (auto; unfold msPerDay; lia).
  rewrite setHours_int, set_local_time_shift.
  replace (0 * msPerHour + 0 * msPerMinute + 0 * msPerSecond + 0) with 0 by reflexivity.
  rewrite (clip_near t); [f_equal; ring | exact Ht |]. pose proof (set_local_time_bounds t 0).
  unfold msPerDay in *. lia.
Qed.

(** [endOfWeek] goes forward to the last millisecond of the week's last
    local day. *)
Lemma endOfWeek_on_value ws t : 0 <= ws <= 6 -> in_range t ->
  endOfWeek_on ws (Some t)
  = Some (set_local_time t (msPerDay - 1) + (6 - (WeekDay (LocalTime t) - ws) mod 7) * msPerDay).
Proof.
  intros Hw Ht. unfold endOfWeek_on, date_copy. cbn [getDay option_map].
  rewrite endOfWeek_diff_mod by (auto using WeekDay_range). rewrite setDate_shift.
  assert (Hk : 0 <= (WeekDay (LocalTime t) - ws) mod 7 <= 6) by zdiv_lia.
  rewrite (clip_near t) by (auto; unfold msPerDay; lia).
  rewrite setHours_int, set_local_time_shift.
  replace (23 * msPerHour + 59 * msPerMinute + 59 * msPerSecond + 999) with (msPerDay - 1) by reflexivity.
  apply (clip_near t); [exact Ht |]. pose proof (set_local_time_bounds t (msPerDay - 1)).
  unfold msPerDay in *. lia.
Qed.

(** [startOfMonth] goes back to the local midnight of the first of the
    month: [getDate() - 1] days before the local midnight. *)
Lemma startOfMonth_value t dd : in_range t -> getDate (Some t) = Some dd ->
  startOfMonth (Some t) = Some (set_local_time t 0 - (dd - 1) * msPerDay).
Proof.
  intros Ht Hd. unfold startOfMonth, date_copy.
  assert (Hdd : 1 <= dd <= 31).
  { unfold getDate, local_civil in Hd. cbn [option_map] in Hd.
    pose proof (civil_day_bounds (Day (LocalTime t))) as Hb.
    destruct (civil_from_days (Day (LocalTime t))) as [[y m] d]. injection Hd as <-. exact Hb. }
  replace (Some 1) with (num_add (getDate (Some t)) (Some (1 - dd))) by (rewrite Hd; cbn [num_add]; f_equal; ring).
  rewrite setDate_shift, (clip_near t) by (auto; unfold msPerDay; lia).
  rewrite setHours_int, set_local_time_shift.
  replace (0 * msPerHour + 0 * msPerMinute + 0 * msPerSecond + 0) with 0 by reflexivity.
  rewrite (clip_near t); [f_equal; ring | exact Ht |]. pose proof (set_local_time_bounds t 0).
  unfold msPerDay in *. lia.
Qed.

(** The week from [startOfWeek_on ws now] to [endOfWeek_on ws now] holds
    exactly the instants whose local day falls in the same block of seven
    days counted from the last day [ws] of the week: day [d] (from
    1970-01-01, a Thursday) lies in block [(d + 4 - ws) / 7]. *)
Lemma week_window_on ws now t : 0 <= ws <= 6 -> in_range now ->
  js_ge (Some t) (startOfWeek_on ws (Some now)) && js_le (Some t) (endOfWeek_on ws (Some now))
  = Z.eqb ((Day (LocalTime t) + 4 - ws) / 7) ((Day (LocalTime now) + 4 - ws) / 7).
Proof.
  intros Hw Hn. rewrite startOfWeek_on_value, endOfWeek_on_value by assumption.
  apply Bool.eq_iff_eq_true. cbn [js_ge js_le]. rewrite andb_true_iff, !Z.leb_le, Z.eqb_eq.
  unfold set_local_time, UTC, WeekDay, Day, msPerDay. unfold LocalTime. split; intros; zdiv_lia.
Qed.

(** An instant is at or after a local midnight [k] days before the one of
    [now] iff its local day is at or after that day. *)
Lemma midnight_le now k t :
  (set_local_time now 0 - k * msPerDay <=? t) = (Day (LocalTime now) - k <=? Day (LocalTime t)).
Proof.
  destruct (Z.leb_spec (set_local_time now 0 - k * msPerDay) t),
    (Z.leb_spec (Day (LocalTime now) - k) (Day (LocalTime t))); auto;
    exfalso; unfold set_local_time, UTC, Day, msPerDay in *; unfold LocalTime in *; zdiv_lia.
Qed.
End Values.

(** ** The patterns of the pages *)

Section FormatFacts.
Context `{LocalTZA}.

Lemma local_civil_month t : let '(_, m, _) := local_civil t in 1 <= m <= 12.
Proof.
  unfold local_civil. pose proof (civil_from_days_spec (Day (LocalTime t))) as Hc.
  destruct (civil_from_days _) as [[y m] d]. tauto.
Qed.

Lemma month_name_some (names : list string) m :
  length names = 12%nat -> 1 <= m <= 12 -> exists n, month_of names m = Some n.
Proof.
  intros Hl Hm. unfold month_of. destruct (nth_error names (Z.to_nat (m - 1))) eqn:E; [eauto |].
  apply nth_error_None in E. lia.
Qed.

(** The two patterns of the pages on a valid date of a positive local
    year: ['dd MMM yyyy'] is the day on two digits, the abbreviated month
    name and the year on four digits; ['MMMM d, yyyy'] the full month
    name, the day and the year. *)
Lemma format_page_values t y m d : local_civil t = (y, m, d) -> 0 < y ->
  exists abbr wide, month_of month_abbreviated m = Some abbr /\ month_of month_wide m = Some wide
  /\ format (Some t) "dd MMM yyyy"
     = Some (Normal (add_leading_zeros d 2 ++ " " ++ abbr ++ " " ++ add_leading_zeros y 4))%string
  /\ format (Some t) "MMMM d, yyyy"
     = Some (Normal (wide ++ " " ++ add_leading_zeros d 1 ++ ", " ++ add_leading_zeros y 4))%string.
Proof.
  intros Hc Hy. pose proof (local_civil_month t) as Hm. rewrite Hc in Hm.
  destruct (month_name_some month_abbreviated m eq_refl Hm) as (abbr & Ha).
  destruct (month_name_some month_wide m eq_refl Hm) as (wide & Hw).
  exists abbr, wide. split; [exact Ha | split; [exact Hw |]].
  unfold format, format_token. cbn -[month_of add_leading_zeros number_to_string local_civil].
  rewrite Hc, Ha, Hw. replace (0 <? y) with true by (symmetry; apply Z.ltb_lt; exact Hy).
  split; reflexivity.
Qed.

(** The table's ['dd MMM yyyy'] and the detail's ['MMMM d, yyyy'] only
    use modelled tokens: on a valid date they format, on an invalid one
    they throw. *)
Lemma format_page_patterns (d : timeval) :
  (exists r, format d "dd MMM yyyy" = Some r) /\ (exists r, format d "MMMM d, yyyy" = Some r)
  /\ (d = None -> format d "dd MMM yyyy" = Some (Throw (Some "Invalid time value"%string))
                 /\ format d "MMMM d, yyyy" = Some (Throw (Some "Invalid time value"%string)))
  /\ (forall t, d = Some t -> (exists s, format d "dd MMM yyyy" = Some (Normal s))
                        /\ (exists s, format d "MMMM d, yyyy" = Some (Normal s))).
Proof.
  assert (Hv : forall t, (exists s, format (Some t) "dd MMM yyyy" = Some (Normal s))
                    /\ (exists s, format (Some t) "MMMM d, yyyy" = Some (Normal s))).
  { intros t. pose proof (local_civil_month t) as Hm. unfold format, format_token.
    cbn -[month_of add_leading_zeros number_to_string local_civil].
    destruct (local_civil t) as [[y m] dd].
    destruct (month_name_some month_abbreviated m eq_refl Hm) as (a & Ha).
    destruct (month_name_some month_wide m eq_refl Hm) as (w & Hw).
    rewrite Ha, Hw. split; eexists; reflexivity. }
  destruct d as [t|].
  - destruct (Hv t) as [[s1 E1] [s2 E2]].
    split; [eauto | split; [eauto | split; [discriminate | intros t' [= <-]; eauto]]].
  - split; [eexists; reflexivity | split; [eexists; reflexivity |]].
    split; [intros _; split; reflexivity | intros t' Ht'; discriminate].
Qed.
End FormatFacts.
