(* ===== verification/BigCalendar.v ===== *)
(** * BigCalendar: the react-big-calendar props of the two calendars

    Both calendars (admin/slots/CalendarView.tsx lines 9-19 and 76-90,
    principal/calendar/page.tsx lines 10-20 and 238-252) build a
    [dateFnsLocalizer] from date-fns' [format], [parse], [startOfWeek]
    and [getDay] with the locale map [{ 'en-US': enUS }], and hand
    react-big-calendar a props object.  The props are code of the
    repository; the library is not, and is modelled only as far as the
    theorems need it:
    - the localizer's [firstOfWeek(culture)], which react-big-calendar's
      date-fns localizer computes as
      [getDay(startOfWeek(new Date(), { locale: locales[culture] }))];
    - the range of the week view, [startOf(date, 'week')] to
      [endOf(date, 'week')] from that first day, which moves to the same
      local midnights as date-fns' [startOfWeek] and [endOfWeek] with
      [weekStartsOn] the first day, and is written with them.
    Neither page passes a [culture]. *)

From Stdlib Require Import String List ZArith Lia Bool.
From S2P Require Import Prelude JsDate DateFns.
Import ListNotations.
Local Open Scope Z_scope.

(** ** The localizer (lines 10-20 of both files) *)

(** A date-fns locale, with the one option [startOfWeek] reads. *)
Record Locale : Type := mkLocale {
  locale_code : string;
  weekStartsOn : Z;
}.

(** [enUS] of date-fns/locale: weeks start on Sunday. *)
Definition enUS : Locale := mkLocale "en-US" 0.

(** [const locales = { 'en-US': enUS }]. *)
Definition locales : list (string * Locale) := [("en-US"%string, enUS)].

(** [locales[culture]]; an absent culture reads [locales[undefined]]. *)
Definition locale_of (table : list (string * Locale)) (culture : option string) : option Locale :=
  match culture with
  | Some c => option_map snd (find (fun p => String.eqb (fst p) c) table)
  | None => None
  end.

(** [startOfWeek(d, { locale })]: the locale's week start, 0 without one. *)
Definition startOfWeek_locale `{LocalTZA} (locale : option Locale) (d : timeval) : timeval :=
  startOfWeek_on (match locale with Some l => weekStartsOn l | None => 0 end) d.

(** The part of a react-big-calendar localizer the week view reads: the
    first day of the week for a culture, at the [new Date()] it reads. *)
Record DateLocalizer : Type := mkDateLocalizer {
  firstOfWeek : option string -> timeval -> option Z;
}.

(** [dateFnsLocalizer({ format, parse, startOfWeek, getDay, locales })]. *)
Definition dateFnsLocalizer `{LocalTZA} (table : list (string * Locale)) : DateLocalizer :=
  mkDateLocalizer (fun culture now => getDay (startOfWeek_locale (locale_of table culture) now)).

(** [const localizer = dateFnsLocalizer({ ..., locales })]. *)
Definition localizer `{LocalTZA} : DateLocalizer := dateFnsLocalizer locales.

(** ** The props *)

Inductive View : Type := month | week | day.

(** The props both pages pass to [<Calendar>]: [E] the events, [A] what
    [onSelectEvent] does, [P] what [eventPropGetter] returns, [C] what
    the event component shows. *)
Record CalendarProps (E A P C : Type) : Type := mkCalendarProps {
  cp_localizer : DateLocalizer;
  cp_events : list E;
  cp_startAccessor : E -> timeval;
  cp_endAccessor : E -> timeval;
  cp_style_height : string;
  cp_views : list View;
  cp_defaultView : View;
  cp_onSelectEvent : E -> A;
  cp_eventPropGetter : E -> P;
  cp_components_event : E -> C;
}.
Arguments mkCalendarProps {E A P C}.
Arguments cp_localizer {E A P C}.
Arguments cp_events {E A P C}.
Arguments cp_startAccessor {E A P C}.
Arguments cp_endAccessor {E A P C}.
Arguments cp_style_height {E A P C}.
Arguments cp_views {E A P C}.
Arguments cp_defaultView {E A P C}.
Arguments cp_onSelectEvent {E A P C}.
Arguments cp_eventPropGetter {E A P C}.
Arguments cp_components_event {E A P C}.

(** ** The week view *)

Section WeekView.
Context `{LocalTZA}.

(** [Week.range(date)]: from the start of [date]'s week to its end, the
    week starting on [firstOfWeek(culture)] read at [now]. *)
Definition week_range (l : DateLocalizer) (culture : option string) (now date : timeval)
    : option (timeval * timeval) :=
  option_map (fun fow => (startOfWeek_on fow date, endOfWeek_on fow date)) (firstOfWeek l culture now).

(** An event is laid out in a range when its start lies in it; the
    events of both pages start and end on one day. *)
Definition shown_in (r : option (timeval * timeval)) (start : timeval) : bool :=
  match r with
  | Some (s, e) => js_ge start s && js_le start e
  | None => false
  end.

(** The events the week view of [date] lays out. *)
Definition week_view_events {E A P C} (p : CalendarProps E A P C) (now date : timeval) : list E :=
  filter (fun e => shown_in (week_range (cp_localizer p) None now date) (cp_startAccessor p e))
    (cp_events p).
End WeekView.

(** ** Lemmas *)

Section WeekFacts.
Context `{LocalTZA}.

(** Whatever the culture, the localizer's week starts on Sunday: the
    only locale is [enUS] and the fallback is 0. *)
Lemma localizer_firstOfWeek culture now : in_range now ->
  firstOfWeek localizer culture (Some now) = Some 0.
Proof.
  intros Hn. cbn [firstOfWeek localizer dateFnsLocalizer].
  replace (startOfWeek_locale (locale_of locales culture) (Some now)) with (startOfWeek_on 0 (Some now)).
  2:{ unfold startOfWeek_locale, locale_of, locales. destruct culture as [c|]; [|reflexivity].
      cbn [find fst]. now destruct (String.eqb "en-US" c). }
  rewrite startOfWeek_on_value by (lia || exact Hn). cbn [getDay option_map]. f_equal.
  unfold WeekDay, set_local_time, UTC, Day, msPerDay. unfold LocalTime. zdiv_lia.
Qed.

(** The week view of the current date lays out exactly the instants in
    the current Sunday-to-Saturday block of local days. *)
Lemma week_view_window culture now t : in_range now ->
  shown_in (week_range localizer culture (Some now) (Some now)) (Some t)
  = Z.eqb ((Day (LocalTime t) + 4) / 7) ((Day (LocalTime now) + 4) / 7).
Proof.
  intros Hn. unfold week_range. rewrite localizer_firstOfWeek by exact Hn.
  cbn [option_map shown_in]. rewrite week_window_on by (lia || exact Hn).
  now rewrite !Z.sub_0_r.
Qed.
End WeekFacts.
