(* ===== verification/Base64.v ===== *)
(** * Base64: [Buffer.from(text).toString('base64')]

    The attachment content of both senders (email.ts lines 145 and 245):
    Node's [Buffer.from(string)] encodes the text in UTF-8, and
    [toString('base64')] writes the bytes in the standard alphabet with
    [=] padding.  Bytes are integers in [0, 256); code units are below
    256, so each character is one or two UTF-8 bytes.  The theorems: the
    round trip through a reference decoder and the exact output length. *)

From Stdlib Require Import String Ascii ZArith List Lia Bool.
From S2P Require Import Prelude.
Import ListNotations.
Local Open Scope string_scope.
Local Open Scope Z_scope.
Local Open Scope bool_scope.

(** UTF-8 of one code point below 256. *)
Definition utf8_char (c : ascii) : list Z :=
  let n := Z.of_nat (nat_of_ascii c) in
  if n <? 128 then [n]
  else [Z.lor 192 (Z.shiftr n 6); Z.lor 128 (Z.land n 63)].

Fixpoint utf8_encode (s : string) : list Z :=
  match s with
  | EmptyString => []
  | String c rest => utf8_char c ++ utf8_encode rest
  end.

Definition b64_alphabet : string :=
  "ABCDEFGHIJKLMNOPQRSTUVWXYZabcdefghijklmnopqrstuvwxyz0123456789+/".

(** The character of a six-bit value. *)
Definition b64_char (v : Z) : ascii :=
  match String.get (Z.to_nat v) b64_alphabet with
  | Some c => c
  | None => "="%char
  end.

Definition b64_pad : ascii := "="%char.

(** Three bytes give four characters; a final one or two bytes are
    padded with [=]. *)
Fixpoint base64_encode (bs : list Z) : string :=
  match bs with
  | a :: b :: c :: rest =>
      String (b64_char (Z.shiftr a 2))
        (String (b64_char (Z.lor (Z.shiftl (Z.land a 3) 4) (Z.shiftr b 4)))
          (String (b64_char (Z.lor (Z.shiftl (Z.land b 15) 2) (Z.shiftr c 6)))
            (String (b64_char (Z.land c 63)) (base64_encode rest))))
  | [a; b] =>
      String (b64_char (Z.shiftr a 2))
        (String (b64_char (Z.lor (Z.shiftl (Z.land a 3) 4) (Z.shiftr b 4)))
          (String (b64_char (Z.shiftl (Z.land b 15) 2)) (String b64_pad EmptyString)))
  | [a] =>
      String (b64_char (Z.shiftr a 2))
        (String (b64_char (Z.shiftl (Z.land a 3) 4))
          (String b64_pad (String b64_pad EmptyString)))
  | [] => EmptyString
  end.

(** [Buffer.from(text).toString('base64')] *)
Definition buffer_base64 (text : string) : string := base64_encode (utf8_encode text).

Lemma buffer_base64_empty : buffer_base64 "" = "".
Proof. reflexivity. Qed.

#[export] Hint Rewrite buffer_base64_empty : jsrw.

(** ** Decoding: what a mail client does with the attachment *)

(** The six-bit value of a character of the alphabet. *)
Definition b64_value (c : ascii) : option Z :=
  let n := Z.of_nat (nat_of_ascii c) in
  if (65 <=? n) && (n <=? 90) then Some (n - 65)
  else if (97 <=? n) && (n <=? 122) then Some (n - 71)
  else if (48 <=? n) && (n <=? 57) then Some (n + 4)
  else if n =? 43 then Some 62
  else if n =? 47 then Some 63
  else None.

Fixpoint base64_decode (s : string) : option (list Z) :=
  match s with
  | EmptyString => Some []
  | String c1 (String c2 (String c3 (String c4 rest))) =>
      match b64_value c1, b64_value c2 with
      | Some v1, Some v2 =>
          let a := Z.lor (Z.shiftl v1 2) (Z.shiftr v2 4) in
          if Ascii.eqb c3 b64_pad then
            if Ascii.eqb c4 b64_pad && String.eqb rest EmptyString then Some [a] else None
          else
            match b64_value c3 with
            | Some v3 =>
                let b := Z.lor (Z.shiftl (Z.land v2 15) 4) (Z.shiftr v3 2) in
                if Ascii.eqb c4 b64_pad then
                  if String.eqb rest EmptyString then Some [a; b] else None
                else
                  match b64_value c4 with
                  | Some v4 =>
                      let c := Z.lor (Z.shiftl (Z.land v3 3) 6) v4 in
                      option_map (fun r => a :: b :: c :: r) (base64_decode rest)
                  | None => None
                  end
            | None => None
            end
      | _, _ => None
      end
  | _ => None
  end.

(** UTF-8 back to code units below 256. *)
Fixpoint utf8_decode (bs : list Z) : option string :=
  match bs with
  | [] => Some EmptyString
  | b :: rest =>
      if b <? 128 then option_map (String (ascii_of_nat (Z.to_nat b))) (utf8_decode rest)
      else match rest with
           | b2 :: rest' =>
               if (192 <=? b) && (b <? 196) && (128 <=? b2) && (b2 <? 192) then
                 option_map
                   (String (ascii_of_nat (Z.to_nat (Z.lor (Z.shiftl (Z.land b 31) 6) (Z.land b2 63)))))
                   (utf8_decode rest')
               else None
           | [] => None
           end
  end.

(** ** Bits as arithmetic on bytes *)

Lemma lor_shiftl_add (x y k : Z) :
  0 <= k -> 0 <= y < 2 ^ k -> Z.lor (Z.shiftl x k) y = x * 2 ^ k + y.
Proof.
  intros Hk Hy.
  assert (Hland : Z.land (Z.shiftl x k) y = 0).
  { apply Z.bits_inj'. intros n Hn. rewrite Z.land_spec, Z.bits_0.
    destruct (Z.ltb_spec n k).
    - now rewrite Z.shiftl_spec_low.
    - destruct (Z.eq_dec y 0) as [->|Hy0]; [rewrite Z.bits_0; apply andb_false_r |].
      rewrite (Z.bits_above_log2 y n); [apply andb_false_r | lia |].
      apply Z.lt_le_trans with k; [apply Z.log2_lt_pow2; lia | lia]. }
  rewrite <- Z.lxor_lor, <- Z.add_nocarry_lxor by exact Hland.
  now rewrite Z.shiftl_mul_pow2.
Qed.

Lemma land_low (x n : Z) : 0 <= n -> Z.land x (2 ^ n - 1) = x mod 2 ^ n.
Proof. intros Hn. rewrite <- Z.land_ones by exact Hn. f_equal. now rewrite Z.ones_equiv. Qed.

Lemma land3 x : Z.land x 3 = x mod 4.
Proof. exact (land_low x 2 ltac:(lia)). Qed.
Lemma land15 x : Z.land x 15 = x mod 16.
Proof. exact (land_low x 4 ltac:(lia)). Qed.
Lemma land31 x : Z.land x 31 = x mod 32.
Proof. exact (land_low x 5 ltac:(lia)). Qed.
Lemma land63 x : Z.land x 63 = x mod 64.
Proof. exact (land_low x 6 ltac:(lia)). Qed.
Lemma shiftr_c x c : 0 <= c -> Z.shiftr x c = x / 2 ^ c.
Proof. apply Z.shiftr_div_pow2. Qed.
Lemma shiftl_c x c : 0 <= c -> Z.shiftl x c = x * 2 ^ c.
Proof. apply Z.shiftl_mul_pow2. Qed.

(** Rewrite the masks, shifts and disjoint [lor]s of a goal on bytes into
    [+], [*], [/] and [mod], then close it with [lia]. *)
Ltac bits_arith :=
  rewrite ?land3, ?land15, ?land31, ?land63;
  repeat rewrite shiftr_c by lia;
  repeat match goal with
         | |- context [Z.shiftl ?x ?k / ?d] => rewrite (shiftl_c x k) by lia
         end;
  repeat match goal with
         | |- context [Z.lor (Z.shiftl ?x ?k) ?y] =>
             lazymatch y with
             | context [Z.lor _ _] => fail
             | _ => rewrite (lor_shiftl_add x y k)
                      by (cbn [Z.pow Z.pow_pos Pos.iter Z.mul Pos.mul]; zdiv_lia)
             end
         end;
  repeat rewrite shiftl_c by lia;
  cbn [Z.pow Z.pow_pos Pos.iter Z.mul Pos.mul] in *; zdiv_lia.

Section Group.
Variables a b c : Z.
Hypothesis Ha : 0 <= a < 256.
Hypothesis Hb : 0 <= b < 256.
Hypothesis Hc : 0 <= c < 256.

Lemma group_first :
  Z.lor (Z.shiftl (Z.shiftr a 2) 2) (Z.shiftr (Z.lor (Z.shiftl (Z.land a 3) 4) (Z.shiftr b 4)) 4) = a.
Proof. bits_arith. Qed.

Lemma group_second :
  Z.lor (Z.shiftl (Z.land (Z.lor (Z.shiftl (Z.land a 3) 4) (Z.shiftr b 4)) 15) 4)
        (Z.shiftr (Z.lor (Z.shiftl (Z.land b 15) 2) (Z.shiftr c 6)) 2) = b.
Proof. bits_arith. Qed.

Lemma group_third :
  Z.lor (Z.shiftl (Z.land (Z.lor (Z.shiftl (Z.land b 15) 2) (Z.shiftr c 6)) 3) 6) (Z.land c 63) = c.
Proof. bits_arith. Qed.
End Group.

Section Tails.
Variables a b : Z.
Hypothesis Ha : 0 <= a < 256.
Hypothesis Hb : 0 <= b < 256.

Lemma tail_one :
  Z.lor (Z.shiftl (Z.shiftr a 2) 2) (Z.shiftr (Z.shiftl (Z.land a 3) 4) 4) = a.
Proof. bits_arith. Qed.

Lemma tail_two :
  Z.lor (Z.shiftl (Z.land (Z.lor (Z.shiftl (Z.land a 3) 4) (Z.shiftr b 4)) 15) 4)
        (Z.shiftr (Z.shiftl (Z.land b 15) 2) 2) = b.
Proof. bits_arith. Qed.
End Tails.

(** The alphabet: each six-bit value has a character other than the pad,
    and reading the character gives the value back (checked on the 64
    values). *)
Lemma b64_table :
  forallb (fun n => let v := Z.of_nat n in
                    match b64_value (b64_char v) with
                    | Some w => (w =? v) && negb (Ascii.eqb (b64_char v) b64_pad)
                    | None => false
                    end) (seq 0 64) = true.
Proof. vm_compute. reflexivity. Qed.

Lemma b64_char_value v :
  0 <= v < 64 -> b64_value (b64_char v) = Some v /\ Ascii.eqb (b64_char v) b64_pad = false.
Proof.
  intros Hv. pose proof b64_table as T. rewrite forallb_forall in T.
  specialize (T (Z.to_nat v) ltac:(apply in_seq; lia)). cbv zeta in T.
  rewrite Z2Nat.id in T by lia.
  destruct (b64_value (b64_char v)) as [w|]; [|discriminate].
  apply andb_true_iff in T as [T1 T2]. apply Z.eqb_eq in T1. apply negb_true_iff in T2.
  subst. auto.
Qed.

(** Replace each character lookup of a decoding step by its value. *)
Ltac b64_chars :=
  repeat match goal with
         | |- context [b64_value (b64_char ?v)] =>
             let E := fresh in
             destruct (b64_char_value v ltac:(bits_arith)) as [E _]; rewrite E; clear E
         | |- context [Ascii.eqb (b64_char ?v) b64_pad] =>
             let E := fresh in
             destruct (b64_char_value v ltac:(bits_arith)) as [_ E]; rewrite E; clear E
         end.

Definition is_byte (b : Z) : Prop := 0 <= b < 256.

Lemma list_ind3 (P : list Z -> Prop) :
  P [] -> (forall a, P [a]) -> (forall a b, P [a; b]) ->
  (forall a b c l, P l -> P (a :: b :: c :: l)) -> forall l, P l.
Proof.
  intros H0 H1 H2 H3. fix F 1.
  intros [|a [|b [|c l]]]; [exact H0 | apply H1 | apply H2 | apply H3, F].
Qed.

Lemma base64_decode_group a b c l :
  is_byte a -> is_byte b -> is_byte c ->
  base64_decode (base64_encode (a :: b :: c :: l))
  = option_map (fun r => a :: b :: c :: r) (base64_decode (base64_encode l)).
Proof.
  unfold is_byte. intros Ha Hb Hc. cbn [base64_encode base64_decode].
  b64_chars. cbn beta iota.
  now rewrite group_first, group_second, group_third.
Qed.

(** Decoding the encoder's output gives back the bytes. *)
Lemma base64_roundtrip (bs : list Z) :
  Forall is_byte bs -> base64_decode (base64_encode bs) = Some bs.
Proof.
  induction bs as [|a|a b|a b c l IH] using list_ind3; intros Hf;
    repeat match goal with H : Forall _ (_ :: _) |- _ => inversion_clear H end.
  - reflexivity.
  - unfold is_byte in *. cbn [base64_encode base64_decode]. b64_chars.
    cbn -[Z.lor Z.shiftl Z.shiftr Z.land]. now rewrite tail_one.
  - unfold is_byte in *. cbn [base64_encode base64_decode]. b64_chars.
    cbn -[Z.lor Z.shiftl Z.shiftr Z.land]. now rewrite group_first, tail_two.
  - rewrite base64_decode_group, IH by assumption. reflexivity.
Qed.

(** ** UTF-8 *)

(** Each character's UTF-8 bytes are bytes, and decoding them in front
    of any rest gives the character back (checked on the 256 code
    units). *)
Lemma utf8_char_bytes (c : ascii) : Forall is_byte (utf8_char c).
Proof.
  unfold is_byte. destruct c as [[] [] [] [] [] [] [] []];
    repeat constructor; vm_compute; congruence.
Qed.

Lemma utf8_decode_char (c : ascii) (rest : list Z) :
  utf8_decode (utf8_char c ++ rest) = option_map (String c) (utf8_decode rest).
Proof. destruct c as [[] [] [] [] [] [] [] []]; reflexivity. Qed.

Lemma utf8_encode_bytes (s : string) : Forall is_byte (utf8_encode s).
Proof.
  induction s as [|c s IH]; simpl; [constructor |].
  apply Forall_app. split; [apply utf8_char_bytes | exact IH].
Qed.

Lemma utf8_roundtrip (s : string) : utf8_decode (utf8_encode s) = Some s.
Proof.
  induction s as [|c s IH]; [reflexivity |].
  simpl. rewrite utf8_decode_char, IH. reflexivity.
Qed.

(** C23. The attachment decodes to the ICS text: reading
    [Buffer.from(text).toString('base64')] back as base64 and then as
    UTF-8 gives exactly [text]. *)
Theorem attachment_roundtrip (text : string) :
  match base64_decode (buffer_base64 text) with
  | Some bytes => utf8_decode bytes
  | None => None
  end = Some text.
Proof.
  unfold buffer_base64. rewrite base64_roundtrip by apply utf8_encode_bytes.
  apply utf8_roundtrip.
Qed.

(** ** Shape and size of the encoding *)

Lemma base64_encode_length bs :
  String.length (base64_encode bs) = (4 * ((length bs + 2) / 3))%nat.
Proof.
  induction bs as [|a|a b|a b c l IH] using list_ind3; [reflexivity..|].
  cbn [base64_encode String.length length]. rewrite IH.
  replace (S (S (S (length l))) + 2)%nat with ((length l + 2) + 1 * 3)%nat by lia.
  rewrite Nat.div_add by lia. lia.
Qed.

Lemma utf8_encode_length s :
  (String.length s <= length (utf8_encode s) <= 2 * String.length s)%nat.
Proof.
  induction s as [|c s IH]; simpl; [lia |]. rewrite length_app.
  unfold utf8_char. destruct (_ <? 128); simpl; lia.
Qed.

(** C39. The size of the attachment: [4 * ceil(n / 3)] characters for the
    [n] UTF-8 bytes of the ICS text, and [n] is between the text's length
    and twice it (one byte below 128, two from 128 to 255). *)
Theorem attachment_length_bounds (text : string) :
  String.length (buffer_base64 text) = (4 * ((length (utf8_encode text) + 2) / 3))%nat
  /\ (String.length text <= length (utf8_encode text) <= 2 * String.length text)%nat.
Proof. split; [apply base64_encode_length | apply utf8_encode_length]. Qed.
