(* ===== verification/Ics.v ===== *)
(** * Ics: [CalendarEventData] and [generateICSContent]

    email.ts lines 7-14 declare [CalendarEventData]; lines 24-59 turn it
    into the attributes the [ics] library's [createEvent] takes (dates as
    [[year, month + 1, day, hours, minutes]] read by the local getters,
    attendees with [partstat: 'NEEDS-ACTION']) and return the encoded
    text, or [''] after logging when the library reports an error.  The
    library itself is the interface [IcsLib]. *)

From Stdlib Require Import String ZArith List Lia.
From S2P Require Import Prelude JsString JsDate.
Import ListNotations.
Local Open Scope string_scope.
Local Open Scope js_scope.

Record Attendee : Type := mkAttendee {
  att_email : string;
  att_name : option string;
}.

Record CalendarEventData : Type := mkCalendarEventData {
  title : string;
  description : string;
  location : string;
  startDate : timeval;
  endDate : timeval;
  attendees : list Attendee;
}.

(** What [ics.createEvent] receives. *)
Record IcsAttendee : Type := mkIcsAttendee {
  ia_email : string;
  ia_name : option string;
  ia_partstat : string;
}.

Record IcsEventAttributes : Type := mkIcsEventAttributes {
  ics_title : string;
  ics_description : string;
  ics_location : string;
  ics_start : list (option Z);
  ics_end : list (option Z);
  ics_attendees : list IcsAttendee;
}.

(** What it returns: [{ value, error }], the error by its message. *)
Record IcsReturn : Type := mkIcsReturn {
  ics_value : option string;
  ics_error : option string;
}.

(** The [ics] library. *)
Class IcsLib : Type := createEvent : IcsEventAttributes -> IcsReturn.

Section Generate.
Context `{LocalTZA} `{IcsLib} {W : Type} `{Console W}.

(** [[d.getFullYear(), d.getMonth() + 1, d.getDate(), d.getHours(),
    d.getMinutes()]]; NaN stays NaN through [+ 1]. *)
Definition date_array (d : timeval) : list (option Z) :=
  [getFullYear d; option_map (fun m => (m + 1)%Z) (getMonth d); getDate d;
   getHours d; getMinutes d].

Definition ics_attendee (a : Attendee) : IcsAttendee :=
  mkIcsAttendee (att_email a) (att_name a) "NEEDS-ACTION".

Definition ics_attributes (event : CalendarEventData) : IcsEventAttributes :=
  mkIcsEventAttributes (title event) (description event) (location event)
    (date_array (startDate event)) (date_array (endDate event))
    (map ics_attendee (attendees event)).

Definition generateICSContent (event : CalendarEventData) : JsM W string :=
  let r := createEvent (ics_attributes event) in
  match ics_error r with
  | Some error => console_error ["ICS generation error:"; error] ;; ret ""
  | None => ret (or_default (ics_value r) "")
  end.

(** The content is what the library encoded, or [""] when it failed. *)
Definition ics_content (event : CalendarEventData) : string :=
  let r := createEvent (ics_attributes event) in
  match ics_error r with
  | Some _ => ""
  | None => or_default (ics_value r) ""
  end.

(** The console lines it writes: one error line when encoding fails. *)
Definition ics_log (event : CalendarEventData) : list console_line :=
  match ics_error (createEvent (ics_attributes event)) with
  | Some error => [ConsoleError ["ICS generation error:"; error]]
  | None => []
  end.

Lemma generateICSContent_value event w :
  fst (generateICSContent event w) = Normal (ics_content event).
Proof.
  unfold generateICSContent, ics_content.
  destruct (ics_error _); reflexivity.
Qed.

Lemma generateICSContent_never_throws event : never_throws (generateICSContent event).
Proof.
  unfold generateICSContent. destruct (ics_error _); auto with jsmodel.
  unfold console_error. auto with jsmodel.
Qed.

Lemma ics_content_error event e :
  ics_error (createEvent (ics_attributes event)) = Some e -> ics_content event = "".
Proof. unfold ics_content. now intros ->. Qed.
End Generate.
