(* ===== verification/SlotTime.v ===== *)
(** * SlotTime: from the slot's ["HH:MM"] strings to instants

    Both senders of email.ts turn [slotStartTime] and [slotEndTime] into
    dates the same way (lines 79-86 and 188-195):
    [const [h, m] = time.split(':').map(Number)], then
    [const d = new Date(data.slotDate); d.setHours(h, m, 0, 0)].
    Nothing validates the strings.  This file models those lines and
    proves what they give on zero-padded ["HH:MM"] strings, and what they
    give on strings that are not. *)

From Stdlib Require Import String Ascii ZArith List Lia Bool.
From S2P Require Import Prelude JsString JsDate Ics.
Import ListNotations.
Local Open Scope string_scope.

Section Parse.
Context `{LocalTZA}.

(** [time.split(':').map(Number)] destructured into [[h, m]]; a missing
    element is [undefined] ([None]). *)
Definition parse_time_parts (time : string) : option jsnum * option jsnum :=
  let parts := map Number (split_char ":"%char time) in
  (nth_error parts 0, nth_error parts 1).

(** [new Date(slot)] then [setHours(h, m, 0, 0)]: the date's value. *)
Definition slot_instant (slot : timeval) (time : string) : timeval :=
  let '(hour, min) := parse_time_parts time in
  setHours (date_copy slot) (to_number_opt hour) (to_number_opt min) (JFin 0 0) (JFin 0 0).
End Parse.

(** ** Zero-padded ["HH:MM"] strings *)

Definition digit_char (n : nat) : ascii := ascii_of_nat (48 + n).

Definition format_hhmm (h m : nat) : string :=
  String (digit_char (h / 10)) (String (digit_char (h mod 10))
    (String ":"%char (String (digit_char (m / 10)) (String (digit_char (m mod 10)) EmptyString)))).

(** A time written without zero-padding of the hour, ["H:MM"]. *)
Definition format_hmm (h m : nat) : string :=
  String (digit_char h)
    (String ":"%char (String (digit_char (m / 10)) (String (digit_char (m mod 10)) EmptyString))).

Definition digit_nat (c : ascii) : option nat :=
  let n := nat_of_ascii c in
  if Nat.leb 48 n && Nat.leb n 57 then Some (n - 48) else None.

(** The hours and minutes of a five-character ["DD:DD"] string. *)
Definition hhmm_fields (s : string) : option (nat * nat) :=
  match s with
  | String a (String b (String c (String d (String e EmptyString)))) =>
      if Ascii.eqb c ":"%char then
        match digit_nat a, digit_nat b, digit_nat d, digit_nat e with
        | Some a, Some b, Some d, Some e => Some (10 * a + b, 10 * d + e)
        | _, _, _, _ => None
        end
      else None
  | _ => None
  end.

(** A slot time as the admin UI writes it: two digits, a colon, two
    digits, minutes below 60. *)
Definition is_slot_time (s : string) : bool :=
  match hhmm_fields s with
  | Some (_, m) => Nat.ltb m 60
  | None => false
  end.

(** ** Lemmas *)

Lemma nat_of_digit_char n : n < 10 -> nat_of_ascii (digit_char n) = 48 + n.
Proof. intros Hn. unfold digit_char. apply nat_ascii_embedding. lia. Qed.

Lemma digit_nat_inv c v : digit_nat c = Some v -> c = digit_char v /\ v < 10.
Proof.
  unfold digit_nat, digit_char. intros Hd.
  destruct (Nat.leb 48 (nat_of_ascii c) && Nat.leb (nat_of_ascii c) 57) eqn:Hb; [|discriminate].
  injection Hd as <-. apply andb_true_iff in Hb as [H1 H2].
  apply Nat.leb_le in H1, H2. split; [|lia].
  rewrite <- (ascii_nat_embedding c) at 1. f_equal. lia.
Qed.

Lemma div10_digits a b : b < 10 -> (10 * a + b) / 10 = a /\ (10 * a + b) mod 10 = b.
Proof.
  intros Hb. split.
  - symmetry. apply (Nat.div_unique _ _ _ b); lia.
  - symmetry. apply (Nat.mod_unique _ _ a); lia.
Qed.

Lemma hhmm_fields_format s h m :
  hhmm_fields s = Some (h, m) -> s = format_hhmm h m /\ h < 100 /\ m < 100.
Proof.
  unfold hhmm_fields.
  destruct s as [|a [|b [|c [|d [|e [|x s]]]]]]; try discriminate.
  destruct (Ascii.eqb_spec c ":"%char) as [->|]; [|discriminate].
  destruct (digit_nat a) as [va|] eqn:Ha; [|discriminate].
  destruct (digit_nat b) as [vb|] eqn:Hb; [|discriminate].
  destruct (digit_nat d) as [vd|] eqn:Hd; [|discriminate].
  destruct (digit_nat e) as [ve|] eqn:He; [|discriminate].
  intros Hf. assert (h = 10 * va + vb /\ m = 10 * vd + ve) as [-> ->]
    by (injection Hf; lia).
  apply digit_nat_inv in Ha as [-> ?], Hb as [-> ?], Hd as [-> ?], He as [-> ?].
  unfold format_hhmm. repeat split; try lia.
  destruct (div10_digits va vb) as [-> ->]; [lia|].
  destruct (div10_digits vd ve) as [-> ->]; [lia|]. reflexivity.
Qed.

(** Parsing and formatting agree on every pair below 100: checked by
    evaluation over the 10000 pairs. *)
Definition parse_check (h m : nat) : bool :=
  match parse_time_parts (format_hhmm h m), hhmm_fields (format_hhmm h m) with
  | (Some (JFin a Z0), Some (JFin b Z0)), Some (h', m') =>
      Z.eqb a (Z.of_nat h) && Z.eqb b (Z.of_nat m) && Nat.eqb h h' && Nat.eqb m m'
  | _, _ => false
  end.

Lemma parse_check_all :
  forallb (fun h => forallb (fun m => parse_check h m) (seq 0 100)) (seq 0 100) = true.
Proof. vm_compute. reflexivity. Qed.

Lemma parse_check_true h m : h < 100 -> m < 100 -> parse_check h m = true.
Proof.
  intros Hh Hm. pose proof parse_check_all as Hall.
  rewrite forallb_forall in Hall. specialize (Hall h (proj2 (in_seq _ _ _) (conj (Nat.le_0_l _) Hh))).
  rewrite forallb_forall in Hall. apply Hall, in_seq. lia.
Qed.

Lemma parse_format h m :
  h < 100 -> m < 100 ->
  parse_time_parts (format_hhmm h m) = (Some (JFin (Z.of_nat h) 0), Some (JFin (Z.of_nat m) 0))
  /\ hhmm_fields (format_hhmm h m) = Some (h, m).
Proof.
  intros Hh Hm. pose proof (parse_check_true h m Hh Hm) as Hc. unfold parse_check in Hc.
  destruct (parse_time_parts (format_hhmm h m)) as [[[| |a [|p|p]]|] [[| |b [|q|q]]|]];
  destruct (hhmm_fields (format_hhmm h m)) as [[h' m']|]; try discriminate.
  repeat rewrite andb_true_iff in Hc. destruct Hc as [[[Ha Hb] Hh'] Hm'].
  apply Z.eqb_eq in Ha, Hb. apply Nat.eqb_eq in Hh', Hm'. subst. auto.
Qed.

(** The same on the unpadded ["H:MM"] strings, over the 1000 pairs. *)
Definition parse_check_hmm (h m : nat) : bool :=
  match parse_time_parts (format_hmm h m) with
  | (Some (JFin a Z0), Some (JFin b Z0)) => Z.eqb a (Z.of_nat h) && Z.eqb b (Z.of_nat m)
  | _ => false
  end.

Lemma parse_check_hmm_all :
  forallb (fun h => forallb (fun m => parse_check_hmm h m) (seq 0 100)) (seq 0 10) = true.
Proof. vm_compute. reflexivity. Qed.

Lemma parse_format_hmm h m :
  h < 10 -> m < 100 ->
  parse_time_parts (format_hmm h m) = (Some (JFin (Z.of_nat h) 0), Some (JFin (Z.of_nat m) 0)).
Proof.
  intros Hh Hm. pose proof parse_check_hmm_all as Hall.
  rewrite forallb_forall in Hall. specialize (Hall h (proj2 (in_seq _ _ _) (conj (Nat.le_0_l _) Hh))).
  rewrite forallb_forall in Hall. specialize (Hall m (proj2 (in_seq _ _ _) (conj (Nat.le_0_l _) Hm))).
  unfold parse_check_hmm in Hall.
  destruct (parse_time_parts (format_hmm h m)) as [[[| |a [|p|p]]|] [[| |b [|q|q]]|]]; try discriminate.
  apply andb_true_iff in Hall as [Ha Hb]. apply Z.eqb_eq in Ha, Hb. now subst.
Qed.

Lemma is_slot_time_inv s :
  is_slot_time s = true -> exists h m, s = format_hhmm h m /\ h < 100 /\ m < 60.
Proof.
  unfold is_slot_time. destruct (hhmm_fields s) as [[h m]|] eqn:Hf; [|discriminate].
  intros Hm. apply Nat.ltb_lt in Hm. apply hhmm_fields_format in Hf as (-> & Hh & _).
  eauto.
Qed.

(** The string order on two zero-padded times is the order of (hours,
    minutes). *)
Lemma js_lt_format h1 m1 h2 m2 :
  h1 < 100 -> m1 < 100 -> h2 < 100 -> m2 < 100 ->
  js_lt (format_hhmm h1 m1) (format_hhmm h2 m2) = true -> h1 < h2 \/ (h1 = h2 /\ m1 < m2).
Proof.
  intros H1 H2 H3 H4. unfold format_hhmm. cbn [js_lt].
  rewrite !nat_of_digit_char
    by (apply Nat.mod_upper_bound || apply Nat.Div0.div_lt_upper_bound; lia).
  pose proof (Nat.div_mod_eq h1 10). pose proof (Nat.div_mod_eq h2 10).
  pose proof (Nat.div_mod_eq m1 10). pose proof (Nat.div_mod_eq m2 10).
  pose proof (Nat.mod_upper_bound h1 10 ltac:(lia)). pose proof (Nat.mod_upper_bound h2 10 ltac:(lia)).
  pose proof (Nat.mod_upper_bound m1 10 ltac:(lia)). pose proof (Nat.mod_upper_bound m2 10 ltac:(lia)).
  repeat match goal with
         | |- context [if Nat.ltb ?a ?b then _ else _] => destruct (Nat.ltb_spec a b)
         | |- context [if Nat.eqb ?a ?b then _ else _] => destruct (Nat.eqb_spec a b)
         end; simpl; intros; try discriminate; lia.
Qed.

Section Instants.
Context `{LocalTZA}.

Lemma slot_instant_format t h m :
  h < 100 -> m < 100 ->
  slot_instant (Some t) (format_hhmm h m)
  = TimeClip (Some (set_local_time t (Z.of_nat h * msPerHour + Z.of_nat m * msPerMinute))).
Proof.
  intros Hh Hm. unfold slot_instant. rewrite (proj1 (parse_format h m Hh Hm)).
  apply setHours_finite; apply to_integer_finite_int.
Qed.

Lemma slot_instant_hmm t h m :
  h < 10 -> m < 60 -> (- maxTime + msPerDay <= t <= maxTime - 5 * msPerDay)%Z ->
  slot_instant (Some t) (format_hmm h m)
  = Some (set_local_time t (Z.of_nat h * msPerHour + Z.of_nat m * msPerMinute)).
Proof.
  intros Hh Hm Ht.
  transitivity (TimeClip (Some (set_local_time t (Z.of_nat h * msPerHour + Z.of_nat m * msPerMinute)))).
  { unfold slot_instant. rewrite parse_format_hmm by lia.
    apply setHours_finite; apply to_integer_finite_int. }
  apply set_local_time_clip; unfold maxTime, msPerDay, msPerHour, msPerMinute in *; lia.
Qed.

Lemma slot_instant_valid t h m :
  h < 100 -> m < 60 -> (- maxTime + msPerDay <= t <= maxTime - 5 * msPerDay)%Z ->
  slot_instant (Some t) (format_hhmm h m)
  = Some (set_local_time t (Z.of_nat h * msPerHour + Z.of_nat m * msPerMinute)).
Proof.
  intros Hh Hm Ht. rewrite slot_instant_format by lia.
  apply set_local_time_clip; unfold maxTime, msPerDay, msPerHour, msPerMinute in *; lia.
Qed.
End Instants.

(** ** Properties *)

Section SlotTimeProperties.
Context `{LocalTZA}.

(** C7. For two slot times written ["HH:MM"] with minutes below 60,
    [start < end] as strings implies that the start instant the code
    derives precedes the end instant, on every valid slot date at
    least a day inside the [TimeClip] range (five days at the top,
    for hours up to 99). *)
Theorem slot_times_ordered (t : Z) (s1 s2 : string) :
  is_slot_time s1 = true -> is_slot_time s2 = true -> js_lt s1 s2 = true ->
  (- maxTime + msPerDay <= t <= maxTime - 5 * msPerDay)%Z ->
  exists a b, slot_instant (Some t) s1 = Some a /\ slot_instant (Some t) s2 = Some b
              /\ (a < b)%Z.
Proof.
  intros Hs1 Hs2 Hlt Ht.
  destruct (is_slot_time_inv s1 Hs1) as (h1 & m1 & -> & Hh1 & Hm1).
  destruct (is_slot_time_inv s2 Hs2) as (h2 & m2 & -> & Hh2 & Hm2).
  apply js_lt_format in Hlt; try lia.
  do 2 eexists. rewrite !slot_instant_valid by lia.
  split; [reflexivity | split; [reflexivity |]].
  apply set_local_time_mono. unfold msPerHour, msPerMinute. lia.
Qed.

(** C9. The code's parsing recovers the fields of a slot time: on a
    ["DD:DD"] string, [split(':').map(Number)] yields exactly the hours
    and the minutes as finite integers. *)
Theorem slot_time_parse s h m :
  hhmm_fields s = Some (h, m) ->
  parse_time_parts s = (Some (JFin (Z.of_nat h) 0), Some (JFin (Z.of_nat m) 0)).
Proof.
  intros Hf. apply hhmm_fields_format in Hf as (-> & Hh & Hm).
  exact (proj1 (parse_format h m Hh Hm)).
Qed.

(** C13. The ICS date array of a slot time: with hours below 24 and
    minutes below 60, [[getFullYear(), getMonth() + 1, getDate(),
    getHours(), getMinutes()]] of the derived date is the slot date's
    local calendar day followed by the string's hours and minutes. *)
Theorem slot_ics_date_array (t : Z) (h m : nat) :
  h < 24 -> m < 60 -> (- maxTime + msPerDay <= t <= maxTime - 5 * msPerDay)%Z ->
  date_array (slot_instant (Some t) (format_hhmm h m))
  = let '(y, mo, d) := local_civil t in
    [Some y; Some mo; Some d; Some (Z.of_nat h); Some (Z.of_nat m)].
Proof.
  intros Hh Hm Ht. rewrite slot_instant_valid by lia.
  unfold date_array, getFullYear, getMonth, getDate, getHours, getMinutes, local_civil.
  cbn [option_map].
  rewrite Day_set_local_time by (unfold msPerDay, msPerHour, msPerMinute; lia).
  rewrite Hour_set_local_time, Min_set_local_time by lia.
  destruct (civil_from_days (Day (LocalTime t))) as [[y mo] d].
  do 2 f_equal. f_equal. ring.
Qed.
End SlotTimeProperties.

(** ** Witnesses and counterexamples, in India Standard Time *)

Definition ist_offset : LocalTZA := 19800000%Z.

(** 2024-03-10 00:00 IST. *)
Definition slot_day : Z := 1710009000000%Z.

Lemma slot_times_ordered_witness :
  exists a b, @slot_instant ist_offset (Some slot_day) "10:00" = Some a
              /\ @slot_instant ist_offset (Some slot_day) "10:30" = Some b /\ (a < b)%Z.
Proof.
  apply (@slot_times_ordered ist_offset); [reflexivity | reflexivity | reflexivity |].
  unfold slot_day, maxTime, msPerDay. lia.
Defined.

Lemma slot_time_parse_witness :
  hhmm_fields "09:45" = Some (9, 45)
  /\ @parse_time_parts "09:45" = (Some (JFin 9 0), Some (JFin 45 0)).
Proof.
  split; [reflexivity |]. apply (slot_time_parse "09:45" 9 45). reflexivity.
Defined.

Lemma slot_ics_date_array_witness :
  @date_array ist_offset (@slot_instant ist_offset (Some slot_day) (format_hhmm 10 30))
  = [Some 2024%Z; Some 3%Z; Some 10%Z; Some 10%Z; Some 30%Z].
Proof.
  rewrite (@slot_ics_date_array ist_offset slot_day 10 30); [reflexivity | lia | lia |].
  unfold slot_day, maxTime, msPerDay. lia.
Defined.

Section Unpadded.
Context `{LocalTZA}.

(** C10. Without zero-padding the string order and the instants
    disagree for a whole family of times: a padded time from 10:00 to
    23:59 and an unpadded ["H:MM"] whose hour digit exceeds the padded
    time's first digit compare as [start < end] by the code's string
    order, yet [split(':').map(Number)] and [setHours] derive a start
    instant after the end instant, on every valid slot date. *)
Theorem unpadded_slot_times_misordered (t : Z) (h1 m1 h2 m2 : nat) :
  10 <= h1 < 24 -> h1 / 10 < h2 < 10 -> m1 < 60 -> m2 < 60 ->
  (- maxTime + msPerDay <= t <= maxTime - 5 * msPerDay)%Z ->
  js_lt (format_hhmm h1 m1) (format_hmm h2 m2) = true /\
  exists a b, slot_instant (Some t) (format_hhmm h1 m1) = Some a
              /\ slot_instant (Some t) (format_hmm h2 m2) = Some b /\ (b < a)%Z.
Proof.
  intros Hh1 Hh2 Hm1 Hm2 Ht. split.
  - unfold format_hhmm, format_hmm. cbn [js_lt].
    rewrite !nat_of_digit_char by first [lia | apply Nat.Div0.div_lt_upper_bound; lia].
    now replace (Nat.ltb (48 + h1 / 10) (48 + h2)) with true by (symmetry; apply Nat.ltb_lt; lia).
  - do 2 eexists. rewrite slot_instant_valid, slot_instant_hmm by lia.
    split; [reflexivity | split; [reflexivity |]].
    apply set_local_time_mono. unfold msPerHour, msPerMinute. lia.
Qed.
End Unpadded.

(** On 10 March 2024 in India, ["10:00"] and ["9:30"]. *)
Lemma unpadded_slot_times_misordered_witness :
  js_lt "10:00" "9:30" = true /\
  exists a b, @slot_instant ist_offset (Some slot_day) "10:00" = Some a
              /\ @slot_instant ist_offset (Some slot_day) "9:30" = Some b /\ (b < a)%Z.
Proof.
  exact (@unpadded_slot_times_misordered ist_offset slot_day 10 0 9 30
           ltac:(lia) ltac:(cbn; lia) ltac:(lia) ltac:(lia)
           ltac:(unfold slot_day, maxTime, msPerDay; lia)).
Defined.
