(* ===== verification/EmailService.v ===== *)
(** * EmailService: the counselling-invite senders of email.ts

    [sendParentCalendarInvite] (lines 65-170) and
    [sendPrincipalCalendarInvite] (lines 175-270) as [JsM] programs over
    a [World] of console lines and the requests handed to Resend.  The
    Resend client is the interface [ResendClient]; [process.env] is an
    association list read with [||] fallbacks; [toLocaleDateString] is
    the interface [LocaleDates].  The abstract contract [DispatchSpec]
    states what a sender promises its caller, and both senders are shown
    to refine it. *)

From Stdlib Require Import String Ascii ZArith List Lia Bool.
From S2P Require Import Prelude JsString JsDate Base64 Ics SlotTime.
Import ListNotations.
Local Open Scope string_scope.
Local Open Scope js_scope.

(** ** Resend *)

Record ResendAttachment : Type := mkResendAttachment {
  filename : string;
  content : string;
}.

Record EmailRequest : Type := mkEmailRequest {
  req_from : string;
  req_to : list string;
  req_subject : string;
  req_text : string;
  req_attachments : list ResendAttachment;
}.

(** [{ data, error }] of a settled [resend.emails.send]: the data's [id]
    or an error with its [message]. *)
Inductive ResendResponse : Type :=
| ResendOk (id : option string)
| ResendErr (message : string).

(** The awaited promise resolves with a response or rejects with a
    thrown object (network failure, timeout, malformed response), whose
    [message] may be missing.  A rejection with [null] or [undefined] is
    not represented: on it [error.message] in the [catch] would itself
    throw and the sender's promise would reject; the Resend SDK rejects
    with [Error] objects. *)
Inductive ResendOutcome : Type :=
| Resolves (r : ResendResponse)
| Rejects (message : option string).

Class ResendClient : Type := emails_send : EmailRequest -> ResendOutcome.

(** [toLocaleDateString('en-IN', { weekday, year, month, day })] and
    [toLocaleDateString('en-IN')]. *)
Class LocaleDates : Type := mkLocaleDates {
  toLocaleDateString_long : timeval -> string;
  toLocaleDateString_short : timeval -> string;
}.

(** ** The observable world: the console and every request made *)

Record World : Type := mkWorld {
  console : list console_line;
  outbox : list EmailRequest;
}.

#[export] Instance world_console : Console World :=
  fun l w => mkWorld (console w ++ [l]) (outbox w).

Record SendEmailResult : Type := mkSendEmailResult {
  success : bool;
  message : string;
}.

(** ** Configuration: [process.env] *)

Definition ProcessEnv : Type := list (string * string).

Definition env_get (env : ProcessEnv) (k : string) : option string :=
  option_map snd (find (fun kv => String.eqb (fst kv) k) env).

Definition schoolName_of (env : ProcessEnv) : string :=
  or_default (env_get env "SCHOOL_NAME") "ABC International School".
Definition schoolEmail_of (env : ProcessEnv) : string :=
  or_default (env_get env "SCHOOL_EMAIL") "info@school.com".
Definition principalEmail_of (env : ProcessEnv) : string :=
  or_default (env_get env "PRINCIPAL_EMAIL") "principal@school.com".

(** [process.env.NODE_ENV === 'development'] *)
Definition is_development (env : ProcessEnv) : bool :=
  match env_get env "NODE_ENV" with
  | Some v => String.eqb v "development"
  | None => false
  end.

(** ** Inputs *)

Record ParentInviteData : Type := mkParentInviteData {
  parentEmail : string;
  parentName : string;
  studentName : string;
  tokenId : string;
  slotDate : timeval;
  slotStartTime : string;
  slotEndTime : string;
  p_location : string;
}.

Record PrincipalInviteData : Type := mkPrincipalInviteData {
  pr_studentName : string;
  pr_parentName : string;
  pr_tokenId : string;
  pr_slotDate : timeval;
  pr_slotStartTime : string;
  pr_slotEndTime : string;
  pr_location : string;
}.

Section Senders.
Context `{LocalTZA} `{IcsLib} `{ResendClient} `{LocaleDates}.

(** ** Resend, awaited: the request is made, then the outcome settles. *)
Definition resend_send (req : EmailRequest) : JsM World ResendResponse :=
  fun w =>
    let w' := mkWorld (console w) (outbox w ++ [req]) in
    match emails_send req with
    | Resolves r => (Normal r, w')
    | Rejects e => (Throw e, w')
    end.

Definition log_lines (lines : list string) : JsM World unit :=
  fold_right (fun l k => console_log [l] ;; k) (ret tt) lines.

Definition failed (error_message : string) : SendEmailResult :=
  mkSendEmailResult false ("Failed to send email: " ++ error_message).

(** Lines 136-169 and 236-269: one delivery attempt inside
    [try]/[catch]. *)
Definition deliver (req : EmailRequest) (sent : string) : JsM World SendEmailResult :=
  try_catch
    (resp <- resend_send req ;;
     match resp with
     | ResendErr error =>
         console_error ["Resend error:"; error] ;; ret (failed error)
     | ResendOk id =>
         console_log ["Email sent successfully via Resend:"; show_opt id] ;;
         ret (mkSendEmailResult true sent)
     end)
    (fun error =>
       console_error ["Email sending error:"; show_opt error] ;;
       ret (failed (show_opt error))).

Definition ics_attachment (icsContent : string) : ResendAttachment :=
  mkResendAttachment "counselling-session.ics" (buffer_base64 icsContent).

Definition rule_eq : string := "========================================".
Definition rule_dash : string := "----------------------------------------".

(** ** The parent invite *)

Definition parent_event (schoolName : string) (data : ParentInviteData)
    (start stop : timeval) : CalendarEventData :=
  mkCalendarEventData
    ("Counselling Session - " ++ schoolName)
    ("Student: " ++ studentName data ++ "\nToken ID: " ++ tokenId data ++
     "\n\nPlease bring all required documents.")
    (p_location data) start stop
    [mkAttendee (parentEmail data) (Some (parentName data))].

Definition parent_body_template (schoolName : string) (data : ParentInviteData) : string :=
  "
Dear " ++ parentName data ++ ",

Your counselling session for " ++ studentName data ++ "'s admission has been scheduled.

Details:
- Token ID: " ++ tokenId data ++ "
- Date: " ++ toLocaleDateString_long (slotDate data) ++ "
- Time: " ++ slotStartTime data ++ " - " ++ slotEndTime data ++ "
- Location: " ++ p_location data ++ "

Please bring all required documents for verification.

Best regards,
" ++ schoolName ++ " Admissions Team
  ".

Definition parent_subject (data : ParentInviteData) : string :=
  "Counselling Slot Confirmation - " ++ tokenId data.

Definition parent_request (env : ProcessEnv) (data : ParentInviteData)
    (emailBody icsContent : string) : EmailRequest :=
  mkEmailRequest (schoolName_of env ++ " <" ++ schoolEmail_of env ++ ">")
    [parentEmail data] (parent_subject data) emailBody [ics_attachment icsContent].

Definition parent_dev_log (data : ParentInviteData) (emailBody icsContent : string)
    : JsM World unit :=
  log_lines [rule_eq; "EMAIL SERVICE - PARENT INVITE (MOCK)"; rule_dash;
             "To: " ++ parentEmail data; "Subject: " ++ parent_subject data;
             "Body:"; emailBody; rule_dash; "ICS Content:"; icsContent; rule_eq].

Definition sendParentCalendarInvite (env : ProcessEnv) (data : ParentInviteData)
    : JsM World SendEmailResult :=
  let schoolName := schoolName_of env in
  let startDate := slot_instant (slotDate data) (slotStartTime data) in
  let endDate := slot_instant (slotDate data) (slotEndTime data) in
  let event := parent_event schoolName data startDate endDate in
  icsContent <- generateICSContent event ;;
  let emailBody := trim (parent_body_template schoolName data) in
  if is_development env then
    parent_dev_log data emailBody icsContent ;;
    ret (mkSendEmailResult true "Calendar invite email sent to parent (dev mode)")
  else
    deliver (parent_request env data emailBody icsContent)
      "Calendar invite email sent to parent".

(** ** The principal invite *)

Definition principal_event (principalEmail : string) (data : PrincipalInviteData)
    (start stop : timeval) : CalendarEventData :=
  mkCalendarEventData
    ("Counselling: " ++ pr_studentName data ++ " - " ++ pr_tokenId data)
    ("Student: " ++ pr_studentName data ++ "\nParent: " ++ pr_parentName data ++
     "\nToken ID: " ++ pr_tokenId data)
    (pr_location data) start stop
    [mkAttendee principalEmail (Some "Principal")].

Definition principal_body_template (data : PrincipalInviteData) : string :=
  "
Counselling Session Scheduled

Student: " ++ pr_studentName data ++ "
Parent: " ++ pr_parentName data ++ "
Token ID: " ++ pr_tokenId data ++ "
Date: " ++ toLocaleDateString_short (pr_slotDate data) ++ "
Time: " ++ pr_slotStartTime data ++ " - " ++ pr_slotEndTime data ++ "
Location: " ++ pr_location data ++ "
  ".

Definition principal_subject (data : PrincipalInviteData) : string :=
  "Counselling Session - " ++ pr_slotStartTime data ++ " - " ++ pr_studentName data.

Definition principal_request (env : ProcessEnv) (data : PrincipalInviteData)
    (emailBody icsContent : string) : EmailRequest :=
  mkEmailRequest (schoolName_of env ++ " <" ++ schoolEmail_of env ++ ">")
    [principalEmail_of env] (principal_subject data) emailBody
    [ics_attachment icsContent].

Definition principal_dev_log (env : ProcessEnv) (data : PrincipalInviteData)
    (emailBody : string) : JsM World unit :=
  log_lines [rule_eq; "EMAIL SERVICE - PRINCIPAL INVITE (MOCK)"; rule_dash;
             "To: " ++ principalEmail_of env; "Subject: " ++ principal_subject data;
             "Body:"; emailBody; rule_eq].

Definition sendPrincipalCalendarInvite (env : ProcessEnv) (data : PrincipalInviteData)
    : JsM World SendEmailResult :=
  let principalEmail := principalEmail_of env in
  let startDate := slot_instant (pr_slotDate data) (pr_slotStartTime data) in
  let endDate := slot_instant (pr_slotDate data) (pr_slotEndTime data) in
  let event := principal_event principalEmail data startDate endDate in
  icsContent <- generateICSContent event ;;
  let emailBody := trim (principal_body_template data) in
  if is_development env then
    principal_dev_log env data emailBody ;;
    ret (mkSendEmailResult true "Calendar invite email sent to principal (dev mode)")
  else
    deliver (principal_request env data emailBody icsContent)
      "Calendar invite email sent to principal".
End Senders.

(** ** The dispatch contract

    What a sender promises its caller, written from the result shape of
    the code and independent of how it is composed: the promise
    resolves; in development mode nothing is handed to Resend and the
    call succeeds; otherwise exactly one request is handed to Resend,
    addressed to the recipient and carrying the ICS attachment, and the
    result is decided by how that request settles. *)
Definition deliver_result (o : ResendOutcome) (sent : string) : SendEmailResult :=
  match o with
  | Resolves (ResendOk _) => mkSendEmailResult true sent
  | Resolves (ResendErr m) => mkSendEmailResult false ("Failed to send email: " ++ m)
  | Rejects e => mkSendEmailResult false ("Failed to send email: " ++ show_opt e)
  end.

Definition DispatchSpec `{ResendClient} (env : ProcessEnv) (recipient sent dev_sent : string)
    (prog : JsM World SendEmailResult) : Prop :=
  forall w, exists r w', prog w = (Normal r, w') /\
    if is_development env then outbox w' = outbox w /\ r = mkSendEmailResult true dev_sent
    else exists req, outbox w' = (outbox w ++ [req])%list /\ req_to req = [recipient] /\
           map filename (req_attachments req) = ["counselling-session.ics"] /\
           r = deliver_result (emails_send req) sent.

(** ** How the pieces act on the world *)

Section WorldFacts.
Context `{LocalTZA} `{IcsLib} `{ResendClient} `{LocaleDates}.

Lemma log_lines_run ls w :
  log_lines ls w = (Normal tt, mkWorld (console w ++ map (fun l => ConsoleLog [l]) ls)%list (outbox w)).
Proof.
  revert w. induction ls as [|l ls IH]; intros [c o]; simpl.
  - now rewrite app_nil_r.
  - unfold bind, console_log, modify. simpl. rewrite IH. simpl. now rewrite <- app_assoc.
Qed.

Lemma generateICSContent_world (event : CalendarEventData) w :
  exists w1, generateICSContent event w = (Normal (ics_content event), w1) /\ outbox w1 = outbox w.
Proof.
  unfold generateICSContent, ics_content.
  destruct (ics_error _); [eexists; split; reflexivity | exists w; split; reflexivity].
Qed.

Lemma generateICSContent_console (event : CalendarEventData) w :
  generateICSContent event w
  = (Normal (ics_content event), mkWorld (console w ++ ics_log event)%list (outbox w)).
Proof.
  unfold generateICSContent, ics_content, ics_log.
  destruct (ics_error _); simpl; [reflexivity | now rewrite app_nil_r; destruct w].
Qed.

Lemma deliver_run req sent w :
  exists w', deliver req sent w = (Normal (deliver_result (emails_send req) sent), w')
             /\ outbox w' = (outbox w ++ [req])%list.
Proof.
  unfold deliver, resend_send, try_catch, bind.
  destruct (emails_send req) as [[id|m]|e]; simpl; eexists; split; reflexivity.
Qed.

(** The shape both senders share: ICS generation, then the branch. *)
Lemma sender_shape (event : CalendarEventData) (env : ProcessEnv)
    (dev : string -> JsM World unit) (dev_sent sent : string)
    (req : string -> EmailRequest) w :
  (forall s w0, exists w1, dev s w0 = (Normal tt, w1) /\ outbox w1 = outbox w0) ->
  exists w',
    (icsContent <- generateICSContent event ;;
     if is_development env then dev icsContent ;; ret (mkSendEmailResult true dev_sent)
     else deliver (req icsContent) sent) w
    = (Normal (if is_development env then mkSendEmailResult true dev_sent
               else deliver_result (emails_send (req (ics_content event))) sent), w')
    /\ outbox w' = (if is_development env then outbox w
                    else (outbox w ++ [req (ics_content event)])%list).
Proof.
  intros Hdev. destruct (generateICSContent_world event w) as (w1 & Hg & Ho1).
  unfold bind at 1. rewrite Hg. destruct (is_development env).
  - destruct (Hdev (ics_content event) w1) as (w2 & Hd & Ho2).
    unfold bind. rewrite Hd. exists w2. split; [reflexivity | congruence].
  - destruct (deliver_run (req (ics_content event)) sent w1) as (w2 & Hd & Ho2).
    exists w2. split; [exact Hd | congruence].
Qed.

Lemma log_lines_world ls w0 :
  exists w1, log_lines ls w0 = (Normal tt, w1) /\ outbox w1 = outbox w0.
Proof. rewrite log_lines_run. eexists; split; reflexivity. Qed.

Definition parent_body (env : ProcessEnv) (data : ParentInviteData) : string :=
  trim (parent_body_template (schoolName_of env) data).

Definition parent_ics (env : ProcessEnv) (data : ParentInviteData) : string :=
  ics_content (parent_event (schoolName_of env) data
    (slot_instant (slotDate data) (slotStartTime data))
    (slot_instant (slotDate data) (slotEndTime data))).

Lemma sendParent_run env data w :
  exists w',
    sendParentCalendarInvite env data w
    = (Normal (if is_development env
               then mkSendEmailResult true "Calendar invite email sent to parent (dev mode)"
               else deliver_result (emails_send (parent_request env data (parent_body env data)
                                                   (parent_ics env data)))
                      "Calendar invite email sent to parent"), w')
    /\ outbox w' = (if is_development env then outbox w
                    else (outbox w ++ [parent_request env data (parent_body env data)
                                        (parent_ics env data)])%list).
Proof.
  unfold parent_body, parent_ics, sendParentCalendarInvite.
  apply (sender_shape _ env (fun s => parent_dev_log data _ s)).
  intros s w0. apply log_lines_world.
Qed.

Definition principal_body (data : PrincipalInviteData) : string :=
  trim (principal_body_template data).

Definition principal_ics (env : ProcessEnv) (data : PrincipalInviteData) : string :=
  ics_content (principal_event (principalEmail_of env) data
    (slot_instant (pr_slotDate data) (pr_slotStartTime data))
    (slot_instant (pr_slotDate data) (pr_slotEndTime data))).

Lemma sendPrincipal_run env data w :
  exists w',
    sendPrincipalCalendarInvite env data w
    = (Normal (if is_development env
               then mkSendEmailResult true "Calendar invite email sent to principal (dev mode)"
               else deliver_result (emails_send (principal_request env data
                                                   (principal_body data) (principal_ics env data)))
                      "Calendar invite email sent to principal"), w')
    /\ outbox w' = (if is_development env then outbox w
                    else (outbox w ++ [principal_request env data (principal_body data)
                                        (principal_ics env data)])%list).
Proof.
  unfold principal_body, principal_ics, sendPrincipalCalendarInvite.
  apply (sender_shape _ env (fun _ => principal_dev_log env data _)).
  intros s w0. apply log_lines_world.
Qed.
End WorldFacts.

(** ** Properties of the senders *)

Section SenderProperties.
Context `{LocalTZA} `{IcsLib} `{ResendClient} `{LocaleDates}.

(** C1. [sendParentCalendarInvite] refines the dispatch contract for the
    parent's address: it never rejects, logs without delivering in
    development mode, and otherwise makes one Resend request to the
    parent with the [counselling-session.ics] attachment whose
    settlement decides the result. *)
Theorem parent_refines_dispatch env data :
  DispatchSpec env (parentEmail data) "Calendar invite email sent to parent"
    "Calendar invite email sent to parent (dev mode)" (sendParentCalendarInvite env data).
Proof.
  intros w. destruct (sendParent_run env data w) as (w' & Hrun & Hout).
  eexists _, w'. split; [exact Hrun |].
  destruct (is_development env); [split; auto |].
  eexists; repeat split; eauto.
Qed.

(** C2. [sendPrincipalCalendarInvite] refines the same contract for the
    principal's configured address. *)
Theorem principal_refines_dispatch env data :
  DispatchSpec env (principalEmail_of env) "Calendar invite email sent to principal"
    "Calendar invite email sent to principal (dev mode)"
    (sendPrincipalCalendarInvite env data).
Proof.
  intros w. destruct (sendPrincipal_run env data w) as (w' & Hrun & Hout).
  eexists _, w'. split; [exact Hrun |].
  destruct (is_development env); [split; auto |].
  eexists; repeat split; eauto.
Qed.

(** C3. In development mode the parent sender writes exactly the mock
    e-mail to the console, between the rules: recipient, subject, the
    trimmed body and then the ICS content of the event (after the
    encoder's error line, when there is one); it hands nothing to Resend
    and reports the dev-mode success message. *)
Theorem parent_dev_log_contents env data w :
  is_development env = true ->
  exists w', sendParentCalendarInvite env data w
             = (Normal (mkSendEmailResult true "Calendar invite email sent to parent (dev mode)"), w')
    /\ outbox w' = outbox w
    /\ console w' = (console w
         ++ ics_log (parent_event (schoolName_of env) data
              (slot_instant (slotDate data) (slotStartTime data))
              (slot_instant (slotDate data) (slotEndTime data)))
         ++ map (fun l => ConsoleLog [l])
              [rule_eq; "EMAIL SERVICE - PARENT INVITE (MOCK)"; rule_dash;
               ("To: " ++ parentEmail data)%string; ("Subject: " ++ parent_subject data)%string;
               "Body:"; parent_body env data; rule_dash; "ICS Content:"; parent_ics env data;
               rule_eq])%list.
Proof.
  intros Hdev. unfold sendParentCalendarInvite, bind at 1.
  rewrite generateICSContent_console, Hdev. unfold bind, parent_dev_log.
  rewrite log_lines_run. eexists. split; [reflexivity |]. split; [reflexivity |]. simpl.
  now rewrite app_assoc.
Qed.

(** C4. Outside development mode, when Resend answers with an error
    the parent sender fails with ["Failed to send email: " ++ message]
    after exactly one request. *)
Theorem parent_provider_error env data w msg :
  is_development env = false ->
  emails_send (parent_request env data (parent_body env data) (parent_ics env data))
    = Resolves (ResendErr msg) ->
  exists w', sendParentCalendarInvite env data w
             = (Normal (mkSendEmailResult false ("Failed to send email: " ++ msg)), w')
             /\ outbox w' = (outbox w ++ [parent_request env data (parent_body env data)
                                            (parent_ics env data)])%list.
Proof.
  intros Hdev Hsend. destruct (sendParent_run env data w) as (w' & Hrun & Hout).
  rewrite Hdev, Hsend in Hrun. rewrite Hdev in Hout. eauto.
Qed.

(** C5. When the awaited Resend call throws, the [catch] turns the
    fault into a failed result carrying the fault's message (the text
    ["undefined"] when the thrown value has none). *)
Theorem parent_transport_fault_caught env data w e :
  is_development env = false ->
  emails_send (parent_request env data (parent_body env data) (parent_ics env data))
    = Rejects e ->
  exists w', sendParentCalendarInvite env data w
             = (Normal (mkSendEmailResult false ("Failed to send email: " ++ show_opt e)), w').
Proof.
  intros Hdev Hsend. destruct (sendParent_run env data w) as (w' & Hrun & _).
  rewrite Hdev, Hsend in Hrun. eauto.
Qed.

End SenderProperties.

Section MoreSenderProperties.
Context `{LocalTZA} `{IcsLib} `{ResendClient} `{LocaleDates}.

(** C8. When the [ics] library reports an error outside development
    mode, the parent sender still makes its one Resend request, with
    the [counselling-session.ics] attachment left empty. *)
Theorem parent_ics_failure_empty_attachment env data w e :
  is_development env = false ->
  ics_error (createEvent (ics_attributes (parent_event (schoolName_of env) data
    (slot_instant (slotDate data) (slotStartTime data))
    (slot_instant (slotDate data) (slotEndTime data))))) = Some e ->
  exists r w' req, sendParentCalendarInvite env data w = (Normal r, w')
    /\ outbox w' = (outbox w ++ [req])%list
    /\ req_attachments req = [mkResendAttachment "counselling-session.ics" ""].
Proof.
  intros Hdev Herr. destruct (sendParent_run env data w) as (w' & Hrun & Hout).
  rewrite Hdev in Hrun, Hout. unfold parent_ics in *.
  rewrite (ics_content_error _ e Herr) in Hrun, Hout.
  do 3 eexists. split; [exact Hrun | split; [exact Hout | reflexivity]].
Qed.

(** C11. Any [NODE_ENV] other than exactly ['development'], unset
    included, sends a real email: one Resend request to the parent. *)
Theorem non_development_env_delivers env data w :
  env_get env "NODE_ENV" <> Some "development" ->
  exists r w' req, sendParentCalendarInvite env data w = (Normal r, w')
    /\ outbox w' = (outbox w ++ [req])%list /\ req_to req = [parentEmail data].
Proof.
  intros Hne. assert (Hdev : is_development env = false).
  { unfold is_development. destruct (env_get env "NODE_ENV") as [v|]; [|reflexivity].
    destruct (String.eqb_spec v "development"); [subst; contradiction | reflexivity]. }
  destruct (sendParent_run env data w) as (w' & Hrun & Hout). rewrite Hdev in Hrun, Hout.
  do 3 eexists. split; [exact Hrun | split; [exact Hout | reflexivity]].
Qed.

(** C12. In development mode the principal sender logs the recipient,
    subject and body between the rules and nothing else: the ICS
    content is not written to the console (only an encoding error
    line, when there is one). *)
Theorem principal_dev_log_omits_ics env data w :
  is_development env = true ->
  exists r w', sendPrincipalCalendarInvite env data w = (Normal r, w')
    /\ console w' = (console w
         ++ ics_log (principal_event (principalEmail_of env) data
              (slot_instant (pr_slotDate data) (pr_slotStartTime data))
              (slot_instant (pr_slotDate data) (pr_slotEndTime data)))
         ++ map (fun l => ConsoleLog [l])
              [rule_eq; "EMAIL SERVICE - PRINCIPAL INVITE (MOCK)"; rule_dash;
               ("To: " ++ principalEmail_of env)%string;
               ("Subject: " ++ principal_subject data)%string;
               "Body:"; principal_body data; rule_eq])%list.
Proof.
  intros Hdev. unfold sendPrincipalCalendarInvite, bind at 1.
  rewrite generateICSContent_console, Hdev. unfold bind, principal_dev_log.
  rewrite log_lines_run. do 2 eexists. split; [reflexivity |]. simpl.
  now rewrite app_assoc.
Qed.

(** The configured school name, sender address and principal address
    are never empty: an unset or empty variable falls back to its
    default. *)
Lemma config_nonempty env :
  schoolName_of env <> "" /\ schoolEmail_of env <> "" /\ principalEmail_of env <> "".
Proof.
  unfold schoolName_of, schoolEmail_of, principalEmail_of.
  repeat split; apply or_default_nonempty; discriminate.
Qed.

(** C16. [.trim()] removes exactly the template's leading line break and
    trailing indentation: the parent's body starts with ["Dear "] and
    ends with ["Admissions Team"], whatever the fields hold. *)
Theorem parent_body_trimmed env data :
  parent_body env data =
  "Dear " ++ parentName data ++ ",

Your counselling session for " ++ studentName data ++ "'s admission has been scheduled.

Details:
- Token ID: " ++ tokenId data ++ "
- Date: " ++ toLocaleDateString_long (slotDate data) ++ "
- Time: " ++ slotStartTime data ++ " - " ++ slotEndTime data ++ "
- Location: " ++ p_location data ++ "

Please bring all required documents for verification.

Best regards,
" ++ schoolName_of env ++ " Admissions Team".
Proof.
  unfold parent_body, parent_body_template, trim.
  rewrite trim_start_app by (vm_compute; discriminate).
  cbn [trim_start is_js_space nat_of_ascii].
  repeat (rewrite trim_end_app by trim_end_nonempty). reflexivity.
Qed.
End MoreSenderProperties.

(** ** Witnesses: the scenarios of the specification

    A parent invite for token TKN-1001 on 2024-03-10, 10:00-10:30 in
    Room A, in India Standard Time, with the environment and the
    services of each scenario. *)

Module Scenario.
Definition tz : LocalTZA := 19800000%Z.
Definition dates : LocaleDates :=
  mkLocaleDates (fun _ => "Sunday, 10 March 2024") (fun _ => "10/3/2024").
Definition ics_ok : IcsLib := fun a => mkIcsReturn (Some ("BEGIN:VCALENDAR " ++ ics_title a)) None.
Definition ics_fails : IcsLib := fun _ => mkIcsReturn None (Some "invalid start").
Definition resend_ok : ResendClient := fun _ => Resolves (ResendOk (Some "em_123")).
Definition resend_rejects : ResendClient := fun _ => Resolves (ResendErr "invalid recipient").
Definition resend_throws : ResendClient := fun _ => Rejects (Some "fetch failed").

Definition asha : ParentInviteData :=
  mkParentInviteData "asha@example.com" "Asha Rao" "Kiran Rao" "TKN-1001"
    (Some 1710009000000%Z) "10:00" "10:30" "Room A".
Definition kiran_principal : PrincipalInviteData :=
  mkPrincipalInviteData "Kiran Rao" "Asha Rao" "TKN-1001" (Some 1710009000000%Z)
    "10:00" "10:30" "Room A".
Definition dev_env : ProcessEnv := [("NODE_ENV", "development")].
Definition prod_env : ProcessEnv := [("NODE_ENV", "production")].
Definition unset_env : ProcessEnv := [].
Definition w0 : World := mkWorld [] [].
End Scenario.

Module DevScenario.
Import Scenario.
#[local] Existing Instances tz dates ics_ok resend_ok.

Lemma parent_dev_log_contents_witness :
  is_development dev_env = true /\
  exists w', sendParentCalendarInvite dev_env asha w0
             = (Normal (mkSendEmailResult true "Calendar invite email sent to parent (dev mode)"), w')
    /\ outbox w' = outbox w0
    /\ console w' = (console w0
         ++ ics_log (parent_event (schoolName_of dev_env) asha
              (slot_instant (slotDate asha) (slotStartTime asha))
              (slot_instant (slotDate asha) (slotEndTime asha)))
         ++ map (fun l => ConsoleLog [l])
              [rule_eq; "EMAIL SERVICE - PARENT INVITE (MOCK)"; rule_dash;
               ("To: " ++ parentEmail asha)%string; ("Subject: " ++ parent_subject asha)%string;
               "Body:"; parent_body dev_env asha; rule_dash; "ICS Content:"; parent_ics dev_env asha;
               rule_eq])%list.
Proof. split; [reflexivity |]. apply parent_dev_log_contents. reflexivity. Defined.

Lemma principal_dev_log_omits_ics_witness :
  is_development dev_env = true /\
  exists r w', sendPrincipalCalendarInvite dev_env kiran_principal w0 = (Normal r, w')
    /\ console w' = (console w0
         ++ ics_log (principal_event (principalEmail_of dev_env) kiran_principal
              (slot_instant (pr_slotDate kiran_principal) (pr_slotStartTime kiran_principal))
              (slot_instant (pr_slotDate kiran_principal) (pr_slotEndTime kiran_principal)))
         ++ map (fun l => ConsoleLog [l])
              [rule_eq; "EMAIL SERVICE - PRINCIPAL INVITE (MOCK)"; rule_dash;
               ("To: " ++ principalEmail_of dev_env)%string;
               ("Subject: " ++ principal_subject kiran_principal)%string;
               "Body:"; principal_body kiran_principal; rule_eq])%list.
Proof. split; [reflexivity |]. apply principal_dev_log_omits_ics. reflexivity. Defined.

Lemma non_development_env_delivers_witness :
  env_get unset_env "NODE_ENV" <> Some "development" /\
  exists r w' req, sendParentCalendarInvite unset_env asha w0 = (Normal r, w')
    /\ outbox w' = (outbox w0 ++ [req])%list /\ req_to req = [parentEmail asha].
Proof. split; [discriminate |]. apply non_development_env_delivers. discriminate. Defined.
End DevScenario.

Module RejectScenario.
Import Scenario.
#[local] Existing Instances tz dates ics_ok resend_rejects.

Lemma parent_provider_error_witness :
  is_development prod_env = false /\
  emails_send (parent_request prod_env asha (parent_body prod_env asha) (parent_ics prod_env asha))
    = Resolves (ResendErr "invalid recipient") /\
  exists w', sendParentCalendarInvite prod_env asha w0
             = (Normal (mkSendEmailResult false "Failed to send email: invalid recipient"), w')
             /\ outbox w' = (outbox w0 ++ [parent_request prod_env asha (parent_body prod_env asha)
                                            (parent_ics prod_env asha)])%list.
Proof.
  split; [reflexivity | split; [reflexivity |]].
  apply parent_provider_error; reflexivity.
Defined.
End RejectScenario.

Module FaultScenario.
Import Scenario.
#[local] Existing Instances tz dates ics_fails resend_throws.

Lemma parent_transport_fault_caught_witness :
  is_development prod_env = false /\
  emails_send (parent_request prod_env asha (parent_body prod_env asha) (parent_ics prod_env asha))
    = Rejects (Some "fetch failed") /\
  exists w', sendParentCalendarInvite prod_env asha w0
             = (Normal (mkSendEmailResult false "Failed to send email: fetch failed"), w').
Proof.
  split; [reflexivity | split; [reflexivity |]].
  apply (parent_transport_fault_caught _ _ _ (Some "fetch failed")); reflexivity.
Defined.

Lemma parent_ics_failure_empty_attachment_witness :
  is_development prod_env = false /\
  ics_error (createEvent (ics_attributes (parent_event (schoolName_of prod_env) asha
    (slot_instant (slotDate asha) (slotStartTime asha))
    (slot_instant (slotDate asha) (slotEndTime asha))))) = Some "invalid start" /\
  exists r w' req, sendParentCalendarInvite prod_env asha w0 = (Normal r, w')
    /\ outbox w' = (outbox w0 ++ [req])%list
    /\ req_attachments req = [mkResendAttachment "counselling-session.ics" ""].
Proof.
  split; [reflexivity | split; [reflexivity |]].
  apply (parent_ics_failure_empty_attachment _ _ _ "invalid start"); reflexivity.
Defined.
End FaultScenario.
