(* ===== verification/SlotCalendar.v ===== *)
(** * SlotCalendar: the admin slot calendar (CalendarView.tsx)

    The slot and booking records the calendar pages read
    (principal/calendar/page.tsx lines 22-40; CalendarView.tsx imports
    the same shape from admin/slots/page, which is not in the sources),
    the mapping of slots to calendar events (CalendarView.tsx lines
    28-41), the selection callback (line 86) and the colour of an event
    (lines 43-65), its event component (lines 67-74), its legend (lines
    93-111) and the props it passes to [<Calendar>] (lines 77-90).  [new Date(string)] is
    the interface [DateStringParser]: the calendar only passes its result
    through.  The class is shown to be the class of an abstract slot
    state, with [disabled] taking priority over [full], [full] over
    [partially booked], and to carry the colours of that state's legend
    swatch. *)

From Stdlib Require Import String Ascii ZArith List Lia Bool DecimalString.
From S2P Require Import Prelude JsString JsDate DateFns BigCalendar.
Import ListNotations.
Local Open Scope string_scope.

(** ** Records *)

Record AdmissionRef : Type := mkAdmissionRef {
  adm_studentName : string;
  adm_parentName : string;
}.

(** A booking; [admissionId] is a populated reference that can be
    missing at run time (the code reads it with [?.]). *)
Record Booking : Type := mkBooking {
  booking_id : string;
  booking_tokenId : string;
  admissionId : option AdmissionRef;
}.

Record Slot : Type := mkSlot {
  slot_id : string;
  date : string;
  startTime : string;
  endTime : string;
  capacity : Z;
  bookedCount : Z;
  status : string;
  bookings : option (list Booking);
}.

(** [new Date(s)] for a string [s]. *)
Class DateStringParser : Type := parse_date_string : string -> timeval.

(** A react-big-calendar event with its resource. *)
Record CalendarEvent (R : Type) : Type := mkCalendarEvent {
  ev_title : string;
  ev_start : timeval;
  ev_end : timeval;
  ev_resource : R;
}.
Arguments mkCalendarEvent {R}.
Arguments ev_title {R}.
Arguments ev_start {R}.
Arguments ev_end {R}.
Arguments ev_resource {R}.


Section CalendarView.
Context `{DateStringParser}.

(** [new Date(`${slot.date}T${time}`)] *)
Definition slot_date_time (slot : Slot) (time : string) : timeval :=
  parse_date_string (date slot ++ "T" ++ time).

Definition slot_event (slot : Slot) : CalendarEvent Slot :=
  mkCalendarEvent (number_to_string (bookedCount slot) ++ "/" ++ number_to_string (capacity slot))
    (slot_date_time slot (startTime slot)) (slot_date_time slot (endTime slot)) slot.

(** [slots.map(...)] *)
Definition calendar_events (slots : list Slot) : list (CalendarEvent Slot) :=
  map slot_event slots.

(** The custom event component (lines 68-74): the event's title. *)
Definition slot_event_component (event : CalendarEvent Slot) : string := ev_title event.

(** [onSelectEvent={(event) => onSlotClick(event.resource)}]: the slot
    the callback receives. *)
Definition on_select_event (event : CalendarEvent Slot) : Slot := ev_resource event.
End CalendarView.

(** ** The colour of an event *)

Definition class_full : string := "bg-red-100 text-red-800 border-red-200".
Definition class_partial : string := "bg-blue-100 text-blue-800 border-blue-200".
Definition class_available : string := "bg-green-100 text-green-800 border-green-200".
Definition class_disabled : string := "bg-gray-100 text-gray-800 border-gray-200 opacity-70".

Record EventProps : Type := mkEventProps {
  className : string;
  style_backgroundColor : option string;
}.

(** [eventPropGetter]: a first colour by booking state, then the
    [disabled] override. *)
Definition eventPropGetter (event : CalendarEvent Slot) : EventProps :=
  let slot := ev_resource event in
  let cls :=
    if String.eqb (status slot) "full" || Z.leb (capacity slot) (bookedCount slot) then class_full
    else if Z.ltb 0 (bookedCount slot) then class_partial
    else class_available in
  let cls := if String.eqb (status slot) "disabled" then class_disabled else cls in
  mkEventProps ("border rounded-md text-xs font-medium " ++ cls) None.

(** ** The legend's states, in priority order *)

Inductive SlotState : Type := Available | PartiallyBooked | Full | Disabled.

Definition slot_state (slot : Slot) : SlotState :=
  if String.eqb (status slot) "disabled" then Disabled
  else if String.eqb (status slot) "full" then Full
  else if Z.leb (capacity slot) (bookedCount slot) then Full
  else if Z.ltb 0 (bookedCount slot) then PartiallyBooked
  else Available.

(** The class [eventPropGetter] assigns to each state (lines 47-57). *)
Definition state_class (s : SlotState) : string :=
  match s with
  | Available => class_available
  | PartiallyBooked => class_partial
  | Full => class_full
  | Disabled => class_disabled
  end.

(** The legend (lines 93-111): a swatch and a label per state. *)
Definition legend_swatch (s : SlotState) : string :=
  match s with
  | Available => "w-3 h-3 bg-green-100 border border-green-200 rounded mr-2"
  | PartiallyBooked => "w-3 h-3 bg-blue-100 border border-blue-200 rounded mr-2"
  | Full => "w-3 h-3 bg-red-100 border border-red-200 rounded mr-2"
  | Disabled => "w-3 h-3 bg-gray-100 border border-gray-200 rounded mr-2"
  end.

Definition legend_label (s : SlotState) : string :=
  match s with
  | Available => "Available"
  | PartiallyBooked => "Partially Booked"
  | Full => "Full"
  | Disabled => "Disabled"
  end.

(** ** The props of [<Calendar>] (lines 76-90) *)

Section Props.
Context `{DateStringParser} `{LocalTZA}.

Definition calendar_view {A : Type} (slots : list Slot) (onSlotClick : Slot -> A)
  : CalendarProps (CalendarEvent Slot) A EventProps string :=
  mkCalendarProps localizer (calendar_events slots) ev_start ev_end "100%" [month; week; day] month
    (fun event => onSlotClick (on_select_event event)) eventPropGetter slot_event_component.
End Props.

(** The Tailwind colour utilities of a class list: its background and
    border-colour classes, in order. *)
Definition colour_tokens (cls : string) : list string :=
  filter (fun w => String.prefix "bg-" w || String.prefix "border-" w) (split_char " "%char cls).

Definition state_rank (s : SlotState) : nat :=
  match s with
  | Available => 0
  | PartiallyBooked => 1
  | Full => 2
  | Disabled => 3
  end.

(** ** Properties *)

Definition with_bookedCount (slot : Slot) (n : Z) : Slot :=
  mkSlot (slot_id slot) (date slot) (startTime slot) (endTime slot) (capacity slot) n
    (status slot) (bookings slot).

(** Raising [bookedCount] of a slot that is not disabled moves its state
    only up the order available, partially booked, full. *)
Lemma slot_state_monotone (slot : Slot) (b1 b2 : Z) :
  status slot <> "disabled" -> (b1 <= b2)%Z ->
  state_rank (slot_state (with_bookedCount slot b1))
  <= state_rank (slot_state (with_bookedCount slot b2)).
Proof.
  intros Hd Hb. unfold slot_state, with_bookedCount. simpl.
  destruct (String.eqb_spec (status slot) "disabled"); [contradiction |].
  destruct (String.eqb (status slot) "full"); [simpl; lia |].
  destruct (Z.leb_spec (capacity slot) b1), (Z.leb_spec (capacity slot) b2),
           (Z.ltb_spec 0 b1), (Z.ltb_spec 0 b2); simpl; lia.
Qed.

Lemma slot_state_not_disabled (slot : Slot) (b : Z) :
  status slot <> "disabled" -> slot_state (with_bookedCount slot b) <> Disabled.
Proof.
  intros Hd. unfold slot_state, with_bookedCount. simpl.
  destruct (String.eqb_spec (status slot) "disabled"); [contradiction |].
  destruct (String.eqb (status slot) "full"), (Z.leb (capacity slot) b), (Z.ltb 0 b); discriminate.
Qed.

Section CalendarViewFacts.
Context `{DateStringParser}.

Lemma eventPropGetter_state (slot : Slot) :
  className (eventPropGetter (slot_event slot))
  = "border rounded-md text-xs font-medium " ++ state_class (slot_state slot).
Proof.
  unfold eventPropGetter, slot_state, slot_event. simpl.
  destruct (String.eqb (status slot) "disabled") eqn:Hd.
  - reflexivity.
  - destruct (String.eqb (status slot) "full"), (Z.leb (capacity slot) (bookedCount slot)),
             (Z.ltb 0 (bookedCount slot)); reflexivity.
Qed.
End CalendarViewFacts.

Section CalendarViewProperties.
Context `{DateStringParser}.

(** C18. More bookings never make an event look less booked: for a
    slot that is not disabled, raising [bookedCount] keeps a full event
    full and a partially booked one partially booked or full, in the
    class [eventPropGetter] gives it. *)
Theorem booking_state_monotone (slot : Slot) (b1 b2 : Z) :
  status slot <> "disabled" -> (b1 <= b2)%Z ->
  let cls b := className (eventPropGetter (slot_event (with_bookedCount slot b))) in
  (cls b1 = "border rounded-md text-xs font-medium " ++ class_full ->
   cls b2 = "border rounded-md text-xs font-medium " ++ class_full)
  /\ (cls b1 = "border rounded-md text-xs font-medium " ++ class_partial ->
      cls b2 = "border rounded-md text-xs font-medium " ++ class_partial
      \/ cls b2 = "border rounded-md text-xs font-medium " ++ class_full).
Proof.
  intros Hd Hb cls. subst cls. cbv beta. rewrite !eventPropGetter_state.
  pose proof (slot_state_monotone slot b1 b2 Hd Hb) as Hr.
  pose proof (slot_state_not_disabled slot b2 Hd) as Hn.
  destruct (slot_state (with_bookedCount slot b1)), (slot_state (with_bookedCount slot b2));
    cbn [state_rank] in Hr; try lia; try contradiction;
    split; intros Hc; vm_compute in Hc; try discriminate; auto.
Qed.

(** Every slot becomes the event at its position, titled
    ["booked/capacity"], and selecting that event hands the callback the
    slot itself. *)
Lemma calendar_event_select (slots : list Slot) (i : nat) (slot : Slot) :
  nth_error slots i = Some slot ->
  exists ev, nth_error (calendar_events slots) i = Some ev
             /\ on_select_event ev = slot
             /\ ev_title ev = number_to_string (bookedCount slot) ++ "/"
                               ++ number_to_string (capacity slot).
Proof.
  intros Hi. exists (slot_event slot). unfold calendar_events.
  rewrite nth_error_map, Hi. repeat split.
Qed.

(** C40. Every event is drawn in the colours of its legend entry: the
    background and border classes of the event's class are those of the
    swatch the legend shows for its slot's state. *)
Theorem event_colours_match_legend (slot : Slot) :
  colour_tokens (className (eventPropGetter (slot_event slot)))
  = colour_tokens (legend_swatch (slot_state slot)).
Proof. rewrite eventPropGetter_state. destruct (slot_state slot); vm_compute; reflexivity. Qed.
End CalendarViewProperties.

Module CalendarScenario.
Definition iso_parser : DateStringParser := fun _ => None.
#[local] Existing Instance iso_parser.

Definition slot_a : Slot :=
  mkSlot "s1" "2024-03-10" "10:00" "10:30" 3 1 "available" None.

(** A slot of capacity 3 with one booking is partially booked; with
    three it is full. *)
Lemma booking_state_monotone_witness :
  status slot_a <> "disabled" /\ (1 <= 3)%Z /\
  className (eventPropGetter (slot_event (with_bookedCount slot_a 1)))
    = "border rounded-md text-xs font-medium " ++ class_partial /\
  className (eventPropGetter (slot_event (with_bookedCount slot_a 3)))
    = "border rounded-md text-xs font-medium " ++ class_full.
Proof.
  assert (Hd : status slot_a <> "disabled") by discriminate.
  assert (Hp : className (eventPropGetter (slot_event (with_bookedCount slot_a 1)))
               = "border rounded-md text-xs font-medium " ++ class_partial) by reflexivity.
  split; [exact Hd | split; [lia | split; [exact Hp |]]].
  destruct (proj2 (booking_state_monotone slot_a 1 3 Hd ltac:(lia)) Hp) as [Hc | Hc];
    [vm_compute in Hc; discriminate | exact Hc].
Defined.

End CalendarScenario.
