(* ===== verification/PrincipalCalendar.v ===== *)
(** * PrincipalCalendar: the principal's session calendar

    principal/calendar/page.tsx: the page's state (lines 45-48), the
    settlement of [fetchSlots] (lines 54-79: keep the slots that have
    bookings; the [finally] clears [loading] whatever happens), the
    flattening of every booking of every kept slot into one calendar
    event (lines 82-103), the today / ISO week / all filter (lines
    106-119, one [new Date()] per event), the counts and the Today card
    (lines 197-223), and the render (lines 121-315): the spinner, the
    cards, the props of [<Calendar>] on the filtered events and the
    session modal, whose date is [format(start, 'MMMM d, yyyy')] and
    throws on an Invalid Date.  The page is the step relation
    [principal_step].  The layout shell of principal/layout.tsx closes
    the definitions. *)

From Stdlib Require Import String ZArith List Lia Bool.
From S2P Require Import Prelude JsString JsDate DateFns BigCalendar SlotCalendar.
Import ListNotations.
Local Open Scope string_scope.

(** ** Data *)

(** [{ slot, booking, studentName, tokenId, time, location }] *)
Record SessionResource : Type := mkSessionResource {
  r_slot : Slot;
  r_booking : Booking;
  r_studentName : string;
  r_tokenId : string;
  r_time : string;
  r_location : string;
}.

Inductive FilterType : Type := FilterToday | FilterWeek | FilterAll.

Record PrincipalState : Type := mkPrincipalState {
  ps_slots : list Slot;
  ps_loading : bool;
  ps_filter : FilterType;
  ps_selected : option (CalendarEvent SessionResource);
}.

Definition principal_initial_state : PrincipalState := mkPrincipalState [] true FilterAll None.

(** How the request of [fetchSlots] settles: the parsed JSON
    [{ success, data }], or a thrown fault of [fetch] or [json()]. *)
Inductive FetchOutcome : Type :=
| FetchJson (success : bool) (data : option (list Slot))
| FetchFault (message : string).

(** ** [fetchSlots] *)

(** [slot.bookedCount > 0 && slot.bookings && slot.bookings.length > 0] *)
Definition has_bookings (slot : Slot) : bool :=
  Z.ltb 0 (bookedCount slot) &&
  match bookings slot with
  | Some bs => Nat.ltb 0 (length bs)
  | None => false
  end.

Definition booked_slots (data : list Slot) : list Slot := filter has_bookings data.

(** The state after the request settles, with the console lines written.
    [data.data] is truthy for any array, the empty one included. *)
Definition fetchSlots_settle (st : PrincipalState) (o : FetchOutcome)
  : PrincipalState * list console_line :=
  match o with
  | FetchJson true (Some data) =>
      (mkPrincipalState (booked_slots data) false (ps_filter st) (ps_selected st), [])
  | FetchJson _ _ =>
      (mkPrincipalState (ps_slots st) false (ps_filter st) (ps_selected st), [])
  | FetchFault e =>
      (mkPrincipalState (ps_slots st) false (ps_filter st) (ps_selected st),
       [ConsoleError ["Error fetching slots:"; e]])
  end.

(** [setLoading(true)] before the request. *)
Definition fetchSlots_start (st : PrincipalState) : PrincipalState :=
  mkPrincipalState (ps_slots st) true (ps_filter st) (ps_selected st).

(** ** Events *)

Section Events.
Context `{DateStringParser}.

Definition booking_event (slot : Slot) (b : Booking) : CalendarEvent SessionResource :=
  mkCalendarEvent
    (or_default (option_map adm_studentName (admissionId b)) "Unknown Student")
    (slot_date_time slot (startTime slot)) (slot_date_time slot (endTime slot))
    (mkSessionResource slot b
       (or_default (option_map adm_studentName (admissionId b)) "Unknown")
       (booking_tokenId b) (startTime slot ++ " - " ++ endTime slot) "Counselling Room").

(** [if (!slot.bookings || slot.bookings.length === 0) return []] *)
Definition slot_sessions (slot : Slot) : list (CalendarEvent SessionResource) :=
  match bookings slot with
  | None => []
  | Some [] => []
  | Some bs => map (booking_event slot) bs
  end.

(** [slots.flatMap(...)] *)
Definition principal_events (slots : list Slot) : list (CalendarEvent SessionResource) :=
  flat_map slot_sessions slots.

(** The header's counts: sessions shown and slots kept. *)
Definition total_sessions (shown : list (CalendarEvent SessionResource)) : nat := length shown.
Definition total_slots (st : PrincipalState) : nat := length (ps_slots st).
End Events.

(** ** The filters and the Today card *)

(** [new Date()] is called once per event, inside the callback: [clock i]
    is the reading made for the [i]-th event. *)
Fixpoint filter_clocked {A} (p : timeval -> A -> bool) (clock : nat -> timeval) (i : nat)
  (l : list A) : list A :=
  match l with
  | [] => []
  | x :: l =>
      if p (clock i) x then x :: filter_clocked p clock (S i) l else filter_clocked p clock (S i) l
  end.

Section Filters.
Context `{LocalTZA}.

(** The filter callback of lines 106-119. *)
Definition event_in_filter (now : timeval) (f : FilterType) (event : CalendarEvent SessionResource)
  : bool :=
  let eventDate := ev_start event in
  match f with
  | FilterToday => js_ge eventDate (startOfDay now) && js_le eventDate (endOfDay now)
  | FilterWeek => js_ge eventDate (startOfISOWeek now) && js_le eventDate (endOfISOWeek now)
  | FilterAll => true
  end.

Definition filteredEvents (clock : nat -> timeval) (f : FilterType)
  (events : list (CalendarEvent SessionResource)) : list (CalendarEvent SessionResource) :=
  filter_clocked (fun now e => event_in_filter now f e) clock 0 events.

(** The Today card (lines 220-223), over all events whatever the filter. *)
Definition today_count (clock : nat -> timeval) (events : list (CalendarEvent SessionResource)) : nat :=
  length (filter_clocked (fun now e => js_ge (ev_start e) (startOfDay now)
                                       && js_le (ev_start e) (endOfDay now)) clock 0 events).
End Filters.

(** ** Rendering (lines 121-315) *)

(** The modal of lines 255-315 shows, for the selected event, the
    student's name, the date [format(start, 'MMMM d, yyyy')] with the time
    range, the token and the location. *)
Record SessionDetails : Type := mkSessionDetails {
  d_studentName : string;
  d_date : string;
  d_time : string;
  d_tokenId : string;
  d_location : string;
}.

(** The fixed look of every event (lines 121-128) and its content
    (lines 130-137): the title over the token. *)
Definition principal_eventPropGetter : EventProps :=
  mkEventProps "bg-blue-100 text-blue-800 border-blue-200 border rounded-md text-xs font-medium" None.

Definition principal_event_component (event : CalendarEvent SessionResource) : string * string :=
  (ev_title event, r_tokenId (ev_resource event)).

(** What the page shows once loaded: the three cards, the calendar
    ([None] for "No scheduled counselling sessions found") and the detail
    of the selected session.  Selecting an event updates the state. *)
Record PrincipalView : Type := mkPrincipalView {
  pv_sessions : nat;
  pv_slots : nat;
  pv_today : nat;
  pv_calendar : option (CalendarProps (CalendarEvent SessionResource)
                         (PrincipalState -> PrincipalState) EventProps (string * string));
  pv_detail : option SessionDetails;
}.

Inductive PrincipalScreen : Type :=
| PSpinner
| PPage (v : PrincipalView).

Section Render.
Context `{DateStringParser} `{LocalTZA}.

(** [{selectedEvent && (...)}]: [format] throws on an Invalid Date. *)
Definition session_details (st : PrincipalState) : option (completion (option SessionDetails)) :=
  match ps_selected st with
  | Some ev =>
      let r := ev_resource ev in
      option_map (fun c => match c with
                           | Normal date =>
                               Normal (Some (mkSessionDetails (r_studentName r) date (r_time r)
                                               (r_tokenId r) (r_location r)))
                           | Throw m => Throw m
                           end) (format (ev_start ev) "MMMM d, yyyy")
  | None => Some (Normal None)
  end.

(** The props of [<Calendar>] (lines 238-250) on the filtered events. *)
Definition principal_calendar (shown : list (CalendarEvent SessionResource))
  : CalendarProps (CalendarEvent SessionResource) (PrincipalState -> PrincipalState) EventProps (string * string) :=
  mkCalendarProps localizer shown ev_start ev_end "100%" [month; week; day] month
    (fun event st => mkPrincipalState (ps_slots st) (ps_loading st) (ps_filter st) (Some event))
    (fun _ => principal_eventPropGetter) principal_event_component.

(** The render: the spinner while loading (line 139), else the page with
    the clocks of the filter and of the Today card. *)
Definition principal_view (clock_filter clock_today : nat -> timeval) (st : PrincipalState)
  : option (completion PrincipalScreen) :=
  if ps_loading st then Some (Normal PSpinner)
  else
    let events := principal_events (ps_slots st) in
    let shown := filteredEvents clock_filter (ps_filter st) events in
    option_map
      (fun c => match c with
                | Normal detail =>
                    Normal (PPage (mkPrincipalView (total_sessions shown) (total_slots st)
                                     (today_count clock_today events)
                                     (match shown with
                                      | [] => None
                                      | _ => Some (principal_calendar shown)
                                      end) detail))
                | Throw m => Throw m
                end) (session_details st).
End Render.

(** ** The layout shell (principal/layout.tsx)

    The page metadata and the two containers every principal page is
    rendered in (each [div] of the shell has one child); the layout has
    no state and no logic. *)
Record Metadata : Type := mkMetadata {
  meta_title : string;
  meta_description : string;
}.

Definition metadata : Metadata :=
  mkMetadata "Principal Portal - School Admission System"
    "Principal calendar view for counselling sessions".

Inductive LayoutNode (A : Type) : Type :=
| Div (className : string) (child : LayoutNode A)
| Children (children : A).
Arguments Div {A}.
Arguments Children {A}.

Definition PrincipalLayout {A : Type} (children : A) : LayoutNode A :=
  Div "min-h-screen bg-gray-50"
    (Div "max-w-7xl mx-auto px-4 sm:px-6 lg:px-8 py-8" (Children children)).

(** The number of bookings a slot lists. *)
Definition booking_count (slot : Slot) : nat :=
  match bookings slot with
  | Some bs => length bs
  | None => 0
  end.

(** ** The page as a state machine

    Its state changes by the start and settlement of [fetchSlots], the
    filter buttons ([setFilter], lines 159, 168, 177), selecting an
    event (line 246) and closing the detail (lines 262 and 307). *)
Inductive principal_step : PrincipalState -> PrincipalState -> Prop :=
| step_fetch_start st : principal_step st (fetchSlots_start st)
| step_fetch_settle st o : principal_step st (fst (fetchSlots_settle st o))
| step_set_filter st f :
    principal_step st (mkPrincipalState (ps_slots st) (ps_loading st) f (ps_selected st))
| step_select st ev :
    principal_step st (mkPrincipalState (ps_slots st) (ps_loading st) (ps_filter st) (Some ev))
| step_close st :
    principal_step st (mkPrincipalState (ps_slots st) (ps_loading st) (ps_filter st) None).

Inductive reachable : PrincipalState -> Prop :=
| reach_init : reachable principal_initial_state
| reach_step st st' : reachable st -> principal_step st st' -> reachable st'.

(** ** Lemmas *)

Lemma booked_slots_has_bookings data : Forall (fun s => has_bookings s = true) (booked_slots data).
Proof.
  unfold booked_slots. apply Forall_forall. intros s Hs. apply filter_In in Hs. tauto.
Qed.

(** What [has_bookings] checks, spelled out. *)
Lemma has_bookings_spec slot :
  has_bookings slot = true <-> (0 < bookedCount slot)%Z /\ exists b bs, bookings slot = Some (b :: bs).
Proof.
  unfold has_bookings. rewrite andb_true_iff, Z.ltb_lt.
  destruct (bookings slot) as [[|b bs]|]; cbn.
  - split; [intros [_ [=]] | intros (_ & b & bs & [=])].
  - split; [intros [H _]; eauto | intros [H _]; split; [exact H | reflexivity]].
  - split; [intros [_ [=]] | intros (_ & b & bs & [=])].
Qed.

Lemma fetchSlots_settle_slots st o :
  ps_slots (fst (fetchSlots_settle st o)) = ps_slots st
  \/ exists data, ps_slots (fst (fetchSlots_settle st o)) = booked_slots data.
Proof. destruct o as [[|] [data|]|e]; simpl; eauto. Qed.

Section EventFacts.
Context `{DateStringParser}.

Lemma slot_sessions_length slot : length (slot_sessions slot) = booking_count slot.
Proof.
  unfold slot_sessions, booking_count.
  destruct (bookings slot) as [[|b bs]|]; simpl; [reflexivity | now rewrite length_map | reflexivity].
Qed.

(** A slot without bookings contributes no session, whatever its count. *)
Lemma slot_sessions_unbooked slot :
  Nat.ltb 0 (booking_count slot) = false -> slot_sessions slot = [].
Proof.
  unfold slot_sessions, booking_count. destruct (bookings slot) as [[|b bs]|]; simpl; auto.
  discriminate.
Qed.
End EventFacts.

(** A clock whose readings all make [p] the same predicate filters by it. *)
Lemma filter_clocked_const {A} (p : timeval -> A -> bool) (q : A -> bool) clock i l :
  (forall j x, p (clock j) x = q x) -> filter_clocked p clock i l = filter q l.
Proof.
  intros Hq. revert i; induction l as [|x l IH]; intros i; simpl; [reflexivity |].
  rewrite Hq. destruct (q x); now rewrite IH.
Qed.

(** Two booleans equal when they are true together. *)
Lemma bool_eq_iff (b1 b2 : bool) : (b1 = true <-> b2 = true) -> b1 = b2.
Proof. destruct b1, b2; intuition congruence. Qed.

(** Two days of one ISO week, Monday to Sunday, fall in one
    Sunday-to-Saturday block unless exactly one of them is a Sunday
    (day [d] from 1970-01-01 is a Sunday when [(d + 4) mod 7 = 0]). *)
Lemma iso_week_sunday_blocks (a b : Z) : ((a + 3) / 7 = (b + 3) / 7)%Z ->
  ((a + 4) / 7 =? (b + 4) / 7)%Z = Bool.eqb ((a + 4) mod 7 =? 0)%Z ((b + 4) mod 7 =? 0)%Z.
Proof.
  intros Hab. destruct (Z.eqb_spec ((a + 4) mod 7) 0)%Z, (Z.eqb_spec ((b + 4) mod 7) 0)%Z,
    (Z.eqb_spec ((a + 4) / 7) ((b + 4) / 7))%Z; try reflexivity; exfalso; zdiv_lia.
Qed.

Section FilterFacts.
Context `{LocalTZA}.

(** The local day of an event, [None] for an invalid date. *)
Definition local_day (d : timeval) : option Z := option_map (fun t => Day (LocalTime t)) d.

Lemma today_window now t : in_range now ->
  js_ge (Some t) (startOfDay (Some now)) && js_le (Some t) (endOfDay (Some now))
  = Z.eqb (Day (LocalTime t)) (Day (LocalTime now)).
Proof.
  intros Hn. rewrite startOfDay_value, endOfDay_value by exact Hn.
  apply bool_eq_iff. unfold js_ge, js_le. rewrite andb_true_iff, !Z.leb_le, Z.eqb_eq.
  unfold set_local_time, UTC, Day, msPerDay. unfold LocalTime. split; intros; zdiv_lia.
Qed.

Lemma week_window now t : in_range now ->
  js_ge (Some t) (startOfISOWeek (Some now)) && js_le (Some t) (endOfISOWeek (Some now))
  = Z.eqb ((Day (LocalTime t) + 3) / 7) ((Day (LocalTime now) + 3) / 7).
Proof.
  intros Hn. unfold startOfISOWeek, endOfISOWeek. rewrite week_window_on by (lia || exact Hn).
  now rewrite <- !Z.add_sub_assoc.
Qed.
End FilterFacts.

(** ** Properties *)

Section PrincipalProperties.
Context `{DateStringParser}.

(** C20. The calendar shows one session per booking: the number of
    events is the total number of bookings the slots list. *)
Theorem principal_sessions_count (slots : list Slot) :
  length (principal_events slots) = list_sum (map booking_count slots).
Proof.
  induction slots as [|s slots IH]; simpl; [reflexivity |].
  rewrite length_app, slot_sessions_length, IH. reflexivity.
Qed.

(** C21. Keeping only the slots with bookings loses exactly the
    sessions of slots whose [bookedCount] is not positive: a slot that
    lists bookings under a stale zero count is hidden with them. *)
Theorem booked_sessions_by_count (data : list Slot) :
  principal_events (booked_slots data)
  = principal_events (filter (fun s => Z.ltb 0 (bookedCount s)) data).
Proof.
  induction data as [|s data IH]; [reflexivity |].
  unfold booked_slots in *. simpl. unfold has_bookings at 1.
  destruct (Z.ltb 0 (bookedCount s)); simpl; [| exact IH].
  destruct (Nat.ltb 0 (booking_count s)) eqn:Hb.
  - unfold booking_count in Hb. destruct (bookings s) as [bs|]; [|discriminate].
    rewrite Hb. simpl. now rewrite IH.
  - rewrite (slot_sessions_unbooked s Hb). simpl.
    unfold booking_count in Hb. destruct (bookings s) as [bs|]; [rewrite Hb|]; exact IH.
Qed.

(** C22. In every reachable state of the page, each slot it keeps has a
    positive [bookedCount] and at least one booking listed, so each kept
    slot contributes at least one session to the calendar. *)
Theorem principal_reachable_invariant (st : PrincipalState) :
  reachable st ->
  Forall (fun s => (0 < bookedCount s)%Z /\ exists b bs, bookings s = Some (b :: bs)) (ps_slots st)
  /\ (length (ps_slots st) <= length (principal_events (ps_slots st)))%nat.
Proof.
  intros Hr. assert (Hk : Forall (fun s => has_bookings s = true) (ps_slots st)).
  { induction Hr as [|st st' _ IH Hs]; [constructor |].
    destruct Hs as [st0|st0 o|st0 f|st0 ev|st0]; simpl; try exact IH.
    destruct (fetchSlots_settle_slots st0 o) as [-> | [data ->]];
      [exact IH | apply booked_slots_has_bookings]. }
  split; [eapply Forall_impl; [intros s; apply has_bookings_spec | exact Hk] |].
  unfold principal_events. induction Hk as [|s l Hs Hl IH]; [reflexivity |].
  cbn [flat_map length]. rewrite length_app, slot_sessions_length.
  apply has_bookings_spec in Hs as (_ & b & bs & Hb). unfold booking_count. rewrite Hb.
  cbn [length]. lia.
Qed.
End PrincipalProperties.

Section FilterProperties.
Context `{LocalTZA}.

(** C34. The Today filter keeps exactly the events that start on the
    local calendar day of the current date: [startOfDay(now) <= start <=
    endOfDay(now)] holds iff the two local days are equal, and an event
    with an invalid start is dropped. *)
Theorem today_filter_local_day (now : Z) (event : CalendarEvent SessionResource) :
  in_range now ->
  event_in_filter (Some now) FilterToday event
  = match ev_start event with
    | Some t => Z.eqb (Day (LocalTime t)) (Day (LocalTime now))
    | None => false
    end.
Proof.
  intros Hn. unfold event_in_filter. destruct (ev_start event) as [t|]; [now apply today_window |].
  reflexivity.
Qed.

(** C35. The This Week filter keeps exactly the events that start in the
    current ISO week (Monday to Sunday, local time): with day numbers
    counted from 1970-01-01, a Thursday, the week of day [d] is
    [(d + 3) / 7]. *)
Theorem week_filter_iso_week (now : Z) (event : CalendarEvent SessionResource) :
  in_range now ->
  event_in_filter (Some now) FilterWeek event
  = match ev_start event with
    | Some t => Z.eqb ((Day (LocalTime t) + 3) / 7) ((Day (LocalTime now) + 3) / 7)
    | None => false
    end.
Proof.
  intros Hn. unfold event_in_filter. destruct (ev_start event) as [t|]; [now apply week_window |].
  reflexivity.
Qed.

(** C36. The Today card counts what the Today filter shows, as long as
    every [new Date()] of both passes falls on the same local day: the
    card recomputes its own predicate with its own clock readings. *)
Theorem today_card_matches_filter (clock1 clock2 : nat -> timeval) (D : Z)
    (events : list (CalendarEvent SessionResource)) :
  (forall i, exists t, clock1 i = Some t /\ in_range t /\ Day (LocalTime t) = D) ->
  (forall i, exists t, clock2 i = Some t /\ in_range t /\ Day (LocalTime t) = D) ->
  today_count clock2 events = length (filteredEvents clock1 FilterToday events).
Proof.
  intros H1 H2. unfold today_count, filteredEvents.
  set (q := fun e : CalendarEvent SessionResource =>
              match local_day (ev_start e) with Some d => Z.eqb d D | None => false end).
  rewrite (filter_clocked_const _ q), (filter_clocked_const _ q); [reflexivity | |];
    intros j e; [destruct (H1 j) as (t & -> & Ht & HD) | destruct (H2 j) as (t & -> & Ht & HD)];
    subst q; cbv beta; [unfold event_in_filter |]; destruct (ev_start e) as [te|]; cbn [local_day option_map];
    rewrite ?today_window, ?HD by exact Ht; reflexivity.
Qed.

(** Under one reading of the clock, every session the Today filter
    shows is among those This Week shows, and Today is This Week narrowed
    to the current day. *)
Lemma today_within_week (now : Z) (events : list (CalendarEvent SessionResource)) :
  in_range now ->
  filteredEvents (fun _ => Some now) FilterToday events
  = filter (event_in_filter (Some now) FilterToday)
      (filteredEvents (fun _ => Some now) FilterWeek events).
Proof.
  intros Hn. unfold filteredEvents.
  rewrite !(filter_clocked_const _ (fun e => event_in_filter (Some now) _ e)) by reflexivity.
  rewrite filter_filter_andb. apply filter_ext. intros e. unfold event_in_filter.
  destruct (ev_start e) as [t|]; [| reflexivity].
  rewrite today_window, week_window by exact Hn.
  destruct (Z.eqb_spec (Day (LocalTime t)) (Day (LocalTime now))) as [->|]; [| now rewrite andb_false_r].
  now rewrite Z.eqb_refl.
Qed.

(** C37. Under This Week, the calendar's week view of the current date
    shows only part of what the filter selects: the filter keeps the ISO
    week, Monday to Sunday, while react-big-calendar's week with the
    [enUS] localizer runs Sunday to Saturday.  Of the filtered sessions
    the week view lays out exactly those that are on a Sunday when the
    current date is a Sunday, and on another day when it is not. *)
Theorem week_view_splits_iso_week (now : Z) (events : list (CalendarEvent SessionResource)) :
  in_range now ->
  week_view_events (principal_calendar (filteredEvents (fun _ => Some now) FilterWeek events))
    (Some now) (Some now)
  = filter (fun e => match ev_start e with
                     | Some t => Bool.eqb (WeekDay (LocalTime t) =? 0)%Z (WeekDay (LocalTime now) =? 0)%Z
                     | None => false
                     end)
      (filteredEvents (fun _ => Some now) FilterWeek events).
Proof.
  intros Hn. unfold week_view_events. cbn [cp_localizer cp_startAccessor cp_events principal_calendar].
  apply filter_ext_in. intros e He. unfold filteredEvents in He.
  rewrite (filter_clocked_const _ (event_in_filter (Some now) FilterWeek)) in He by reflexivity.
  apply filter_In in He as [_ Hw]. unfold event_in_filter in Hw.
  destruct (ev_start e) as [t|]; [| discriminate Hw].
  rewrite week_window in Hw by exact Hn. apply Z.eqb_eq in Hw.
  rewrite week_view_window by exact Hn. unfold WeekDay. now apply iso_week_sunday_blocks.
Qed.
End FilterProperties.

Section DetailProperties.
Context `{DateStringParser} `{LocalTZA}.

(** C6. Selecting the session of booking [b] in slot [slot] opens the
    Session Details modal with the booking's student (or "Unknown"), the
    slot's local date as [format(start, 'MMMM d, yyyy')] (the full month
    name, the day, the year on four digits), the "start - end" times,
    the booking's token and the Counselling Room; when the slot's date
    and time do not parse, opening it throws
    [RangeError('Invalid time value')]; closing it hides the detail. *)
Theorem session_details_of_booking (st : PrincipalState) (slot : Slot) (b : Booking) :
  let st1 := mkPrincipalState (ps_slots st) (ps_loading st) (ps_filter st)
               (Some (booking_event slot b)) in
  principal_step st st1
  /\ (forall t y m d, slot_date_time slot (startTime slot) = Some t ->
        local_civil t = (y, m, d) -> (0 < y)%Z ->
        exists wide, month_of month_wide m = Some wide
          /\ session_details st1
             = Some (Normal (Some (mkSessionDetails
                   (or_default (option_map adm_studentName (admissionId b)) "Unknown")
                   (wide ++ " " ++ add_leading_zeros d 1 ++ ", " ++ add_leading_zeros y 4)
                   (startTime slot ++ " - " ++ endTime slot) (booking_tokenId b) "Counselling Room"))))
  /\ (slot_date_time slot (startTime slot) = None ->
      session_details st1 = Some (Throw (Some "Invalid time value")))
  /\ principal_step st1 (mkPrincipalState (ps_slots st) (ps_loading st) (ps_filter st) None)
  /\ session_details (mkPrincipalState (ps_slots st) (ps_loading st) (ps_filter st) None)
     = Some (Normal None).
Proof.
  intros st1. split; [apply step_select |].
  split; [| split; [| split; [exact (step_close st1) | reflexivity]]].
  - intros t y m d Ht Hc Hy. destruct (format_page_values t y m d Hc Hy) as (abbr & wide & _ & Hw & _ & Hf).
    exists wide. split; [exact Hw |].
    unfold session_details, st1. cbn [ps_selected booking_event ev_resource ev_start]. now rewrite Ht, Hf.
  - intros Ht. unfold session_details, st1. cbn [ps_selected booking_event ev_resource ev_start].
    now rewrite Ht.
Qed.

(** C14. Selecting an event of the principal calendar keeps the page as
    it was and adds the detail: the [onSelectEvent] the page passes
    stores the event, and the next render shows the same cards and the
    same calendar with the Session Details of the event's resource, or
    throws [RangeError('Invalid time value')] when the event's start is
    an Invalid Date. *)
Theorem principal_select_event (clock_filter clock_today : nat -> timeval) (st : PrincipalState)
    (v : PrincipalView) p (ev : CalendarEvent SessionResource) :
  principal_view clock_filter clock_today st = Some (Normal (PPage v)) ->
  pv_calendar v = Some p -> In ev (cp_events p) ->
  let st' := cp_onSelectEvent p ev st in
  (ev_start ev = None -> principal_view clock_filter clock_today st' = Some (Throw (Some "Invalid time value")))
  /\ (forall t, ev_start ev = Some t ->
        exists v' date, principal_view clock_filter clock_today st' = Some (Normal (PPage v'))
          /\ pv_sessions v' = pv_sessions v /\ pv_slots v' = pv_slots v /\ pv_today v' = pv_today v
          /\ pv_calendar v' = pv_calendar v
          /\ pv_detail v' = Some (mkSessionDetails (r_studentName (ev_resource ev)) date
                                  (r_time (ev_resource ev)) (r_tokenId (ev_resource ev))
                                  (r_location (ev_resource ev)))).
Proof.
  intros Hv Hp _ st'. unfold principal_view in Hv.
  destruct (ps_loading st) eqn:Hl; [discriminate |].
  destruct (session_details st) as [[det|m]|]; cbn [option_map] in Hv; [| discriminate | discriminate].
  injection Hv as <-. cbn [pv_calendar] in Hp.
  destruct (filteredEvents clock_filter (ps_filter st) (principal_events (ps_slots st))) as [|e0 es] eqn:Hs;
    [discriminate |]. injection Hp as <-. subst st'. cbn [cp_onSelectEvent principal_calendar].
  unfold principal_view, session_details. cbn [ps_loading ps_selected ps_slots ps_filter].
  rewrite Hl, Hs.
  destruct (format_page_patterns (ev_start ev)) as (_ & _ & Hn & Hsome). split.
  - intros He. now rewrite (proj2 (Hn He)).
  - intros t He. destruct (proj2 (Hsome t He)) as (date & Hf). rewrite Hf.
    do 2 eexists. split; [reflexivity |]. repeat split.
Qed.
End DetailProperties.

Module PrincipalScenario.
Definition parser : DateStringParser := fun _ => None.
#[local] Existing Instance parser.

Definition booking_k : Booking :=
  mkBooking "b1" "TKN-1001" (Some (mkAdmissionRef "Kiran Rao" "Asha Rao")).
Definition slot_k : Slot :=
  mkSlot "s1" "2024-03-10" "10:00" "10:30" 3 1 "available" (Some [booking_k]).

Definition after_fetch : PrincipalState :=
  fst (fetchSlots_settle (fetchSlots_start principal_initial_state) (FetchJson true (Some [slot_k]))).

Lemma principal_reachable_invariant_witness :
  reachable after_fetch /\
  Forall (fun s => (0 < bookedCount s)%Z /\ exists b bs, bookings s = Some (b :: bs)) (ps_slots after_fetch)
  /\ (length (ps_slots after_fetch) <= length (principal_events (ps_slots after_fetch)))%nat.
Proof.
  assert (Hr : reachable after_fetch).
  { eapply reach_step; [eapply reach_step; [apply reach_init | apply step_fetch_start] |].
    apply step_fetch_settle. }
  split; [exact Hr |]. apply principal_reachable_invariant. exact Hr.
Defined.

(** India Standard Time, and the current date Sunday 2024-03-10 at 10:00
    local time. *)
Definition ist : LocalTZA := 19800000%Z.
#[local] Existing Instance ist.

Definition now_sun : Z := 1710045000000.
Definition session_at (t : Z) : CalendarEvent SessionResource :=
  mkCalendarEvent "Kiran Rao" (Some t) (Some (t + 1800000)%Z)
    (mkSessionResource slot_k booking_k "Kiran Rao" "TKN-1001" "10:00 - 10:30" "Counselling Room").

(** Sessions on Sunday 10 March 15:00, Monday 4 March 09:00 and Monday
    11 March 09:00, local time. *)
Definition ev_sun : CalendarEvent SessionResource := session_at 1710063000000.
Definition ev_mon : CalendarEvent SessionResource := session_at 1709523000000.
Definition ev_next_mon : CalendarEvent SessionResource := session_at 1710127800000.

Lemma today_filter_local_day_witness :
  in_range now_sun /\ event_in_filter (Some now_sun) FilterToday ev_sun = true
  /\ event_in_filter (Some now_sun) FilterToday ev_mon = false.
Proof.
  assert (Hn : in_range now_sun) by (unfold in_range, now_sun, maxTime, msPerDay; lia).
  split; [exact Hn |]. rewrite !(today_filter_local_day now_sun _ Hn). vm_compute. auto.
Defined.

Lemma week_filter_iso_week_witness :
  in_range now_sun /\ event_in_filter (Some now_sun) FilterWeek ev_mon = true
  /\ event_in_filter (Some now_sun) FilterWeek ev_next_mon = false.
Proof.
  assert (Hn : in_range now_sun) by (unfold in_range, now_sun, maxTime, msPerDay; lia).
  split; [exact Hn |]. rewrite !(week_filter_iso_week now_sun _ Hn). vm_compute. auto.
Defined.

Lemma today_card_matches_filter_witness :
  today_count (fun _ => Some now_sun) [ev_sun; ev_mon; ev_next_mon]
  = length (filteredEvents (fun _ => Some now_sun) FilterToday [ev_sun; ev_mon; ev_next_mon])
  /\ today_count (fun _ => Some now_sun) [ev_sun; ev_mon; ev_next_mon] = 1%nat.
Proof.
  assert (Hc : forall i : nat, exists t, (fun _ : nat => Some now_sun) i = Some t /\ in_range t
                                  /\ Day (LocalTime t) = Day (LocalTime now_sun))
    by (intros i; exists now_sun; split; [reflexivity | split; [| reflexivity]];
        unfold in_range, now_sun, maxTime, msPerDay; lia).
  split; [exact (today_card_matches_filter _ _ _ _ Hc Hc) | vm_compute; reflexivity].
Defined.

(** On Sunday 10 March, This Week keeps the Sunday and the Monday 4 March
    sessions; the week view of the day shows only the Sunday's. *)
Lemma week_view_splits_iso_week_witness :
  in_range now_sun /\
  week_view_events (principal_calendar (filteredEvents (fun _ => Some now_sun) FilterWeek
                                          [ev_sun; ev_mon; ev_next_mon])) (Some now_sun) (Some now_sun)
  = [ev_sun].
Proof.
  assert (Hn : in_range now_sun) by (unfold in_range, now_sun, maxTime, msPerDay; lia).
  split; [exact Hn |]. rewrite (week_view_splits_iso_week now_sun _ Hn). vm_compute. reflexivity.
Defined.
(** The loaded page showing all sessions: the parser of this scenario
    reads no date, so selecting the session throws. *)
Definition loaded_all : PrincipalState := mkPrincipalState [slot_k] false FilterAll None.

Lemma principal_select_event_witness :
  exists v p ev,
    principal_view (fun _ => Some now_sun) (fun _ => Some now_sun) loaded_all = Some (Normal (PPage v))
    /\ pv_calendar v = Some p /\ In ev (cp_events p)
    /\ principal_view (fun _ => Some now_sun) (fun _ => Some now_sun) (cp_onSelectEvent p ev loaded_all)
       = Some (Throw (Some "Invalid time value")).
Proof.
  set (ev := booking_event slot_k booking_k).
  set (p := principal_calendar [ev]).
  set (v := mkPrincipalView 1 1 0 (Some p) None).
  assert (Hv : principal_view (fun _ => Some now_sun) (fun _ => Some now_sun) loaded_all
               = Some (Normal (PPage v))) by reflexivity.
  exists v, p, ev. split; [exact Hv | split; [reflexivity | split; [left; reflexivity |]]].
  apply (principal_select_event _ _ loaded_all v p ev Hv eq_refl (or_introl eq_refl)). reflexivity.
Defined.
End PrincipalScenario.
