(* ===== verification/Enquiries.v ===== *)
(** * Enquiries: the admin enquiries page (admin/enquiries/page.tsx)

    The page's ten [useState] cells (lines 36-45) are the record
    [PageState].  React's part is written out: a state setter queues an
    [Update]; an event handler's updates are applied together and the page
    re-renders; each commit runs the effects whose dependencies changed
    since the previous commit, in declaration order (the debounce of lines
    48-54, the filter effect of lines 57-60, the page effect of lines
    63-65).  The effects' own updates start another render, and [commit]
    repeats until no effect runs.  [fetchEnquiries] (lines 67-109) is split
    at its [await]: the start queues [setLoading(true)] and issues a
    [Request] that keeps the render's values of the closure; the
    settlement, one [Settle] event per request in any order, applies the
    client-side filters and the response.  Timers and responses are the
    environment's events, next to the user's typing, selects and the
    pagination buttons (lines 284-306), which exist only when rendered and
    enabled.  The render (lines 114-309) is a value: the header with the
    total, the spinner, the empty message or the rows (badges, booked
    flag, [format(new Date(createdAt), 'dd MMM yyyy')], which can throw),
    and the pagination bar. *)

From Stdlib Require Import String ZArith List Lia Bool.
From S2P Require Import Prelude JsString JsDate DateFns SlotCalendar.
Import ListNotations.
Local Open Scope string_scope.

(** ** Data *)

Inductive EnquiryStatus : Type := St_new | St_in_progress | St_converted.

Record Enquiry : Type := mkEnquiry {
  enq_id : string;
  enq_tokenId : string;
  parentName : string;
  childName : string;
  mobile : string;
  enq_email : string;
  grade : string;
  enq_status : EnquiryStatus;
  createdAt : string;
  slotBooked : option bool;
  enq_bookedCount : option Z;
}.

Definition statusColors (s : EnquiryStatus) : string :=
  match s with
  | St_new => "bg-blue-100 text-blue-800"
  | St_in_progress => "bg-yellow-100 text-yellow-800"
  | St_converted => "bg-green-100 text-green-800"
  end.

Definition statusLabels (s : EnquiryStatus) : string :=
  match s with
  | St_new => "New"
  | St_in_progress => "In Progress"
  | St_converted => "Converted"
  end.

(** The argument of [getEnquiries] and what it resolves to. *)
Record EnquiryQuery : Type := mkEnquiryQuery {
  q_page : Z;
  q_limit : Z;
  q_status : option string;
  q_search : option string;
}.

Record EnquiriesPayload : Type := mkEnquiriesPayload {
  p_enquiries : list Enquiry;
  p_totalPages : Z;
  p_total : Z;
}.

Record ApiResult : Type := mkApiResult {
  r_success : bool;
  r_data : option EnquiriesPayload;
}.

Inductive Settlement : Type := Resolved (r : ApiResult) | Rejected.

(** ** The page's state *)

Record PageState : Type := mkPageState {
  enquiries : list Enquiry;
  loading : bool;
  page : Z;
  totalPages : Z;
  total : Z;
  search : string;
  debouncedSearch : string;
  statusFilter : string;
  dateFilter : string;
  classFilter : string;
}.

Definition initial_state : PageState := mkPageState [] true 1 1 0 "" "" "" "" "".

(** A call of one of the setters. *)
Inductive Update : Type :=
| SetEnquiries (l : list Enquiry)
| SetLoading (b : bool)
| SetPage (p : Z)
| SetTotalPages (n : Z)
| SetTotal (n : Z)
| SetSearch (s : string)
| SetDebouncedSearch (s : string)
| SetStatusFilter (s : string)
| SetDateFilter (s : string)
| SetClassFilter (s : string).

Definition apply_update (st : PageState) (u : Update) : PageState :=
  let 'mkPageState e l p tp t s ds sf df cf := st in
  match u with
  | SetEnquiries e' => mkPageState e' l p tp t s ds sf df cf
  | SetLoading l' => mkPageState e l' p tp t s ds sf df cf
  | SetPage p' => mkPageState e l p' tp t s ds sf df cf
  | SetTotalPages tp' => mkPageState e l p tp' t s ds sf df cf
  | SetTotal t' => mkPageState e l p tp t' s ds sf df cf
  | SetSearch s' => mkPageState e l p tp t s' ds sf df cf
  | SetDebouncedSearch ds' => mkPageState e l p tp t s ds' sf df cf
  | SetStatusFilter sf' => mkPageState e l p tp t s ds sf' df cf
  | SetDateFilter df' => mkPageState e l p tp t s ds sf df' cf
  | SetClassFilter cf' => mkPageState e l p tp t s ds sf df cf'
  end.

Definition apply_updates (st : PageState) (us : list Update) : PageState :=
  fold_left apply_update us st.

(** ** [fetchEnquiries] *)

(** [x || undefined] on a string. *)
Definition or_undefined (s : string) : option string :=
  if String.eqb s "" then None else Some s.

(** A call in flight, with the values its closure read at render time. *)
Record Request : Type := mkRequest {
  req_query : EnquiryQuery;
  req_dateFilter : string;
  req_classFilter : string;
}.

Definition request_of (st : PageState) : Request :=
  mkRequest (mkEnquiryQuery (page st) 10 (or_undefined (statusFilter st))
                            (or_undefined (debouncedSearch st)))
            (dateFilter st) (classFilter st).

Section Fetch.
Context `{DateStringParser} `{LocalTZA}.

(** The callback of the date filter (lines 82-94). *)
Definition date_matches (now : timeval) (df : string) (enq : Enquiry) : bool :=
  let enqDate := parse_date_string (createdAt enq) in
  if String.eqb df "today" then js_ge enqDate (startOfDay now)
  else if String.eqb df "week" then js_ge enqDate (startOfWeek now)
  else if String.eqb df "month" then js_ge enqDate (startOfMonth now)
  else true.

(** Lines 77-102: the date filter when [dateFilter] is truthy, then the
    class filter when [classFilter] is truthy. *)
Definition client_filter (now : timeval) (req : Request) (l : list Enquiry) : list Enquiry :=
  let l := if String.eqb (req_dateFilter req) "" then l
           else filter (date_matches now (req_dateFilter req)) l in
  if String.eqb (req_classFilter req) "" then l
  else filter (fun enq => String.eqb (grade enq) (req_classFilter req)) l.

(** What the rest of [fetchEnquiries] queues once [getEnquiries] settles
    at time [now].  A rejection escapes the async function before
    [setLoading(false)]. *)
Definition settle_updates (req : Request) (now : timeval) (o : Settlement) : list Update :=
  match o with
  | Rejected => []
  | Resolved r =>
      match r_success r, r_data r with
      | true, Some d =>
          [SetEnquiries (client_filter now req (p_enquiries d));
           SetTotalPages (p_totalPages d); SetTotal (p_total d); SetLoading false]
      | _, _ => [SetLoading false]
      end
  end.
End Fetch.

(** ** Rendering (lines 114-309) *)

(** A row of the table (lines 233-276): the token, child, parent and
    mobile, grade, the status badge, the slot badge, the creation date
    [format(new Date(createdAt), 'dd MMM yyyy')] and the link. *)
Record EnquiryRow : Type := mkEnquiryRow {
  row_key : string;
  row_tokenId : string;
  row_childName : string;
  row_parentName : string;
  row_mobile : string;
  row_grade : string;
  row_statusClass : string;
  row_statusLabel : string;
  row_slotLabel : string;
  row_slotClass : string;
  row_date : string;
  row_href : string;
}.

Inductive TableView : Type :=
| TableSpinner
| TableEmpty
| TableRows (rows : list EnquiryRow).

Record PaginationView : Type := mkPaginationView {
  pg_text : string;
  pg_prev_disabled : bool;
  pg_next_disabled : bool;
}.

Record EnquiriesView : Type := mkEnquiriesView {
  v_header : string;
  v_table : TableView;
  v_pagination : option PaginationView;
}.

(** [totalPages > 1 && (...)] *)
Definition pagination_shown (st : PageState) : bool := Z.ltb 1 (totalPages st).

(** [enquiry.slotBooked ?]: [undefined] and [false] are falsy. *)
Definition slot_booked (e : Enquiry) : bool :=
  match slotBooked e with Some true => true | _ => false end.

Section Render.
Context `{DateStringParser} `{LocalTZA}.

(** The row of an enquiry; [format] throws a [RangeError] on an
    unparsable [createdAt]. *)
Definition enquiry_row (e : Enquiry) : option (completion EnquiryRow) :=
  option_map
    (fun c => match c with
              | Normal date =>
                  Normal (mkEnquiryRow (enq_id e) (enq_tokenId e) (childName e) (parentName e)
                    (mobile e) (grade e)
                    ("px-2 py-1 text-xs font-medium rounded-full " ++ statusColors (enq_status e))
                    (statusLabels (enq_status e))
                    (if slot_booked e then "Booked" else "Not Booked")
                    (if slot_booked e then "bg-green-100 text-green-800" else "bg-gray-100 text-gray-600")
                    date ("/admin/enquiries/" ++ enq_id e))
              | Throw m => Throw m
              end)
    (format (parse_date_string (createdAt e)) "dd MMM yyyy").

(** [enquiries.map(...)]: the first row that throws aborts the render. *)
Fixpoint render_rows (l : list Enquiry) : option (completion (list EnquiryRow)) :=
  match l with
  | [] => Some (Normal [])
  | e :: l =>
      match enquiry_row e with
      | Some (Normal r) =>
          option_map (fun c => match c with Normal rs => Normal (r :: rs) | Throw m => Throw m end)
            (render_rows l)
      | Some (Throw m) => Some (Throw m)
      | None => None
      end
  end.

(** [loading ? spinner : enquiries.length === 0 ? empty : table]. *)
Definition table_view (st : PageState) : option (completion TableView) :=
  if loading st then Some (Normal TableSpinner)
  else match enquiries st with
       | [] => Some (Normal TableEmpty)
       | l => option_map (fun c => match c with
                                   | Normal rows => Normal (TableRows rows)
                                   | Throw m => Throw m
                                   end) (render_rows l)
       end.

(** The pagination bar (lines 284-306), shown when [totalPages > 1]. *)
Definition pagination_view (st : PageState) : option PaginationView :=
  if pagination_shown st then
    Some (mkPaginationView ("Page " ++ number_to_string (page st) ++ " of "
                            ++ number_to_string (totalPages st))
            (Z.eqb (page st) 1) (Z.eqb (page st) (totalPages st)))
  else None.

(** The whole page: the header's count (line 120), the table and the
    pagination; a throwing row takes the page down. *)
Definition render_enquiries (st : PageState) : option (completion EnquiriesView) :=
  option_map (fun c => match c with
                       | Normal t => Normal (mkEnquiriesView (number_to_string (total st) ++ " total enquiries")
                                               t (pagination_view st))
                       | Throw m => Throw m
                       end) (table_view st).
End Render.

(** ** Effects and commits *)

(** An effect runs at the mount and whenever one of its dependencies
    differs ([Object.is]) from the previous commit's. *)
Definition dep_changed (f : PageState -> string) (prev : option PageState) (st : PageState) : bool :=
  match prev with
  | None => true
  | Some p => negb (String.eqb (f p) (f st))
  end.

Definition search_effect_runs (prev : option PageState) (st : PageState) : bool :=
  dep_changed search prev st.

Definition filter_effect_runs (prev : option PageState) (st : PageState) : bool :=
  dep_changed debouncedSearch prev st || dep_changed statusFilter prev st
  || dep_changed dateFilter prev st || dep_changed classFilter prev st.

Definition page_effect_runs (prev : option PageState) (st : PageState) : bool :=
  match prev with
  | None => true
  | Some p => negb (Z.eqb (page p) (page st))
  end.

(** The runtime: the committed state, the state of the previous commit
    (None before the mount), the pending debounce timer with the search it
    captured, and the requests in flight in the order they were issued. *)
Record Runtime : Type := mkRuntime {
  rt_state : PageState;
  rt_deps : option PageState;
  rt_timer : option string;
  rt_inflight : list Request;
}.

(** The effects of one commit: the debounce's cleanup clears the old
    timer and sets a new one; the filter effect queues [setPage(1)] and
    starts a fetch; the page effect starts a fetch.  Both fetches read the
    render's [page]. *)
Definition run_effects (prev : option PageState) (st : PageState) (timer : option string)
  (inflight : list Request) : list Update * option string * list Request :=
  let timer := if search_effect_runs prev st then Some (search st) else timer in
  let '(us, inflight) :=
    if filter_effect_runs prev st
    then ([SetPage 1; SetLoading true], (inflight ++ [request_of st])%list)
    else ([], inflight) in
  let '(us, inflight) :=
    if page_effect_runs prev st
    then ((us ++ [SetLoading true])%list, (inflight ++ [request_of st])%list)
    else (us, inflight) in
  (us, timer, inflight).

(** Render and commit until no effect queues an update. *)
Fixpoint commit (fuel : nat) (prev : option PageState) (st : PageState)
  (timer : option string) (inflight : list Request) : option Runtime :=
  match fuel with
  | O => None
  | S n =>
      let '(us, timer', inflight') := run_effects prev st timer inflight in
      match us with
      | [] => Some (mkRuntime st (Some st) timer' inflight')
      | _ => commit n (Some st) (apply_updates st us) timer' inflight'
      end
  end.

(** Three rounds suffice: [commit_terminates]. *)
Definition commit_fuel : nat := 3.

Definition render (rt : Runtime) (timer : option string) (inflight : list Request)
  (us : list Update) : option Runtime :=
  commit commit_fuel (rt_deps rt) (apply_updates (rt_state rt) us) timer inflight.

Definition mount : option Runtime := commit commit_fuel None initial_state None [].

(** ** Events *)

Inductive PageEvent : Type :=
| TypeSearch (s : string)
| ChooseDate (s : string)
| ChooseClass (s : string)
| ChooseStatus (s : string)
| ClickPrev
| ClickNext
| DebounceFires
| Settle (i : nat) (now : timeval) (o : Settlement).

Fixpoint remove_nth {A} (i : nat) (l : list A) : list A :=
  match i, l with
  | _, [] => []
  | O, _ :: l => l
  | S i, x :: l => x :: remove_nth i l
  end.


Section Step.
Context `{DateStringParser} `{LocalTZA}.

(** One event and the render it causes; [None] when the event cannot
    happen (a button not rendered or disabled, no timer, no such request). *)
Definition step (rt : Runtime) (e : PageEvent) : option Runtime :=
  let st := rt_state rt in
  let timer := rt_timer rt in
  let inflight := rt_inflight rt in
  match e with
  | TypeSearch s => render rt timer inflight [SetSearch s]
  | ChooseDate s => render rt timer inflight [SetDateFilter s]
  | ChooseClass s => render rt timer inflight [SetClassFilter s]
  | ChooseStatus s => render rt timer inflight [SetStatusFilter s]
  | ClickPrev =>
      if pagination_shown st && negb (Z.eqb (page st) 1)
      then render rt timer inflight [SetPage (Z.max 1 (page st - 1))] else None
  | ClickNext =>
      if pagination_shown st && negb (Z.eqb (page st) (totalPages st))
      then render rt timer inflight [SetPage (Z.min (totalPages st) (page st + 1))] else None
  | DebounceFires =>
      match timer with
      | Some s => render rt None inflight [SetDebouncedSearch s]
      | None => None
      end
  | Settle i now o =>
      match nth_error inflight i with
      | Some req => render rt timer (remove_nth i inflight) (settle_updates req now o)
      | None => None
      end
  end.

Fixpoint run_events (rt : Runtime) (es : list PageEvent) : option Runtime :=
  match es with
  | [] => Some rt
  | e :: es => match step rt e with Some rt' => run_events rt' es | None => None end
  end.

Inductive reachable : Runtime -> Prop :=
| reach_mount rt : mount = Some rt -> reachable rt
| reach_step rt e rt' : reachable rt -> step rt e = Some rt' -> reachable rt'.
End Step.

(** ** The render loop in closed form

    A commit runs the effects of the render; when the filter effect moved
    the page back to 1, a second round runs the page effect for page 1; a
    third round finds nothing left to run. *)
Definition commit_result (prev : option PageState) (st : PageState) (timer : option string)
  (inflight : list Request) : Runtime :=
  let fr := filter_effect_runs prev st in
  let pr := page_effect_runs prev st in
  let st1 := if fr then apply_update st (SetPage 1) else st in
  let again := fr && negb (Z.eqb (page st) 1) in
  let st' := if fr || pr || again then apply_update st1 (SetLoading true) else st1 in
  mkRuntime st' (Some st')
    (if search_effect_runs prev st then Some (search st) else timer)
    (inflight ++ (if fr then [request_of st] else []) ++ (if pr then [request_of st] else [])
              ++ (if again then [request_of st1] else []))%list.

(** The state's fields the effects depend on. *)
Definition same_deps (st st' : PageState) : Prop :=
  search st' = search st /\ debouncedSearch st' = debouncedSearch st
  /\ statusFilter st' = statusFilter st /\ dateFilter st' = dateFilter st
  /\ classFilter st' = classFilter st /\ page st' = page st.

Definition timer_ok (timer : option string) (st : PageState) : Prop :=
  match timer with
  | Some s => s = search st
  | None => debouncedSearch st = search st
  end.

Definition request_ok (r : Request) : Prop :=
  q_limit (req_query r) = 10%Z /\ (1 <= q_page (req_query r))%Z.

(** The runtime's invariant: a committed state on a page from 1, the
    debounce in step with the search box, every request in flight asking
    for ten rows of a page from 1. *)
Definition runtime_ok (rt : Runtime) : Prop :=
  rt_deps rt = Some (rt_state rt) /\ (1 <= page (rt_state rt))%Z
  /\ timer_ok (rt_timer rt) (rt_state rt) /\ Forall request_ok (rt_inflight rt).

(** ** Lemmas *)

Lemma apply_updates_app st us1 us2 :
  apply_updates st (us1 ++ us2) = apply_updates (apply_updates st us1) us2.
Proof. apply fold_left_app. Qed.

Lemma effects_quiet st st' timer inflight :
  same_deps st st' -> run_effects (Some st) st' timer inflight = ([], timer, inflight).
Proof.
  intros (Hs & Hd & Hsf & Hdf & Hcf & Hp). unfold run_effects, search_effect_runs,
    filter_effect_runs, page_effect_runs, dep_changed.
  rewrite Hs, Hd, Hsf, Hdf, Hcf, Hp, !String.eqb_refl, Z.eqb_refl. reflexivity.
Qed.

Lemma commit_quiet n st st' timer inflight :
  same_deps st st' ->
  commit (S n) (Some st) st' timer inflight = Some (mkRuntime st' (Some st') timer inflight).
Proof. intros Hs. cbn [commit]. now rewrite effects_quiet. Qed.

Lemma same_deps_loading st b : same_deps st (apply_update st (SetLoading b)).
Proof. destruct st; repeat split. Qed.

#[export] Hint Resolve same_deps_loading : jsmodel.

Lemma same_deps_page1 st :
  page st = 1%Z -> same_deps st (apply_update (apply_update st (SetPage 1)) (SetLoading true)).
Proof. destruct st; simpl; intros ->; repeat split. Qed.

Lemma same_deps_refl_page1 st :
  same_deps (apply_update (apply_update st (SetPage 1)) (SetLoading true))
    (apply_update (apply_update (apply_update st (SetPage 1)) (SetLoading true)) (SetLoading true)).
Proof. destruct st; repeat split. Qed.

Lemma request_of_loading st b : request_of (apply_update st (SetLoading b)) = request_of st.
Proof. now destruct st. Qed.

Lemma loading_idem st : apply_update (apply_update st (SetLoading true)) (SetLoading true)
  = apply_update st (SetLoading true).
Proof. now destruct st. Qed.

Lemma page_effect_after_page1 st :
  page_effect_runs (Some st) (apply_update (apply_update st (SetPage 1)) (SetLoading true))
  = negb (Z.eqb (page st) 1).
Proof. now destruct st. Qed.

Lemma other_effects_after_page1 st :
  search_effect_runs (Some st) (apply_update (apply_update st (SetPage 1)) (SetLoading true)) = false
  /\ filter_effect_runs (Some st) (apply_update (apply_update st (SetPage 1)) (SetLoading true)) = false.
Proof.
  destruct st; unfold search_effect_runs, filter_effect_runs, dep_changed; simpl.
  now rewrite !String.eqb_refl.
Qed.

(** The render loop settles within three rounds, with the closed form
    [commit_result], whatever fuel beyond that it is given. *)
Lemma commit_spec_fuel k prev st timer inflight :
  commit (3 + k) prev st timer inflight = Some (commit_result prev st timer inflight).
Proof.
  unfold commit_result. cbn [commit Nat.add]. unfold run_effects at 1.
  destruct (search_effect_runs prev st), (filter_effect_runs prev st),
           (page_effect_runs prev st); cbn [andb orb negb app apply_updates fold_left];
    rewrite ?loading_idem;
    try rewrite effects_quiet by auto with jsmodel; try (now rewrite ?app_nil_r).
  all: destruct (Z.eqb (page st) 1) eqn:Hp; cbn [andb orb negb];
    [rewrite effects_quiet by (apply same_deps_page1; now apply Z.eqb_eq)
    | unfold run_effects at 1; rewrite page_effect_after_page1, Hp;
      destruct (other_effects_after_page1 st) as [-> ->]; cbn [negb app];
      rewrite effects_quiet by apply same_deps_refl_page1];
    cbn [apply_updates fold_left]; rewrite ?loading_idem, ?request_of_loading, <- ?app_assoc;
    reflexivity.
Qed.


Lemma commit_spec prev st timer inflight :
  commit commit_fuel prev st timer inflight = Some (commit_result prev st timer inflight).
Proof. exact (commit_spec_fuel 0 prev st timer inflight). Qed.

Lemma render_spec rt timer inflight us :
  render rt timer inflight us
  = Some (commit_result (rt_deps rt) (apply_updates (rt_state rt) us) timer inflight).
Proof. apply commit_spec. Qed.

Lemma request_of_ok st : (1 <= page st)%Z -> request_ok (request_of st).
Proof. unfold request_ok. simpl. lia. Qed.

Lemma commit_result_ok prev st timer inflight :
  (1 <= page st)%Z -> Forall request_ok inflight ->
  timer_ok (if search_effect_runs prev st then Some (search st) else timer) st ->
  runtime_ok (commit_result prev st timer inflight).
Proof.
  intros Hp Hi Ht. unfold commit_result, runtime_ok.
  destruct (search_effect_runs prev st), (filter_effect_runs prev st), (page_effect_runs prev st),
    (Z.eqb (page st) 1); destruct st; simpl in *;
    (split; [reflexivity | split; [lia | split; [exact Ht |]]]);
    repeat (apply Forall_app; split); auto; repeat constructor; apply request_of_ok; simpl; lia.
Qed.

(** A render that keeps the debounced search keeps the timer in step. *)
Lemma timer_ok_next timer st st' :
  timer_ok timer st -> debouncedSearch st' = debouncedSearch st ->
  timer_ok (if search_effect_runs (Some st) st' then Some (search st') else timer) st'.
Proof.
  unfold search_effect_runs, dep_changed. intros Ht Hd.
  destruct (String.eqb_spec (search st) (search st')) as [Hs|Hs]; simpl; [|reflexivity].
  destruct timer; simpl in *; congruence.
Qed.

Lemma Forall_remove_nth {A} (P : A -> Prop) i l : Forall P l -> Forall P (remove_nth i l).
Proof.
  revert i; induction l as [|x l IH]; intros [|i] H; simpl; auto;
    inversion_clear H; auto.
Qed.

#[export] Hint Resolve Forall_remove_nth request_of_ok : jsmodel.

Section StepFacts.
Context `{DateStringParser} `{LocalTZA}.

Lemma settle_updates_deps st req now o :
  same_deps st (apply_updates st (settle_updates req now o)).
Proof.
  destruct o as [[[|] [d|]]|]; destruct st; repeat split.
Qed.

Lemma step_ok rt e rt' : runtime_ok rt -> step rt e = Some rt' -> runtime_ok rt'.
Proof.
  destruct rt as [st deps timer inflight]. intros (Hd & Hp & Ht & Hi) Hs; simpl in *; subst deps.
  destruct e as [s|s|s|s| | | |i now o]; unfold step in Hs; simpl in Hs;
    repeat match type of Hs with
    | (if ?b then _ else None) = Some _ => destruct b eqn:G; [|discriminate]
    | match ?m with Some _ => _ | None => None end = Some _ =>
        let x := fresh "x" in destruct m as [x|] eqn:G; [|discriminate]
    end;
    rewrite render_spec in Hs; injection Hs as <-; apply commit_result_ok; simpl;
    auto with jsmodel.
  all: try (destruct (settle_updates_deps st x now o) as (_ & Hs2 & _ & _ & _ & Hs6);
            first [rewrite Hs6; exact Hp | apply timer_ok_next; auto]).
  all: try (apply timer_ok_next; [exact Ht | destruct st; reflexivity]).
  all: destruct st; simpl in *; try lia.
  - apply andb_prop in G as [G1 _]. apply Z.ltb_lt in G1. unfold pagination_shown in G1. simpl in G1. lia.
  - rewrite String.eqb_refl. simpl. congruence.
Qed.
End StepFacts.

Lemma commit_result_quiet st st' timer inflight :
  same_deps st st' -> commit_result (Some st) st' timer inflight = mkRuntime st' (Some st') timer inflight.
Proof.
  intros (Hs & Hd & Hsf & Hdf & Hcf & Hp). unfold commit_result, search_effect_runs,
    filter_effect_runs, page_effect_runs, dep_changed.
  rewrite Hs, Hd, Hsf, Hdf, Hcf, Hp, !String.eqb_refl, Z.eqb_refl. simpl. now rewrite app_nil_r.
Qed.

Lemma nth_error_last {A} (l : list A) (x : A) : nth_error (l ++ [x])%list (length l) = Some x.
Proof. rewrite nth_error_app2, Nat.sub_diag by lia. reflexivity. Qed.

Lemma remove_nth_last {A} (l : list A) (x : A) : remove_nth (length l) (l ++ [x])%list = l.
Proof. induction l as [|y l IH]; simpl; [reflexivity | now rewrite IH]. Qed.

Lemma remove_nth_app {A} (l l' : list A) i :
  remove_nth (length l + i) (l ++ l')%list = (l ++ remove_nth i l')%list.
Proof. induction l as [|y l IH]; simpl; [reflexivity | now rewrite IH]. Qed.

#[export] Hint Rewrite @nth_error_last @remove_nth_last : jsrw.

(** A render that changes a dependency of the filter effect, not the
    search box nor the page: [setPage(1)] and a fetch of the render's page,
    then a second fetch of page 1 when the page was not 1. *)
Lemma filter_change_result st st' timer inflight :
  search st' = search st -> page st' = page st -> filter_effect_runs (Some st) st' = true ->
  commit_result (Some st) st' timer inflight
  = mkRuntime (apply_update (apply_update st' (SetPage 1)) (SetLoading true))
      (Some (apply_update (apply_update st' (SetPage 1)) (SetLoading true))) timer
      (inflight ++ request_of st'
         :: (if Z.eqb (page st') 1 then [] else [request_of (apply_update st' (SetPage 1))]))%list.
Proof.
  intros Hs Hp Hf. unfold commit_result. rewrite Hf.
  unfold search_effect_runs, page_effect_runs, dep_changed. rewrite Hs, Hp, String.eqb_refl, Z.eqb_refl.
  destruct (Z.eqb (page st) 1); reflexivity.
Qed.

(** A keystroke: the search box changes, the debounce restarts when the
    text differs, nothing is fetched. *)
Lemma typing_result st timer inflight s :
  commit_result (Some st) (apply_update st (SetSearch s)) timer inflight
  = mkRuntime (apply_update st (SetSearch s)) (Some (apply_update st (SetSearch s)))
      (if String.eqb (search st) s then timer else Some s) inflight.
Proof.
  destruct st. unfold commit_result, search_effect_runs, filter_effect_runs, page_effect_runs,
    dep_changed. simpl. rewrite !String.eqb_refl, Z.eqb_refl. simpl.
  rewrite app_nil_r. now destruct (String.eqb _ s).
Qed.

Section SettleFacts.
Context `{DateStringParser} `{LocalTZA}.

(** A settlement re-renders without running an effect. *)
Lemma settle_result st req now o timer inflight :
  commit_result (Some st) (apply_updates st (settle_updates req now o)) timer inflight
  = mkRuntime (apply_updates st (settle_updates req now o))
      (Some (apply_updates st (settle_updates req now o))) timer inflight.
Proof. apply commit_result_quiet, settle_updates_deps. Qed.

Lemma settle_step rt i now o req :
  rt_deps rt = Some (rt_state rt) -> nth_error (rt_inflight rt) i = Some req ->
  step rt (Settle i now o)
  = Some (mkRuntime (apply_updates (rt_state rt) (settle_updates req now o))
            (Some (apply_updates (rt_state rt) (settle_updates req now o)))
            (rt_timer rt) (remove_nth i (rt_inflight rt))).
Proof.
  intros Hd Hi. unfold step. rewrite Hi, render_spec, Hd. f_equal. apply settle_result.
Qed.
End SettleFacts.

Lemma nth_error_second_last {A} (l : list A) (a b : A) :
  nth_error (l ++ [a; b])%list (S (length l)) = Some b.
Proof. induction l as [|x l IH]; simpl; auto. Qed.

Lemma remove_nth_second_last {A} (l : list A) (a b : A) :
  remove_nth (S (length l)) (l ++ [a; b])%list = (l ++ [a])%list.
Proof.
  induction l as [|x l IH]; [reflexivity |].
  change (x :: remove_nth (S (length l)) (l ++ [a; b]) = x :: l ++ [a])%list. now rewrite IH.
Qed.

Section ChooseFacts.
Context `{DateStringParser} `{LocalTZA}.

(** Choosing another status, in closed form. *)
Lemma status_step rt s :
  rt_deps rt = Some (rt_state rt) -> statusFilter (rt_state rt) <> s ->
  let st := apply_update (rt_state rt) (SetStatusFilter s) in
  step rt (ChooseStatus s)
  = Some (mkRuntime (apply_update (apply_update st (SetPage 1)) (SetLoading true))
            (Some (apply_update (apply_update st (SetPage 1)) (SetLoading true))) (rt_timer rt)
            (rt_inflight rt ++ request_of st
               :: (if Z.eqb (page st) 1 then [] else [request_of (apply_update st (SetPage 1))]))%list).
Proof.
  intros Hd Hs st. unfold step. rewrite render_spec, Hd. simpl apply_updates.
  subst st; destruct (rt_state rt) as [e l p tp t sr ds sf df cf]; simpl in Hs.
  rewrite filter_change_result; try reflexivity.
  unfold filter_effect_runs, dep_changed. simpl. apply String.eqb_neq in Hs. rewrite Hs.
  now rewrite !orb_true_r.
Qed.
End ChooseFacts.

Section EventFacts.
Context `{DateStringParser} `{LocalTZA}.

Lemma typing_step rt s :
  rt_deps rt = Some (rt_state rt) ->
  step rt (TypeSearch s)
  = Some (mkRuntime (apply_update (rt_state rt) (SetSearch s))
            (Some (apply_update (rt_state rt) (SetSearch s)))
            (if String.eqb (search (rt_state rt)) s then rt_timer rt else Some s) (rt_inflight rt)).
Proof. intros Hd. unfold step. rewrite render_spec, Hd. f_equal. apply typing_result. Qed.

Lemma debounce_step rt s :
  rt_deps rt = Some (rt_state rt) -> rt_timer rt = Some s ->
  step rt DebounceFires
  = Some (commit_result (Some (rt_state rt)) (apply_update (rt_state rt) (SetDebouncedSearch s))
            None (rt_inflight rt)).
Proof. intros Hd Ht. unfold step. rewrite Ht, render_spec, Hd. reflexivity. Qed.

(** A render that only moves the page runs the page effect alone. *)
Lemma page_move_result st p timer inflight :
  p <> page st ->
  commit_result (Some st) (apply_update st (SetPage p)) timer inflight
  = mkRuntime (apply_update (apply_update st (SetPage p)) (SetLoading true))
      (Some (apply_update (apply_update st (SetPage p)) (SetLoading true))) timer
      (inflight ++ [request_of (apply_update st (SetPage p))])%list.
Proof.
  intros Hp. destruct st. unfold commit_result, search_effect_runs, filter_effect_runs,
    page_effect_runs, dep_changed. simpl in *. rewrite !String.eqb_refl.
  apply Z.eqb_neq in Hp. rewrite Z.eqb_sym, Hp. reflexivity.
Qed.
End EventFacts.

Lemma same_deps_refl st : same_deps st st.
Proof. repeat split. Qed.

Lemma same_deps_trans st1 st2 st3 : same_deps st1 st2 -> same_deps st2 st3 -> same_deps st1 st3.
Proof. unfold same_deps. intuition congruence. Qed.

Section ResolveFacts.
Context `{DateStringParser} `{LocalTZA}.

(** Every resolved response, successful or not, turns the spinner off. *)
Lemma settle_resolved_loading st req now r :
  loading (apply_updates st (settle_updates req now (Resolved r))) = false.
Proof. destruct r as [[|] [d|]]; destruct st; reflexivity. Qed.
End ResolveFacts.

Section RenderFacts.
Context `{DateStringParser} `{LocalTZA}.

Definition invalid_date : completion string := Throw (Some "Invalid time value").

Lemma enquiry_row_cases e :
  (parse_date_string (createdAt e) = None
   -> enquiry_row e = Some (Throw (Some "Invalid time value")))
  /\ (forall t, parse_date_string (createdAt e) = Some t -> exists r, enquiry_row e = Some (Normal r)).
Proof.
  unfold enquiry_row. destruct (format_page_patterns (parse_date_string (createdAt e)))
    as (_ & _ & Hnone & Hsome).
  split.
  - intros Hp. rewrite (proj1 (Hnone Hp)). reflexivity.
  - intros t Hp. destruct (proj1 (Hsome t Hp)) as (s & ->). eexists. reflexivity.
Qed.

(** The rows render unless one enquiry's date does not parse, and then
    the render throws [RangeError('Invalid time value')]. *)
Lemma render_rows_cases l :
  (render_rows l = Some (Throw (Some "Invalid time value"))
   /\ exists e, In e l /\ parse_date_string (createdAt e) = None)
  \/ ((exists rows, render_rows l = Some (Normal rows))
      /\ forall e, In e l -> parse_date_string (createdAt e) <> None).
Proof.
  induction l as [|e l IH]; [right; split; [eexists; reflexivity | intros e []] |].
  destruct (enquiry_row_cases e) as [Hn Hs]. cbn [render_rows].
  destruct (parse_date_string (createdAt e)) as [t|] eqn:Hp.
  - destruct (Hs t eq_refl) as (r & ->).
    destruct IH as [(Hr & e' & Hin & He') | ((rows & Hr) & Hall)]; rewrite Hr.
    + left. split; [reflexivity | exists e'; simpl; auto].
    + right. split; [eexists; reflexivity |]. intros x [<-|Hx]; [congruence | auto].
  - rewrite (Hn eq_refl). left. split; [reflexivity | exists e; simpl; auto].
Qed.
End RenderFacts.
