(* ===== verification/EnquiriesProps.v ===== *)
(** * EnquiriesProps: what the enquiries page does, event by event

    The theorems about the model of Enquiries.v: the invariant of every
    reachable runtime, the termination of the render loop, the requests a
    filter change, a keystroke, the debounce and the pagination buttons
    issue, the race between the two requests of a filter change made away
    from page 1, the double fetch at the mount, a rejected request that
    leaves the spinner on while responses to every request in flight
    clear it (a liveness property: a trace of [Settle] events exists and
    reaches a quiet state), the date filters as local-day bounds, what a
    successful response does to the table (the server's rows kept by the
    request's date and class filters, the server's unfiltered counts),
    the Created column as ['dd MMM yyyy'] of the local day, and the
    render, which throws date-fns' [RangeError] exactly when a listed
    enquiry's [createdAt] does not parse. *)

From Stdlib Require Import String ZArith List Lia Bool.
From S2P Require Import Prelude JsString JsDate DateFns SlotCalendar Enquiries.
Import ListNotations.
Local Open Scope string_scope.

(** A successful response of [getEnquiries]. *)
Definition ok_payload (d : EnquiriesPayload) : Settlement :=
  Resolved (mkApiResult true (Some d)).

Section EnquiriesProperties.
Context `{DateStringParser} `{LocalTZA}.

(** What [date_matches] keeps for any filter value, on the local day of
    [createdAt]. *)
Definition created_day (e : Enquiry) : option Z :=
  option_map (fun t => Day (LocalTime t)) (parse_date_string (createdAt e)).

Definition kept_from (c : option Z) (bound : Z) : bool :=
  match c with Some c => Z.leb bound c | None => false end.

Definition date_keep (now dd : Z) (df : string) (e : Enquiry) : bool :=
  let D := Day (LocalTime now) in
  if String.eqb df "today" then kept_from (created_day e) D
  else if String.eqb df "week" then kept_from (created_day e) (D - WeekDay (LocalTime now))%Z
  else if String.eqb df "month" then kept_from (created_day e) (D - (dd - 1))%Z
  else true.


(** C24. In every state the page can reach, the page number is at least
    1, the debounce timer holds the search box's text (and when no timer
    is pending the debounced search has caught up with it), and every
    request in flight asks for 10 rows of a page from 1. *)
Theorem enquiries_reachable_ok (rt : Runtime) : reachable rt -> runtime_ok rt.
Proof.
  induction 1 as [rt Hm|rt e rt' _ IH Hs].
  - unfold mount in Hm. rewrite commit_spec in Hm. injection Hm as <-.
    apply commit_result_ok; simpl; auto; lia.
  - exact (step_ok rt e rt' IH Hs).
Qed.

(** C25. The render loop terminates: with any fuel from 3 on, committing
    a render runs the effects to a fixed point and gives the same runtime,
    the closed form [commit_result]. *)
Theorem commit_terminates (n : nat) prev st timer inflight :
  (3 <= n)%nat -> commit n prev st timer inflight = Some (commit_result prev st timer inflight).
Proof. intros Hn. replace n with (3 + (n - 3))%nat by lia. apply commit_spec_fuel. Qed.

(** C26. Choosing another status: the page goes back to 1 with the
    spinner on, and the effect fetches the page the table was on with the
    new status, followed, when that page was not 1, by a second fetch of
    page 1. *)
Theorem status_change_requests (rt : Runtime) (s : string) :
  runtime_ok rt -> statusFilter (rt_state rt) <> s ->
  let st := apply_update (rt_state rt) (SetStatusFilter s) in
  exists rt', step rt (ChooseStatus s) = Some rt'
    /\ page (rt_state rt') = 1%Z /\ loading (rt_state rt') = true
    /\ rt_inflight rt' = (rt_inflight rt ++ request_of st
         :: (if Z.eqb (page st) 1 then [] else [request_of (apply_update st (SetPage 1))]))%list.
Proof.
  intros (Hd & _) Hs st. rewrite (status_step rt s Hd Hs).
  eexists; split; [reflexivity |]. subst st; destruct (rt_state rt); repeat split.
Qed.

(** C27. The race of a status change made away from page 1: the first
    fetch still asks for the old page, and when its response arrives after
    the one for page 1, the table shows the old page's rows (with that
    response's page count and total) while the pagination says page 1. *)
Theorem stale_page_race (rt : Runtime) (s : string) now1 now2 d1 dp :
  runtime_ok rt -> statusFilter (rt_state rt) <> s -> page (rt_state rt) <> 1%Z ->
  let n := length (rt_inflight rt) in
  let st := apply_update (rt_state rt) (SetStatusFilter s) in
  exists rt',
    run_events rt [ChooseStatus s; Settle (S n) now1 (ok_payload d1);
                   Settle n now2 (ok_payload dp)] = Some rt'
    /\ q_page (req_query (request_of st)) = page (rt_state rt)
    /\ page (rt_state rt') = 1%Z
    /\ enquiries (rt_state rt') = client_filter now2 (request_of st) (p_enquiries dp)
    /\ totalPages (rt_state rt') = p_totalPages dp /\ total (rt_state rt') = p_total dp
    /\ loading (rt_state rt') = false /\ rt_inflight rt' = rt_inflight rt.
Proof.
  intros (Hd & _) Hs Hp n st. subst n st. cbn [run_events]. rewrite (status_step rt s Hd Hs).
  replace (Z.eqb (page (apply_update (rt_state rt) (SetStatusFilter s))) 1) with false
    by (destruct (rt_state rt); simpl in *; symmetry; now apply Z.eqb_neq).
  rewrite settle_step
    with (req := request_of (apply_update (apply_update (rt_state rt) (SetStatusFilter s)) (SetPage 1)))
    by (reflexivity || apply nth_error_second_last).
  cbn [rt_state rt_timer rt_inflight]. rewrite remove_nth_second_last.
  rewrite settle_step with (req := request_of (apply_update (rt_state rt) (SetStatusFilter s)))
    by (reflexivity || apply nth_error_last).
  cbn [rt_state rt_inflight]. rewrite remove_nth_last.
  eexists; split; [reflexivity |].
  destruct (rt_state rt); simpl; repeat split.
Qed.

(** C28. Typing in the search box never fetches: after any sequence of
    keystrokes the requests in flight are the same, and the page's state
    differs only by the search box's text. *)
Theorem typing_issues_no_request (rt : Runtime) (ss : list string) :
  runtime_ok rt ->
  exists rt', run_events rt (map TypeSearch ss) = Some rt'
    /\ rt_inflight rt' = rt_inflight rt
    /\ rt_state rt' = apply_updates (rt_state rt) (map SetSearch ss).
Proof.
  revert rt; induction ss as [|s ss IH]; intros rt Hok.
  - exists rt. auto.
  - pose proof (typing_step rt s (proj1 Hok)) as Hs. cbn [map run_events]. rewrite Hs.
    destruct (IH _ (step_ok _ _ _ Hok Hs)) as (rt' & Hrun & Hi & Hst).
    exists rt'. auto.
Qed.

(** C29. When the debounce timer fires with the text [s], the debounced
    search becomes [s] and no timer is left; if [s] differs from the
    previous debounced search the filter effect fetches with [s] exactly as
    a filter change does (the current page, then page 1 when it was not
    1), otherwise nothing is fetched. *)
Theorem debounce_fetch (rt : Runtime) (s : string) :
  runtime_ok rt -> rt_timer rt = Some s ->
  let st := apply_update (rt_state rt) (SetDebouncedSearch s) in
  exists rt', step rt DebounceFires = Some rt'
    /\ rt_timer rt' = None /\ debouncedSearch (rt_state rt') = s
    /\ rt_inflight rt' = (rt_inflight rt ++
         if String.eqb (debouncedSearch (rt_state rt)) s then []
         else request_of st
              :: (if Z.eqb (page st) 1 then [] else [request_of (apply_update st (SetPage 1))]))%list.
Proof.
  intros (Hd & _) Ht st. rewrite (debounce_step rt s Hd Ht). eexists; split; [reflexivity |].
  subst st. destruct (String.eqb_spec (debouncedSearch (rt_state rt)) s) as [<-|Hne].
  - rewrite commit_result_quiet by (destruct (rt_state rt); repeat split).
    rewrite app_nil_r. destruct (rt_state rt); repeat split.
  - rewrite filter_change_result by (destruct (rt_state rt); simpl in *; try reflexivity;
      unfold filter_effect_runs, dep_changed; simpl; apply String.eqb_neq in Hne; now rewrite Hne).
    destruct (rt_state rt); repeat split.
Qed.

(** C30. A request that rejects changes nothing but the requests in
    flight: [setLoading(false)] is never reached, so the spinner stays on
    when it was the last request. *)
Theorem rejected_fetch_keeps_state (rt : Runtime) (i : nat) (now : timeval) (req : Request) :
  runtime_ok rt -> nth_error (rt_inflight rt) i = Some req ->
  step rt (Settle i now Rejected)
  = Some (mkRuntime (rt_state rt) (Some (rt_state rt)) (rt_timer rt) (remove_nth i (rt_inflight rt))).
Proof. intros (Hd & _) Hi. now rewrite (settle_step rt i now Rejected req Hd Hi). Qed.

(** C31. Mounting the page fetches the first page twice: the filter
    effect and the page effect both run at the mount with the same
    closure. *)
Theorem mount_fetches_first_page_twice :
  exists rt, mount = Some rt
    /\ rt_inflight rt = [request_of initial_state; request_of initial_state]
    /\ loading (rt_state rt) = true /\ page (rt_state rt) = 1%Z.
Proof. unfold mount. rewrite commit_spec. eexists; split; [reflexivity |]. repeat split. Qed.

(** C32. The pagination buttons: Next, when shown and enabled, moves to
    [min(totalPages, page + 1)] and Prev to [max(1, page - 1)], each
    fetching exactly the new page with the current filters. *)
Theorem pagination_requests (rt : Runtime) :
  runtime_ok rt -> pagination_shown (rt_state rt) = true ->
  let st := rt_state rt in
  let next := Z.min (totalPages st) (page st + 1) in
  let prev := Z.max 1 (page st - 1) in
  (page st <> totalPages st ->
   exists rt', step rt ClickNext = Some rt' /\ page (rt_state rt') = next /\ (1 <= next)%Z
     /\ rt_inflight rt' = (rt_inflight rt ++ [request_of (apply_update st (SetPage next))])%list)
  /\ (page st <> 1%Z ->
   exists rt', step rt ClickPrev = Some rt' /\ page (rt_state rt') = prev /\ (1 <= prev)%Z
     /\ rt_inflight rt' = (rt_inflight rt ++ [request_of (apply_update st (SetPage prev))])%list).
Proof.
  intros (Hd & Hp & _) Hsh st next prev. subst st next prev. pose proof Hsh as Hlt.
  unfold pagination_shown in Hlt. apply Z.ltb_lt in Hlt.
  split; intros Hne; pose proof (proj2 (Z.eqb_neq _ _) Hne) as Hb;
    unfold step; rewrite Hsh, Hb; simpl; rewrite render_spec, Hd; simpl apply_updates;
    rewrite page_move_result by lia; eexists; (split; [reflexivity |]);
    destruct (rt_state rt); simpl in *; repeat split; lia.
Qed.

(** The client-side filters of a response are one filter by the
    conjunction of the date condition and the class condition. *)
Lemma client_filter_conj (now : timeval) (req : Request) (l : list Enquiry) :
  client_filter now req l
  = filter (fun e => (String.eqb (req_dateFilter req) "" || date_matches now (req_dateFilter req) e)
                     && (String.eqb (req_classFilter req) ""
                         || String.eqb (grade e) (req_classFilter req))) l.
Proof.
  unfold client_filter.
  destruct (String.eqb (req_dateFilter req) ""), (String.eqb (req_classFilter req) "");
    simpl; rewrite ?filter_filter_andb; [symmetry; apply filter_true | ..];
    apply filter_ext; intros e; now rewrite ?andb_true_r.
Qed.

(** The date filters on a valid current date, as local-day bounds. *)
Lemma date_filter_bounds (now dd : Z) (enq : Enquiry) :
  in_range now -> getDate (Some now) = Some dd ->
  let D := Day (LocalTime now) in
  let created := option_map (fun t => Day (LocalTime t)) (parse_date_string (createdAt enq)) in
  date_matches (Some now) "today" enq
    = match created with Some c => Z.leb D c | None => false end
  /\ date_matches (Some now) "week" enq
    = match created with Some c => Z.leb (D - WeekDay (LocalTime now)) c | None => false end
  /\ date_matches (Some now) "month" enq
    = match created with Some c => Z.leb (D - (dd - 1)) c | None => false end.
Proof.
  intros Hn Hd D created. unfold date_matches. cbn -[startOfDay startOfWeek startOfMonth].
  unfold startOfWeek. rewrite startOfDay_value, startOfWeek_on_value, (startOfMonth_value _ dd)
    by (lia || assumption).
  replace ((WeekDay (LocalTime now) - 0) mod 7)%Z with (WeekDay (LocalTime now))
    by (pose proof (WeekDay_range (LocalTime now)); zdiv_lia).
  subst created D. destruct (parse_date_string (createdAt enq)) as [t|]; cbn [option_map js_ge];
    [| repeat split].
  pose proof (midnight_le now 0 t) as Hm. rewrite Z.mul_0_l, !Z.sub_0_r in Hm.
  rewrite Hm, !midnight_le. repeat split.
Qed.

(** C38. The enquiry date filters are lower bounds on the local day of
    [createdAt]: "today" keeps the enquiries created from local midnight
    on, "week" from the midnight of the last Sunday (date-fns'
    [startOfWeek] without options), "month" from the first of the month;
    a future date passes all three and an unparsable one none. *)
Theorem enquiry_date_filter (now dd : Z) (enq : Enquiry) :
  in_range now -> getDate (Some now) = Some dd ->
  let D := Day (LocalTime now) in
  let created := option_map (fun t => Day (LocalTime t)) (parse_date_string (createdAt enq)) in
  date_matches (Some now) "today" enq
    = match created with Some c => Z.leb D c | None => false end
  /\ date_matches (Some now) "week" enq
    = match created with Some c => Z.leb (D - WeekDay (LocalTime now)) c | None => false end
  /\ date_matches (Some now) "month" enq
    = match created with Some c => Z.leb (D - (dd - 1)) c | None => false end.
Proof. exact (date_filter_bounds now dd enq). Qed.

Lemma date_matches_keep (now dd : Z) (df : string) (e : Enquiry) :
  in_range now -> getDate (Some now) = Some dd ->
  String.eqb df "" || date_matches (Some now) df e = date_keep now dd df e.
Proof.
  intros Hn Hd. destruct (date_filter_bounds now dd e Hn Hd) as (Ht & Hw & Hm).
  unfold date_keep, kept_from, created_day.
  destruct (String.eqb_spec df "today") as [->|N1]; [exact Ht |].
  destruct (String.eqb_spec df "week") as [->|N2]; [exact Hw |].
  destruct (String.eqb_spec df "month") as [->|N3]; [exact Hm |].
  unfold date_matches. apply String.eqb_neq in N1, N2, N3. rewrite N1, N2, N3.
  now destruct (String.eqb df "").
Qed.

(** C33. A successful response settles into the table: the rows are the
    server's rows kept by the date filter and the class filter read
    from the request's own closure (the date filter as bounds on the
    local day of [createdAt], the class filter as equality of grades),
    the page count and the total are the server's, unfiltered, the
    spinner is off, the request leaves the set in flight, and the page,
    the search and the filters stay as they were. *)
Theorem settle_success_shows_rows (rt rt' : Runtime) (i : nat) (req : Request) (now dd : Z)
    (r : ApiResult) (d : EnquiriesPayload) :
  runtime_ok rt -> in_range now -> getDate (Some now) = Some dd ->
  nth_error (rt_inflight rt) i = Some req -> r_success r = true -> r_data r = Some d ->
  step rt (Settle i (Some now) (Resolved r)) = Some rt' ->
  enquiries (rt_state rt')
    = filter (fun e => date_keep now dd (req_dateFilter req) e
                       && (String.eqb (req_classFilter req) ""
                           || String.eqb (grade e) (req_classFilter req))) (p_enquiries d)
  /\ totalPages (rt_state rt') = p_totalPages d /\ total (rt_state rt') = p_total d
  /\ loading (rt_state rt') = false /\ rt_inflight rt' = remove_nth i (rt_inflight rt)
  /\ same_deps (rt_state rt) (rt_state rt').
Proof.
  intros (Hdeps & _) Hn Hdd Hi Hs Hd Hstep.
  assert (Hu : settle_updates req (Some now) (Resolved r)
               = [SetEnquiries (client_filter (Some now) req (p_enquiries d));
                  SetTotalPages (p_totalPages d); SetTotal (p_total d); SetLoading false])
    by (unfold settle_updates; now rewrite Hs, Hd).
  pose proof (settle_step rt i (Some now) (Resolved r) req Hdeps Hi) as Hss.
  rewrite Hss in Hstep.
  assert (E : rt' = mkRuntime (apply_updates (rt_state rt) (settle_updates req (Some now) (Resolved r)))
                      (Some (apply_updates (rt_state rt) (settle_updates req (Some now) (Resolved r))))
                      (rt_timer rt) (remove_nth i (rt_inflight rt))) by congruence.
  subst rt'. cbn [rt_state rt_inflight].
  split; [| split; [| split; [| split; [| split; [reflexivity |]]]]];
    [rewrite Hu .. | apply settle_resolved_loading | apply settle_updates_deps];
    destruct (rt_state rt); [| reflexivity | reflexivity].
  cbn. rewrite client_filter_conj. apply filter_ext. intros e. now rewrite (date_matches_keep now dd).
Qed.

(** C19. The Created column of a row is the local calendar date of
    [createdAt] as date-fns prints ['dd MMM yyyy']: the day of the month
    on two digits, the abbreviated English month name and the year on
    four digits (for a parsable date of a positive year). *)
Theorem enquiry_row_date (e : Enquiry) (t y m dd : Z) :
  parse_date_string (createdAt e) = Some t -> local_civil t = (y, m, dd) -> (0 < y)%Z ->
  exists r abbr, enquiry_row e = Some (Normal r) /\ month_of month_abbreviated m = Some abbr
    /\ row_date r = (add_leading_zeros dd 2 ++ " " ++ abbr ++ " " ++ add_leading_zeros y 4)%string.
Proof.
  intros Hp Hc Hy. destruct (format_page_values t y m dd Hc Hy) as (abbr & wide & Ha & _ & Hf & _).
  unfold enquiry_row. rewrite Hp, Hf. cbn [option_map]. do 2 eexists. split; [reflexivity |].
  split; [exact Ha | reflexivity].
Qed.

(** C15. The spinner clears once the server answers: from any state of
    the page with requests in flight, answering each of them in the order
    they were issued, with any responses, leaves nothing in flight and
    [loading] false, with the page, the search and the filters as they
    were. *)
Theorem responses_clear_spinner (rt : Runtime) (now : timeval) (rs : list ApiResult) :
  runtime_ok rt -> rt_inflight rt <> [] -> length rs = length (rt_inflight rt) ->
  exists rt', run_events rt (map (fun r => Settle 0 now (Resolved r)) rs) = Some rt'
    /\ rt_inflight rt' = [] /\ loading (rt_state rt') = false
    /\ same_deps (rt_state rt) (rt_state rt').
Proof.
  intros (Hd & _) Hne Hlen. revert rt Hd Hne Hlen.
  induction rs as [|r rs IH]; intros rt Hd Hne Hlen.
  - destruct (rt_inflight rt); [contradiction | discriminate].
  - destruct (rt_inflight rt) as [|req rest] eqn:Hi; [contradiction |].
    cbn [map run_events]. rewrite (settle_step rt 0 now (Resolved r) req Hd) by now rewrite Hi.
    rewrite Hi. cbn [remove_nth].
    destruct rest as [|req' rest'].
    + destruct rs; [| discriminate]. eexists; split; [reflexivity |].
      split; [reflexivity |]. split; [apply settle_resolved_loading | apply settle_updates_deps].
    + destruct (IH (mkRuntime _ (Some (apply_updates (rt_state rt) (settle_updates req now (Resolved r))))
                     (rt_timer rt) (req' :: rest')) eq_refl ltac:(discriminate))
        as (rt' & Hrun & Hin & Hl & Hs); [simpl in *; lia |].
      exists rt'. split; [exact Hrun |]. split; [exact Hin |]. split; [exact Hl |].
      eapply same_deps_trans; [apply settle_updates_deps | exact Hs].
Qed.

(** C17. The enquiries page crashes on one bad date: once loaded, if any
    listed enquiry's [createdAt] does not parse, rendering its row calls
    [format] on an Invalid Date, which throws
    [RangeError('Invalid time value')] and takes the whole page down;
    otherwise the page renders. *)
Theorem render_throws_on_invalid_date (st : PageState) :
  (render_enquiries st = Some (Throw (Some "Invalid time value"))
   <-> loading st = false /\ exists e, In e (enquiries st) /\ parse_date_string (createdAt e) = None)
  /\ (render_enquiries st <> Some (Throw (Some "Invalid time value"))
      -> exists v, render_enquiries st = Some (Normal v)).
Proof.
  unfold render_enquiries, table_view.
  destruct (loading st); [split; [split; [discriminate | intros [[=] _]] | intros _; eexists; reflexivity] |].
  destruct (enquiries st) as [|e l] eqn:Hl.
  - split; [split; [discriminate | intros (_ & x & [] & _)] | intros _; eexists; reflexivity].
  - rewrite <- Hl. destruct (render_rows_cases (enquiries st)) as [(Hr & Hex) | ((rows & Hr) & Hall)];
      rewrite Hr; rewrite Hl in *.
    + split; [split; auto | intros Hc; contradiction].
    + split; [split; [discriminate | intros (_ & x & Hx & Hp); exact (False_ind _ (Hall x Hx Hp))] |].
      intros _. eexists. reflexivity.
Qed.
End EnquiriesProperties.

Module EnquiriesScenario.
(** [new Date(s)] knows one timestamp: 2024-03-10T09:00:00Z. *)
#[local] Instance iso_parser : DateStringParser :=
  fun s => if String.eqb s "2024-03-10T09:00:00Z" then Some 1710061200000%Z else None.
#[local] Instance ist : LocalTZA := 19800000%Z.

Definition enq (id grade : string) : Enquiry :=
  mkEnquiry id ("TKN-" ++ id) "Asha Rao" "Kiran Rao" "9876543210" "asha@example.com" grade
    St_new "2024-03-10T09:00:00Z" (Some false) None.

Definition page2_st : PageState := mkPageState [enq "21" "LKG"] false 2 3 25 "" "" "" "" "".
Definition page2_rt : Runtime := mkRuntime page2_st (Some page2_st) None [].
Definition mount_rt : Runtime := commit_result None initial_state None [].

(** The debounce pending with the text "ab" on page 2. *)
Definition typed_st : PageState := mkPageState [] false 2 3 25 "ab" "" "" "" "".
Definition typed_rt : Runtime := mkRuntime typed_st (Some typed_st) (Some "ab") [].

Definition rows1 : EnquiriesPayload := mkEnquiriesPayload [enq "1" "Nursery"] 1 1.
Definition rows2 : EnquiriesPayload := mkEnquiriesPayload [enq "21" "LKG"] 3 25.

Lemma enquiries_reachable_ok_witness : reachable mount_rt /\ runtime_ok mount_rt.
Proof.
  assert (Hr : reachable mount_rt) by (apply reach_mount; vm_compute; reflexivity).
  split; [exact Hr | exact (enquiries_reachable_ok mount_rt Hr)].
Defined.

(** Three rounds are needed: a status change on page 2 does not settle
    in two. *)
Lemma commit_terminates_witness :
  commit 2 (Some page2_st) (apply_update page2_st (SetStatusFilter "new")) None [] = None
  /\ commit 5 (Some page2_st) (apply_update page2_st (SetStatusFilter "new")) None []
     = Some (commit_result (Some page2_st) (apply_update page2_st (SetStatusFilter "new")) None []).
Proof. split; [vm_compute; reflexivity | apply commit_terminates; lia]. Defined.

Lemma status_change_requests_witness :
  exists rt', step page2_rt (ChooseStatus "new") = Some rt'
    /\ page (rt_state rt') = 1%Z
    /\ map (fun r => q_page (req_query r)) (rt_inflight rt') = [2%Z; 1%Z]
    /\ map (fun r => q_status (req_query r)) (rt_inflight rt') = [Some "new"; Some "new"].
Proof.
  assert (Hok : runtime_ok page2_rt)
    by (split; [reflexivity | split; [simpl; lia | split; [reflexivity | constructor]]]).
  destruct (status_change_requests page2_rt "new" Hok ltac:(discriminate))
    as (rt' & Hs & Hp & _ & Hi).
  exists rt'. rewrite Hi. vm_compute. auto.
Defined.

(** Page 2's rows under "Page 1": the response for page 2 arrives last. *)
Lemma stale_page_race_witness :
  exists rt', run_events page2_rt [ChooseStatus "new"; Settle 1 None (ok_payload rows1);
                                   Settle 0 None (ok_payload rows2)] = Some rt'
    /\ page (rt_state rt') = 1%Z /\ enquiries (rt_state rt') = [enq "21" "LKG"]
    /\ totalPages (rt_state rt') = 3%Z.
Proof.
  assert (Hok : runtime_ok page2_rt)
    by (split; [reflexivity | split; [simpl; lia | split; [reflexivity | constructor]]]).
  destruct (stale_page_race page2_rt "new" None None rows1 rows2 Hok ltac:(discriminate)
              ltac:(discriminate)) as (rt' & Hrun & _ & Hp & He & Htp & _).
  exists rt'. rewrite He, Htp. vm_compute. auto.
Defined.

Lemma typing_issues_no_request_witness :
  exists rt', run_events page2_rt (map TypeSearch ["a"; "ab"]) = Some rt'
    /\ rt_inflight rt' = [] /\ search (rt_state rt') = "ab" /\ page (rt_state rt') = 2%Z.
Proof.
  assert (Hok : runtime_ok page2_rt)
    by (split; [reflexivity | split; [simpl; lia | split; [reflexivity | constructor]]]).
  destruct (typing_issues_no_request page2_rt ["a"; "ab"] Hok) as (rt' & Hrun & Hi & Hst).
  exists rt'. rewrite Hi, Hst. vm_compute. auto.
Defined.

Lemma debounce_fetch_witness :
  exists rt', step typed_rt DebounceFires = Some rt'
    /\ rt_timer rt' = None
    /\ map (fun r => (q_page (req_query r), q_search (req_query r))) (rt_inflight rt')
       = [(2%Z, Some "ab"); (1%Z, Some "ab")].
Proof.
  assert (Hok : runtime_ok typed_rt)
    by (split; [reflexivity | split; [simpl; lia | split; [reflexivity | constructor]]]).
  destruct (debounce_fetch typed_rt "ab" Hok eq_refl) as (rt' & Hs & Ht & _ & Hi).
  exists rt'. rewrite Hi. vm_compute. auto.
Defined.

(** Both requests of the mount reject: nothing is in flight and the
    spinner stays on. *)
Lemma rejected_fetch_keeps_state_witness :
  run_events mount_rt [Settle 1 None Rejected; Settle 0 None Rejected]
  = Some (mkRuntime (rt_state mount_rt) (Some (rt_state mount_rt)) (rt_timer mount_rt) [])
  /\ loading (rt_state mount_rt) = true.
Proof.
  assert (Hok : runtime_ok mount_rt)
    by (split; [reflexivity | split; [vm_compute; discriminate | split; [reflexivity |
          repeat constructor; vm_compute; discriminate]]]).
  assert (Hi : nth_error (rt_inflight mount_rt) 1 = Some (request_of initial_state))
    by (vm_compute; reflexivity).
  split; [| vm_compute; reflexivity].
  cbn [run_events]. rewrite (rejected_fetch_keeps_state mount_rt 1 None _ Hok Hi).
  assert (Hok' : runtime_ok (mkRuntime (rt_state mount_rt) (Some (rt_state mount_rt))
                                (rt_timer mount_rt) (remove_nth 1 (rt_inflight mount_rt))))
    by (destruct Hok as (_ & Hp & Ht & Hf); split; [reflexivity | split; [exact Hp |
          split; [exact Ht | apply Forall_remove_nth, Hf]]]).
  rewrite (rejected_fetch_keeps_state _ 0 None (request_of initial_state) Hok')
    by (vm_compute; reflexivity).
  vm_compute. reflexivity.
Defined.

Lemma pagination_requests_witness :
  (exists rt', step page2_rt ClickNext = Some rt' /\ page (rt_state rt') = 3%Z)
  /\ (exists rt', step page2_rt ClickPrev = Some rt' /\ page (rt_state rt') = 1%Z).
Proof.
  assert (Hok : runtime_ok page2_rt)
    by (split; [reflexivity | split; [simpl; lia | split; [reflexivity | constructor]]]).
  destruct (pagination_requests page2_rt Hok eq_refl) as [Hn Hp].
  destruct (Hn ltac:(discriminate)) as (rt1 & H1 & P1 & _).
  destruct (Hp ltac:(discriminate)) as (rt2 & H2 & P2 & _).
  split; [exists rt1 | exists rt2]; split; auto.
Defined.

(** On Sunday 10 March 2024 at 10:00 in India, an enquiry created that
    day at 14:30 passes the three filters. *)
Lemma enquiry_date_filter_witness :
  date_matches (Some 1710045000000%Z) "today" (enq "21" "LKG") = true
  /\ date_matches (Some 1710045000000%Z) "week" (enq "21" "LKG") = true
  /\ date_matches (Some 1710045000000%Z) "month" (enq "21" "LKG") = true.
Proof.
  assert (Hn : in_range 1710045000000%Z) by (unfold in_range, maxTime, msPerDay; lia).
  assert (Hd : getDate (Some 1710045000000%Z) = Some 10%Z) by (vm_compute; reflexivity).
  destruct (enquiry_date_filter _ _ (enq "21" "LKG") Hn Hd) as (A & B & C).
  rewrite A, B, C. vm_compute. auto.
Defined.

(** The two requests of the mount are answered, the first with an
    error: the spinner is off and nothing is in flight. *)
Lemma responses_clear_spinner_witness :
  exists rt', run_events mount_rt (map (fun r => Settle 0 None (Resolved r))
                [mkApiResult false None; mkApiResult true (Some rows1)]) = Some rt'
    /\ rt_inflight rt' = [] /\ loading (rt_state rt') = false.
Proof.
  assert (Hok : runtime_ok mount_rt)
    by (split; [reflexivity | split; [vm_compute; discriminate | split; [reflexivity |
          repeat constructor; vm_compute; discriminate]]]).
  destruct (responses_clear_spinner mount_rt None [mkApiResult false None; mkApiResult true (Some rows1)]
              Hok ltac:(vm_compute; discriminate) ltac:(vm_compute; reflexivity))
    as (rt' & Hrun & Hi & Hl & _).
  exists rt'. auto.
Defined.

(** A listed enquiry with the date "soon" crashes the page; the one of
    10 March renders as "10 Mar 2024". *)
Lemma render_throws_on_invalid_date_witness :
  render_enquiries (mkPageState [enq "21" "LKG"; mkEnquiry "22" "TKN-22" "Ravi" "Meera" "9000000000"
                                   "ravi@example.com" "UKG" St_in_progress "soon" None None]
                      false 1 1 2 "" "" "" "" "")
  = Some (Throw (Some "Invalid time value"))
  /\ render_enquiries page2_st <> Some (Throw (Some "Invalid time value")).
Proof.
  split.
  - apply render_throws_on_invalid_date. split; [reflexivity |].
    exists (mkEnquiry "22" "TKN-22" "Ravi" "Meera" "9000000000" "ravi@example.com" "UKG"
              St_in_progress "soon" None None).
    split; [simpl; auto | reflexivity].
  - vm_compute. discriminate.
Defined.
(** Page 2 waiting for its request; the response arrives on 10 March
    2024 at 14:30 in India. *)
Definition settle_rt : Runtime := mkRuntime page2_st (Some page2_st) None [request_of page2_st].

Lemma settle_success_shows_rows_witness :
  exists rt', step settle_rt (Settle 0 (Some 1710061200000%Z) (Resolved (mkApiResult true (Some rows2))))
              = Some rt'
    /\ enquiries (rt_state rt') = [enq "21" "LKG"] /\ total (rt_state rt') = 25%Z.
Proof.
  set (rt' := mkRuntime (apply_updates page2_st (settle_updates (request_of page2_st)
                 (Some 1710061200000%Z) (Resolved (mkApiResult true (Some rows2)))))
              (Some (apply_updates page2_st (settle_updates (request_of page2_st)
                 (Some 1710061200000%Z) (Resolved (mkApiResult true (Some rows2)))))) None []).
  assert (Hs : step settle_rt (Settle 0 (Some 1710061200000%Z) (Resolved (mkApiResult true (Some rows2))))
               = Some rt') by (apply settle_step; reflexivity).
  exists rt'. split; [exact Hs |].
  assert (Hok : runtime_ok settle_rt).
  { split; [reflexivity | split; [cbn; lia | split; [reflexivity |]]].
    constructor; [split; [reflexivity | cbn; lia] | constructor]. }
  assert (Hn : in_range 1710061200000%Z) by (unfold in_range, maxTime, msPerDay; lia).
  assert (Hdd : getDate (Some 1710061200000%Z) = Some 10%Z) by (vm_compute; reflexivity).
  assert (Hi : nth_error (rt_inflight settle_rt) 0 = Some (request_of page2_st)) by reflexivity.
  assert (Hsu : r_success (mkApiResult true (Some rows2)) = true) by reflexivity.
  assert (Hda : r_data (mkApiResult true (Some rows2)) = Some rows2) by reflexivity.
  pose proof (settle_success_shows_rows settle_rt rt' 0 (request_of page2_st) 1710061200000%Z 10%Z
              (mkApiResult true (Some rows2)) rows2 Hok Hn Hdd Hi Hsu Hda Hs) as HH.
  destruct HH as (He & _ & Ht & _).
  split; [rewrite He; vm_compute; reflexivity | rewrite Ht; reflexivity].
Defined.

Lemma enquiry_row_date_witness :
  exists r, enquiry_row (enq "21" "LKG") = Some (Normal r) /\ row_date r = "10 Mar 2024".
Proof.
  assert (Hp : parse_date_string (createdAt (enq "21" "LKG")) = Some 1710061200000%Z) by reflexivity.
  assert (Hc : local_civil 1710061200000%Z = (2024%Z, 3%Z, 10%Z)) by (vm_compute; reflexivity).
  destruct (enquiry_row_date (enq "21" "LKG") 1710061200000%Z 2024%Z 3%Z 10%Z Hp Hc ltac:(lia))
    as (r & abbr & Hr & Ha & Hd).
  exists r. split; [exact Hr |]. rewrite Hd. vm_compute in Ha. injection Ha as <-.
  vm_compute. reflexivity.
Defined.
End EnquiriesScenario.
